(** * eliza-plugin-bnb-v2: parameter resolution and transaction orchestration

    A shallow embedding of the action classes and handlers of the plugin
    ([src/actions/transfer.ts], [swap.ts], [bridge.ts], [stake.ts],
    [faucet.ts]) together with the properties stated about them.

    Conventions of the embedding.
    - JavaScript strings are Rocq [string]s (one character per code unit;
      every literal and every regular-expression capture of the source is
      ASCII).  A value of type [string | undefined] is an [option string]
      where the source tells the two apart, and a plain [string] with the
      empty string as the only falsy value where it only tests truthiness.
    - [bigint] is [Z].
    - Every call to a collaborator (wallet provider, public / wallet client,
      LI.FI SDK, agent runtime, callback) is recorded, with its response, in
      a chronological trace.  The collaborator is an arbitrary function of
      the history and the call, so that no assumption is made on what the
      chain answers.
    - A rejected promise / thrown exception is [Throw e], [e] being the
      value thrown: an [Error] object, given by its [message], or [null] or
      [undefined], the two values on which the [catch] blocks that read
      [error.message] themselves throw.  A string is read as the [Error]
      with that message wherever one is expected.  Any other value thrown
      is taken for an [Error] whose message is its text.
    - Logging ([logger.*]) is not modelled. *)

From Stdlib Require Import String Ascii ZArith QArith List Bool Lia DecimalString.
Import ListNotations.

Open Scope string_scope.
Open Scope list_scope.
Close Scope Q_scope.
Open Scope Z_scope.

Infix "^^" := String.append (at level 60, right associativity).

(* ================================================================== *)
(** * JavaScript strings and values *)
(* ================================================================== *)

Module Js.

(** [s.startsWith(p)] *)
Definition startsWith (s p : string) : bool := String.prefix p s.

(** [s.includes(p)] *)
Fixpoint includes (s p : string) : bool :=
  String.prefix p s ||
  match s with
  | EmptyString => false
  | String _ s' => includes s' p
  end.

Definition upper_ascii (c : ascii) : ascii :=
  let n := nat_of_ascii c in
  if (Nat.leb 97 n && Nat.leb n 122)%bool then ascii_of_nat (n - 32) else c.

Definition lower_ascii (c : ascii) : ascii :=
  let n := nat_of_ascii c in
  if (Nat.leb 65 n && Nat.leb n 90)%bool then ascii_of_nat (n + 32) else c.

Fixpoint map_string (f : ascii -> ascii) (s : string) : string :=
  match s with
  | EmptyString => EmptyString
  | String c s' => String (f c) (map_string f s')
  end.

(** [s.toUpperCase()] and [s.toLowerCase()].  The source only compares the
    results with the ASCII words "BNB" / the native symbol, and no
    non-ASCII character is mapped onto the letters of those words, so the
    ASCII mapping decides the same comparisons. *)
Definition toUpperCase : string -> string := map_string upper_ascii.
Definition toLowerCase : string -> string := map_string lower_ascii.

(** Truthiness of a string: only the empty string is falsy. *)
Definition truthy (s : string) : bool := negb (s =? "")%string.

(** Truthiness of a [string | undefined | null]. *)
Definition truthy_opt (o : option string) : bool :=
  match o with
  | Some s => truthy s
  | None => false
  end.

(** [a || b] on strings. *)
Definition or_else (a b : string) : string := if truthy a then a else b.

(** [parts.join(sep)] *)
Fixpoint join (sep : string) (parts : list string) : string :=
  match parts with
  | [] => ""
  | [x] => x
  | x :: rest => x ^^ sep ^^ join sep rest
  end.

Definition nl : string := String (ascii_of_nat 10) "".

(** A JavaScript value as [JSON.parse] or the model can produce it.  JSON
    has no literal for NaN or an infinity, so a number is a rational. *)
#[warnings="-register-all"] Inductive Val : Type :=
| Undefined
| Null
| Bool (b : bool)
| Num (q : Q)
| Str (s : string)
| Arr (items : list Val)
| Obj (fields : list (string * Val)).

Definition val_truthy (v : Val) : bool :=
  match v with
  | Undefined | Null => false
  | Bool b => b
  | Num q => negb (Qeq_bool q 0)
  | Str s => truthy s
  | Arr _ | Obj _ => true
  end.

Fixpoint lookup (k : string) (fields : list (string * Val)) : Val :=
  match fields with
  | [] => Undefined
  | (k', v) :: rest => if (k =? k')%string then v else lookup k rest
  end.

(** [v.k]: reading a property of [null] or [undefined] throws a
    [TypeError]; primitives and arrays have none of the keys the handlers
    read. *)
Definition get (v : Val) (k : string) : option Val :=
  match v with
  | Undefined | Null => None
  | Obj fields => Some (lookup k fields)
  | _ => Some Undefined
  end.

(** The regular expressions of the handlers.  Matching is left to the
    engine: [regexMatch] of the environment answers [s.match(re)], the list
    of the whole match and the groups, a group that did not take part being
    the empty string (the handlers only test groups for truthiness). *)
Inductive Regex : Type :=
| TransferRegex
| JsonFenceRegex
| TokenNotFoundRegex
| BasicSwapRegex
| AdvancedSwapRegex
| MentionRegex (token : string)
| BridgeRegex.

(** [m[i]], the empty string standing for [undefined]. *)
Definition group (m : list string) (i : nat) : string := nth i m "".

(** [m?.[i]] for the result of a match. *)
Definition group_opt (m : option (list string)) (i : nat) : string :=
  match m with
  | Some l => group l i
  | None => ""
  end.

End Js.

(* ================================================================== *)
(** * viem's unit formatting *)
(* ================================================================== *)

Module Viem.

Fixpoint repeat0 (n : nat) : string :=
  match n with
  | O => ""
  | S n' => String "0" (repeat0 n')
  end.

(** [s.padStart(n, '0')] *)
Definition padStart0 (s : string) (n : nat) : string :=
  repeat0 (n - String.length s) ^^ s.

(** [s.replace(/(0+)$/, '')], computed on the reversed digits. *)
Fixpoint drop0 (rev_digits : list ascii) : list ascii :=
  match rev_digits with
  | "0"%char :: rest => drop0 rest
  | _ => rev_digits
  end.

Definition stripTrailing0 (s : string) : string :=
  string_of_list_ascii (rev (drop0 (rev (list_ascii_of_string s)))).

(** [formatUnits(value, decimals)] of viem: the decimal digits of
    [|value|], left-padded to [decimals] digits, split [decimals] digits
    from the right, trailing zeros of the fraction removed. *)
Definition formatUnits (value : Z) (decimals : nat) : string :=
  let negative := value <? 0 in
  let display := NilZero.string_of_uint (N.to_uint (Z.to_N (Z.abs value))) in
  let display := padStart0 display decimals in
  let k := (String.length display - decimals)%nat in
  let integer := String.substring 0 k display in
  let fraction := stripTrailing0 (String.substring k decimals display) in
  (if negative then "-" else "") ^^
  (if Js.truthy integer then integer else "0") ^^
  (if Js.truthy fraction then "." ^^ fraction else "").

Definition formatEther (wei : Z) : string := formatUnits wei 18.

End Viem.


(* ================================================================== *)
(** * Collaborator calls, traces and the execution monad *)
(* ================================================================== *)

Module Fx.

(** A value thrown, or the reason of a rejected promise. *)
Inductive Exn : Type :=
| JsError (message : string)
| JsNull
| JsUndefined.

Coercion JsError : string >-> Exn.

Inductive Result (A : Type) : Type :=
| Ok (a : A)
| Throw (error : Exn).
Arguments Ok {A} a.
Arguments Throw {A} error.

(** An argument of a contract call. *)
Inductive Arg : Type :=
| AStr (s : string)
| AInt (z : Z).

(** The calls the actions make on their collaborators. *)
Inductive Call : Type :=
(* walletProvider *)
| SwitchChain (chain : string)
| ConfigureLiFiSdk (chain : string)
| FormatAddress (address : string)
| GetTokenAddress (chain symbol : string)
| CheckERC20Allowance (chain token owner spender : string)
| ApproveERC20 (chain token spender : string) (amount : Z)
| WalletTransfer (chain toAddress : string) (value : Z)
                 (gas gasPrice : option Z) (data : option string)
| TransferERC20 (chain token toAddress : string) (value : Z)
(* publicClient *)
| GetBalance (chain address : string)
| ReadContract (chain address functionName : string) (args : list Arg)
| SimulateContract (chain address functionName : string) (args : list Arg)
                   (value : option Z)
| WaitForTransactionReceipt (chain hash : string)
(* walletClient *)
| WriteContract (chain address functionName : string) (args : list Arg)
                (value : option Z)
(* LI.FI SDK *)
| GetRoutes (chain fromTokenAddress toTokenAddress : string) (fromAmount : Z)
            (fromAddress : string) (slippage : Q)
| ExecuteRoute
(* agent runtime *)
| ComposeState
| WalletInfo
| UseModel (template : string)
| InitWalletProvider
| Callback (text : string) (content : Js.Val).

(** The last process of the first executed step of a LI.FI route:
    [process?.status] and [process.txHash]. *)
Record Process : Type := { status : string; processTxHash : string }.

(** What a call answered, as the trace records it. *)
Inductive Resp : Type :=
| RUnit
| RInt (z : Z)
| RStr (s : string)
| RStatus (isClaimable : bool) (amount : Z)
| RLen (n : nat)
| RVal (v : Js.Val)
| RProcess (p : option Process)
| RThrow (error : Exn).

Definition Event : Type := (Call * Resp)%type.

(** The events so far, newest first. *)
Definition History : Type := list Event.

(** The collaborators.  Each oracle answers a call from the history of the
    run; there is one oracle per type of answer.  The remaining fields are
    the wallet's configuration and the pure library functions the actions
    use whose code is outside the repository. *)
Record Env : Type := {
  ask_unit : History -> Call -> Result unit;
  ask_int : History -> Call -> Result Z;
  ask_str : History -> Call -> Result string;
  ask_status : History -> Call -> Result (bool * Z);
  ask_len : History -> Call -> Result nat;
  ask_val : History -> Call -> Result Js.Val;
  ask_process : History -> Call -> Result (option Process);
  (** [walletProvider.getAddress()] *)
  address : string;
  (** [walletProvider.chains]: chain name to [nativeCurrency?.symbol] *)
  chains : list (string * option string);
  (** [walletClient.account] is defined *)
  hasAccount : bool;
  (** viem's [parseUnits(value, decimals)] *)
  parseUnits : string -> Z -> Result Z;
  (** [!Number.isNaN(x) && x > 0] for [x = Number.parseFloat(s)] *)
  parsesPositive : string -> bool;
  (** [JSON.parse] *)
  jsonParse : string -> Result Js.Val;
  (** [String(n)] for a number [n] *)
  numberToString : Q -> string;
  (** [s.match(re)] *)
  regexMatch : Js.Regex -> string -> option (list string)
}.

Definition M (A : Type) : Type := Env -> History -> Result A * History.

Definition ret {A} (a : A) : M A := fun _ h => (Ok a, h).

Definition throw {A} (e : Exn) : M A := fun _ h => (Throw e, h).

Definition bind {A B} (m : M A) (k : A -> M B) : M B :=
  fun env h =>
    match m env h with
    | (Ok a, h') => k a env h'
    | (Throw e, h') => (Throw e, h')
    end.

(** [try { m } catch (error) { handler(error) }] *)
Definition try_catch {A} (m : M A) (handler : Exn -> M A) : M A :=
  fun env h =>
    match m env h with
    | (Ok a, h') => (Ok a, h')
    | (Throw e, h') => handler e env h'
    end.

Definition ask : M Env := fun env h => (Ok env, h).

Definition lift {A} (r : Result A) : M A := fun _ h => (r, h).

Definition resp_of {A} (inj : A -> Resp) (r : Result A) : Resp :=
  match r with
  | Ok a => inj a
  | Throw e => RThrow e
  end.

(** Perform a call: ask the oracle and record the event. *)
Definition perform {A} (oracle : Env -> History -> Call -> Result A)
    (inj : A -> Resp) (c : Call) : M A :=
  fun env h => let r := oracle env h c in (r, (c, resp_of inj r) :: h).

Definition call_unit : Call -> M unit := perform ask_unit (fun _ => RUnit).
Definition call_int : Call -> M Z := perform ask_int RInt.
Definition call_str : Call -> M string := perform ask_str RStr.
Definition call_status : Call -> M (bool * Z) :=
  perform ask_status (fun s => RStatus (fst s) (snd s)).
Definition call_len : Call -> M nat := perform ask_len RLen.
Definition call_val : Call -> M Js.Val := perform ask_val RVal.
Definition call_process : Call -> M (option Process) :=
  perform ask_process RProcess.

(** [callback?.({ text, content })]: the callback is an async function whose
    promise the handlers do not await, so that its outcome never reaches
    them; the call is recorded when a callback was passed. *)
Definition emit (hasCallback : bool) (text : string) (content : Js.Val) : M unit :=
  fun _ h => (Ok tt, if hasCallback then (Callback text content, RUnit) :: h else h).

(** A run from the empty history; the trace is chronological. *)
Definition run {A} (m : M A) (env : Env) : Result A * list Event :=
  let (r, h) := m env [] in (r, rev h).

(** A run after the events [before]; the trace, chronological, starts with
    them. *)
Definition runFrom {A} (m : M A) (env : Env) (before : list Event)
  : Result A * list Event :=
  let (r, h) := m env (rev before) in (r, rev h).

Definition calls (tr : list Event) : list Call := map fst tr.

(** [viem.parseEther] *)
Definition parseEther (s : string) : M Z :=
  fun env h => (parseUnits env s 18, h).

End Fx.

Export Fx.

Notation "x <- m ;; k" := (bind m (fun x => k))
  (at level 61, m at next level, right associativity).
Notation "m1 ;;; m2" := (bind m1 (fun _ => m2))
  (at level 61, right associativity).

(* ================================================================== *)
(** * What the handlers share *)
(* ================================================================== *)

Module Plugin.

(** The part of the incoming [Memory] the handlers read: [promptText] is
    [message.content.text.trim()] (the empty string when the text is not a
    string), [source] is [message.content.source]. *)
Record Message : Type := {
  promptText : string;
  source : string
}.

(** [EXPLORERS] of constants.ts: the [url] of each explorer. *)
Definition EXPLORERS_BSC : string := "https://bscscan.com".
Definition EXPLORERS_BSC_TESTNET : string := "https://testnet.bscscan.com".
Definition EXPLORERS_OPBNB : string := "https://opbnb.bscscan.com".

(** [chain === 'bsctestnet' ? EXPLORERS.BSC_TESTNET :
     chain === 'opbnb' ? EXPLORERS.OPBNB : EXPLORERS.BSC] *)
Definition explorerUrl (chain : string) : string :=
  if (chain =? "bsctestnet")%string then EXPLORERS_BSC_TESTNET
  else if (chain =? "opbnb")%string then EXPLORERS_OPBNB
  else EXPLORERS_BSC.

(** The message of the [TypeError] of a property read on [null] or
    [undefined]. *)
Definition TYPE_ERROR_NULL : string := "Cannot read properties of null or undefined".

(** The message of the [TypeError] of [v.startsWith(...)] on a value that is
    not a string. *)
Definition TYPE_ERROR_STARTSWITH : string := "startsWith is not a function".

(** [errorObj.message || String(error)]: the message of an [Error], and
    [String(error)] when it is empty; reading [message] on [null] or
    [undefined] throws a [TypeError]. *)
Definition error_text (error : Exn) : M string :=
  match error with
  | JsError message => ret (Js.or_else message "Error")
  | JsNull | JsUndefined => throw TYPE_ERROR_NULL
  end.

(** [error instanceof Error ? error.message : String(error)] *)
Definition message_of (error : Exn) : string :=
  match error with
  | JsError message => message
  | JsNull => "null"
  | JsUndefined => "undefined"
  end.

(** [content.k], throwing on [null] and [undefined]. *)
Definition prop (content : Js.Val) (k : string) : M Js.Val :=
  match Js.get content k with
  | Some v => ret v
  | None => throw TYPE_ERROR_NULL
  end.

(** [state ? state : await runtime.composeState(message)] *)
Definition currentState (hasState : bool) : M unit :=
  if hasState then ret tt else call_unit ComposeState.

(** [typeof mlOutput === 'string' ? JSON.parse(mlOutput) : mlOutput] *)
Definition parseModelOutput (env : Env) (mlOutput : Js.Val) : Result Js.Val :=
  match mlOutput with
  | Js.Str s => jsonParse env s
  | v => Ok v
  end.

(** [content.amount && (typeof content.amount === 'string' ||
     typeof content.amount === 'number')], with [String(content.amount)]. *)
Definition amountOfContent (env : Env) (v : Js.Val) : option string :=
  match v with
  | Js.Str s => if Js.truthy s then Some s else None
  | Js.Num q => if Js.val_truthy v then Some (numberToString env q) else None
  | _ => None
  end.

(** [v && typeof v === 'string'] *)
Definition truthyString (v : Js.Val) : option string :=
  match v with
  | Js.Str s => if Js.truthy s then Some s else None
  | _ => None
  end.

End Plugin.

Export Plugin.

(* ================================================================== *)
(** * TransferAction (actions/transfer.ts) *)
(* ================================================================== *)

Module Transfer.

Record TransferParams : Type := {
  chain : string;
  token : string;
  amount : string;
  toAddress : string;
  data : option string
}.

Record TransferResponse : Type := {
  resp_chain : string;
  txHash : string;
  recipient : string;
  resp_amount : string;
  resp_token : string
}.

Definition TRANSFER_GAS : Z := 21000.
Definition DEFAULT_GAS_PRICE : Z := 3000000000.

Fixpoint lookup_chain (name : string) (cs : list (string * option string))
  : option (option string) :=
  match cs with
  | [] => None
  | (n, cfg) :: rest => if (name =? n)%string then Some cfg else lookup_chain name rest
  end.

(** The [data] field after validation (lines 377-403). *)
Definition normalizeData (d : option string) : string :=
  match d with
  | Some dataValue =>
      if (dataValue =? "null")%string then "0x"
      else if negb (dataValue =? "0x")%string
              && negb (Js.startsWith dataValue "0x")
           then "0x" ^^ dataValue
           else dataValue
  | None => "0x"
  end.

(** [TransferAction.validateAndNormalizeParams] *)
Definition validateAndNormalizeParams (params : TransferParams) : M TransferParams :=
  if negb (Js.truthy (toAddress params)) then throw "To address is required"
  else
    formatted <- try_catch
      (call_str (FormatAddress (toAddress params)))
      (fun _ => throw ("Invalid address format: " ^^ toAddress params)) ;;
    ret {| chain := chain params; token := token params;
           amount := amount params; toAddress := formatted;
           data := Some (normalizeData (data params)) |}.

(** The native transfer block, which the source has twice (lines 125-170 and
    186-230): the value is the balance minus the gas of a plain transfer
    when no amount is given, the parsed amount otherwise. *)
Definition nativeTransfer (params : TransferParams) (fromAddress : string)
    (dataParam : option string) (resp : TransferResponse) : M TransferResponse :=
  vo <- (if negb (Js.truthy (amount params)) then
           balance <- call_int (GetBalance (chain params) fromAddress) ;;
           ret (balance - DEFAULT_GAS_PRICE * 21000,
                (Some TRANSFER_GAS, Some DEFAULT_GAS_PRICE))
         else
           value <- try_catch (parseEther (amount params))
             (fun _ => throw ("Invalid amount format: " ^^ amount params
                              ^^ ". Please provide a valid number.")) ;;
           ret (value, (None, None))) ;;
  let value := fst vo in
  let resp := {| resp_chain := resp_chain resp; txHash := txHash resp;
                 recipient := recipient resp;
                 resp_amount := Viem.formatEther value;
                 resp_token := resp_token resp |} in
  hash <- call_str (WalletTransfer (chain params) (toAddress params) value
                      (fst (snd vo)) (snd (snd vo)) dataParam) ;;
  ret {| resp_chain := resp_chain resp; txHash := hash;
         recipient := recipient resp; resp_amount := resp_amount resp;
         resp_token := resp_token resp |}.

(** [!tokenAddress || !tokenAddress.startsWith("0x")] *)
Definition notAnAddress (tokenAddress : string) : bool :=
  negb (Js.truthy tokenAddress) || negb (Js.startsWith tokenAddress "0x").

(** The ERC20 block (lines 237-326). *)
Definition erc20Transfer (params : TransferParams) (fromAddress : string)
    (resp : TransferResponse) : M TransferResponse :=
  tokenAddress <-
    (if negb (Js.startsWith (token params) "0x") then
       try_catch
         (call_unit (ConfigureLiFiSdk (chain params)) ;;;
          tokenAddress <- call_str (GetTokenAddress (chain params) (token params)) ;;
          if notAnAddress tokenAddress
          then throw ("Could not resolve token symbol " ^^ token params
                      ^^ " to a valid address")
          else ret tokenAddress)
         (fun _ => throw ("Could not find token " ^^ token params ^^ " on chain "
                          ^^ chain params
                          ^^ ". Please check the token symbol or use the contract address."))
     else ret (token params)) ;;
  decimals <- try_catch
    (call_int (ReadContract (chain params) tokenAddress "decimals" []))
    (fun _ => throw ("Failed to get decimals for token at address " ^^ tokenAddress
                     ^^ ". The contract might not be an ERC20 token.")) ;;
  value <-
    (if negb (Js.truthy (amount params)) then
       try_catch
         (call_int (ReadContract (chain params) tokenAddress "balanceOf"
                      [AStr fromAddress]))
         (fun _ => throw ("Failed to get balance for token at address " ^^ tokenAddress
                          ^^ ". The contract might not be an ERC20 token."))
     else
       try_catch
         (env <- ask ;; lift (parseUnits env (amount params) decimals))
         (fun _ => throw ("Invalid amount format: " ^^ amount params
                          ^^ ". Please provide a valid number."))) ;;
  hash <- call_str (TransferERC20 (chain params) tokenAddress (toAddress params) value) ;;
  ret {| resp_chain := resp_chain resp; txHash := hash;
         recipient := recipient resp;
         resp_amount := Viem.formatUnits value (Z.to_nat decimals);
         resp_token := resp_token resp |}.

(** [!resp.txHash || resp.txHash === "0x"] *)
Definition noHash (h : string) : bool :=
  negb (Js.truthy h) || (h =? "0x")%string.

(** The end of [transfer] (lines 329-348): the hash must be there; a failure
    of the wait for the receipt is logged and the response returned. *)
Definition confirm (params : TransferParams) (resp : TransferResponse)
  : M TransferResponse :=
  if noHash (txHash resp)
  then throw "Get transaction hash failed"
  else
    try_catch
      (call_unit (WaitForTransactionReceipt (chain params) (txHash resp)))
      (fun _ => ret tt) ;;;
    ret resp.

(** [dataParam] (lines 70-76): the data as given, when it is a hex string. *)
Definition dataParamOf (d : option string) : option string :=
  match d with
  | Some d => if Js.truthy d && Js.startsWith d "0x" then Some d else None
  | None => None
  end.

(** [chains[chain]?.nativeCurrency?.symbol || "BNB"] *)
Definition nativeTokenOf (nativeSymbol : option string) : string :=
  match nativeSymbol with
  | Some s => Js.or_else s "BNB"
  | None => "BNB"
  end.

(** The token after lines 92-99: the native token when none is given or when
    the token is the native one up to case. *)
Definition normalizeToken (token nativeToken : string) : string :=
  if negb (Js.truthy token) then nativeToken
  else if (Js.toLowerCase token =? Js.toLowerCase nativeToken)%string
       then nativeToken
       else token.

(** The test of line 122. *)
Definition isNativeTransfer (token nativeToken : string) : bool :=
  negb (Js.truthy token) || (token =? "null")%string || (token =? nativeToken)%string.

(** The test of line 179. *)
Definition isBnbSymbol (token : string) : bool :=
  (token =? "BNB")%string || (token =? "bnb")%string.

(** [TransferAction.transfer] *)
Definition transfer (params : TransferParams) : M TransferResponse :=
  env <- ask ;;
  match lookup_chain (chain params) (chains env) with
  | None =>
      throw ("Chain '" ^^ chain params ^^ "' is not supported. Please use one of: "
             ^^ Js.join ", " (map fst (chains env)))
  | Some nativeSymbol =>
      let dataParam := dataParamOf (data params) in
      params <- validateAndNormalizeParams params ;;
      let fromAddress := address env in
      call_unit (SwitchChain (chain params)) ;;;
      let nativeToken := nativeTokenOf nativeSymbol in
      let params := {| chain := chain params;
                       token := normalizeToken (token params) nativeToken;
                       amount := amount params; toAddress := toAddress params;
                       data := data params |} in
      let resp := {| resp_chain := chain params; txHash := "0x";
                     recipient := toAddress params; resp_amount := "";
                     resp_token := token params |} in
      try_catch (call_int (GetBalance (chain params) fromAddress) ;;; ret tt)
                (fun _ => ret tt) ;;;
      if isNativeTransfer (token params) nativeToken
      then
        resp <- nativeTransfer params fromAddress dataParam resp ;;
        confirm params resp
      else if isBnbSymbol (token params)
      then
        nativeTransfer params fromAddress dataParam
          {| resp_chain := resp_chain resp; txHash := txHash resp;
             recipient := recipient resp; resp_amount := resp_amount resp;
             resp_token := nativeToken |}
      else
        resp <- erc20Transfer params fromAddress resp ;;
        confirm params resp
  end.

(** ** transferAction.handler *)

(** [directTokenMatch] (lines 447-457): the upper-cased second group of the
    transfer pattern, the empty string standing for [null]. *)
Definition directTokenMatch (m : option (list string)) : string :=
  match m with
  | Some l =>
      if (3 <=? length l)%nat && Js.truthy (Js.group l 2)
      then Js.toUpperCase (Js.group l 2)
      else ""
  | None => ""
  end.

(** [containsBnb] (lines 442-444) *)
Definition containsBnb (promptLower : string) : bool :=
  Js.includes promptLower "bnb" || Js.includes promptLower "binance coin"
  || Js.includes promptLower "binance smart chain".

(** The [content] of the model output (lines 533-570): the parsed JSON, taken
    out of a markdown fence when there is one; when parsing fails, the
    groups of the transfer pattern if it matched. *)
Definition parseContent (env : Env) (mlOutput : Js.Val) (m : option (list string))
  : Js.Val :=
  match mlOutput with
  | Js.Str s =>
      let jsonStr :=
        match regexMatch env Js.JsonFenceRegex s with
        | Some f => if Js.truthy (Js.group f 1) then Js.group f 1 else s
        | None => s
        end in
      match jsonParse env jsonStr with
      | Ok v => v
      | Throw _ =>
          match m with
          | Some l =>
              Js.Obj [("amount", Js.Str (Js.group l 1));
                      ("token", Js.Str (Js.or_else (Js.group l 2) "BNB"));
                      ("toAddress", Js.Str (Js.group l 3))]
          | None => Js.Obj []
          end
      end
  | v => v
  end.

(** The token (lines 580-608): the token of the text, then the token of the
    content, then BNB. *)
Definition resolveToken (direct : string) (tokenValue : Js.Val) (hasBnb : bool)
  : string :=
  let token :=
    if Js.truthy direct then direct
    else match truthyString tokenValue with
         | Some t => t
         | None => if hasBnb then "BNB" else "BNB"
         end in
  if negb (Js.truthy token) then "BNB" else token.

(** The recipient (lines 633-640): the [toAddress] of the content when it is
    a string, the third group of the pattern otherwise. *)
Definition resolveToAddress (contentToAddress : Js.Val) (m : option (list string))
  : string :=
  match contentToAddress with
  | Js.Str s => s
  | _ => if Js.truthy (Js.group_opt m 3) then Js.group_opt m 3 else ""
  end.

(** The amount (lines 643-650): the [amount] of the content when it is a
    truthy string or number, the first group of the pattern otherwise. *)
Definition resolveAmount (env : Env) (contentAmount : Js.Val)
    (m : option (list string)) : string :=
  match amountOfContent env contentAmount with
  | Some a => a
  | None => if Js.truthy (Js.group_opt m 1) then Js.group_opt m 1 else ""
  end.

(** [dataParam] (lines 620-630) *)
Definition resolveData (dataValue : Js.Val) : option string :=
  match truthyString dataValue with
  | Some d => if Js.startsWith d "0x" && negb (d =? "0x")%string then Some d else None
  | None => None
  end.

(** The events of the history [h'] that came after the history [h]. *)
Definition since (h h' : History) : list Event :=
  firstn (length h' - length h) h'.

(** [walletProvider.switchChain] has returned. *)
Definition switched (ev : Event) : bool :=
  match ev with
  | (SwitchChain _, RUnit) => true
  | _ => false
  end.

(** [paramOptions.token] once [transfer] has thrown, [events] being the
    events of the transfer.  [transfer] writes into the object it is given:
    past the switch of the chain (line 86) the token is the normalised one
    (lines 92-99). *)
Definition tokenWritten (env : Env) (paramOptions : TransferParams)
    (events : list Event) : string :=
  match lookup_chain (chain paramOptions) (chains env) with
  | Some nativeSymbol =>
      if existsb switched events
      then normalizeToken (token paramOptions) (nativeTokenOf nativeSymbol)
      else token paramOptions
  | None => token paramOptions
  end.

(** The message of the failure response (lines 723-758), [errorMessage]
    being [errorObj.message || String(error)] and [token] being
    [paramOptions.token]. *)
Definition failureMessage (env : Env) (errorMessage chain token : string) : string :=
  let errorMessage :=
    if Js.includes errorMessage "LI.FI SDK" then
      if Js.includes errorMessage "Request failed with status code 404"
         && Js.includes errorMessage "Could not find token"
      then
        let tokenValue :=
          match regexMatch env Js.TokenNotFoundRegex errorMessage with
          | Some m => Js.group m 1
          | None => token
          end in
        let msg := "Could not find the token '" ^^ tokenValue ^^ "' on " ^^ chain
                   ^^ ". " ^^ Js.nl
                   ^^ "          Please check the token symbol or address and try again." in
        if (tokenValue =? "null")%string || (tokenValue =? "undefined")%string
           || negb (Js.truthy tokenValue)
        then msg ^^ " For BNB transfers, please explicitly specify 'BNB' as the token."
        else msg
      else if Js.includes errorMessage "400 Bad Request"
              && Js.includes errorMessage "chain must be"
      then "Chain validation error: '" ^^ chain
           ^^ "' is not a valid chain for the LI.FI SDK. " ^^ Js.nl
           ^^ "          Please use 'bsc' for BSC mainnet."
      else errorMessage
    else errorMessage in
  if Js.includes errorMessage "insufficient funds"
  then "Insufficient funds for the transaction. Please check your balance and try again with a smaller amount."
  else if Js.includes errorMessage "transaction underpriced"
  then "Transaction underpriced. Please try again with a higher gas price."
  else errorMessage.

(** The guarded part of the handler (lines 662-774): the transfer, the
    success response, and the failure response for what the transfer
    throws.  The [catch] block starts by reading [errorObj.message] (line
    697), which throws on [null] and [undefined]. *)
Definition execute (paramOptions : TransferParams) (hasCallback : bool) : M bool :=
  fun env h =>
  let chain := chain paramOptions in
  try_catch
    (transferResp <- transfer paramOptions ;;
     let blockExplorerUrl := explorerUrl chain ^^ "/tx/" ^^ txHash transferResp in
     let walletExplorerUrl := explorerUrl chain ^^ "/address/"
                              ^^ recipient transferResp in
     emit hasCallback
       ("Successfully transferred " ^^ resp_amount transferResp ^^ " "
        ^^ resp_token transferResp ^^ " to " ^^ recipient transferResp ^^ Js.nl
        ^^ "Transaction Hash: " ^^ txHash transferResp ^^ Js.nl
        ^^ "Check on block explorer: " ^^ blockExplorerUrl ^^ Js.nl
        ^^ "Check the wallet: " ^^ walletExplorerUrl)
       (Js.Obj [("chain", Js.Str (resp_chain transferResp));
                ("txHash", Js.Str (txHash transferResp));
                ("recipient", Js.Str (recipient transferResp));
                ("amount", Js.Str (resp_amount transferResp));
                ("token", Js.Str (resp_token transferResp));
                ("blockExplorerUrl", Js.Str blockExplorerUrl);
                ("walletExplorerUrl", Js.Str walletExplorerUrl)]) ;;;
     ret true)
    (fun error env' h' =>
       (errorMessage <- error_text error ;;
        let errorMessage :=
          failureMessage env errorMessage chain
            (tokenWritten env paramOptions (since h h')) in
        let walletExplorerUrl := explorerUrl chain ^^ "/address/" ^^ address env in
        emit hasCallback
          ("Transfer failed: " ^^ errorMessage ^^ Js.nl
           ^^ "You can check your wallet balance at: " ^^ walletExplorerUrl)
          (Js.Obj [("error", Js.Str errorMessage);
                   ("walletExplorerUrl", Js.Str walletExplorerUrl)]) ;;;
        ret false) env' h')
    env h.

(** [transferAction.handler] *)
Definition handler (message : Message) (hasState hasCallback : bool) : M bool :=
  env <- ask ;;
  let promptLower := Js.toLowerCase (promptText message) in
  let hasBnb := containsBnb promptLower in
  let m := regexMatch env Js.TransferRegex (promptText message) in
  let direct := directTokenMatch m in
  if negb ((source message =? "direct")%string
           || (source message =? "client_chat:user")%string)
  then
    emit hasCallback "I can't do that for you."
      (Js.Obj [("error", Js.Str "Transfer not allowed")]) ;;;
    ret false
  else
    currentState hasState ;;;
    (if hasState then try_catch (call_unit WalletInfo) (fun _ => ret tt) else ret tt) ;;;
    mlOutput <- call_val (UseModel "transferTemplate") ;;
    let content := parseContent env mlOutput m in
    chainValue <- prop content "chain" ;;
    let chain := match chainValue with
                 | Js.Str c => Js.toLowerCase c
                 | _ => "bsc"
                 end in
    tokenValue <- prop content "token" ;;
    let token := resolveToken direct tokenValue hasBnb in
    call_unit InitWalletProvider ;;;
    dataValue <- prop content "data" ;;
    contentToAddress <- prop content "toAddress" ;;
    contentAmount <- prop content "amount" ;;
    execute {| chain := chain; token := token;
               amount := resolveAmount env contentAmount m;
               toAddress := resolveToAddress contentToAddress m;
               data := resolveData dataValue |}
            hasCallback.

End Transfer.

(* ================================================================== *)
(** * SwapAction (actions/swap.ts) *)
(* ================================================================== *)

Module Swap.

Record SwapParams : Type := {
  chain : string;
  fromToken : string;
  toToken : string;
  amount : string;
  slippage : option Q
}.

Record SwapResponse : Type := {
  resp_chain : string;
  txHash : string;
  resp_fromToken : string;
  resp_toToken : string;
  resp_amount : string
}.

(** The address the LI.FI routes use for the native token. *)
Definition NATIVE_SENTINEL : string := "0xEeeeeEeeeEeEeeEeEeEeeEEEeeeeEeeeeeeeEEeE".

Definition DEFAULT_SLIPPAGE : Q := (5 # 100)%Q.

(** [SwapAction.validateAndNormalizeParams] *)
Definition validateAndNormalizeParams (params : SwapParams) : M SwapParams :=
  chain' <- (if negb (Js.truthy (chain params)) then ret "bsc"
             else if negb (chain params =? "bsc")%string
                  then throw "Only BSC mainnet is supported for swaps"
                  else ret (chain params)) ;;
  if negb (Js.truthy (fromToken params)) then throw "From token is required for swap"
  else if negb (Js.truthy (toToken params)) then throw "To token is required for swap"
  else if (fromToken params =? toToken params)%string
  then throw ("Cannot swap from and to the same token: " ^^ fromToken params)
  else if negb (Js.truthy (amount params)) then throw "Amount is required for swap"
  else
    try_catch
      (amountBigInt <- parseEther (amount params) ;;
       if amountBigInt <=? 0 then throw "Swap amount must be greater than 0"
       else ret tt)
      (fun _ => throw ("Invalid swap amount: " ^^ amount params
                       ^^ ". Please provide a valid number.")) ;;;
    slippage' <-
      match slippage params with
      | Some s =>
          if Qle_bool s 0 || negb (Qle_bool s 1)
          then throw "Slippage must be between 0 and 1 (e.g., 0.05 for 5%)"
          else ret s
      | None => ret DEFAULT_SLIPPAGE
      end ;;
    ret {| chain := chain'; fromToken := fromToken params;
           toToken := toToken params; amount := amount params;
           slippage := Some slippage' |}.

(** Resolution of one token of the pair (lines 68-88 and 91-111): a symbol
    is looked up in the token directory, and the answer for BNB replaced by
    the native sentinel. *)
Definition resolveToken (chain symbol : string) : M string :=
  if negb (Js.startsWith symbol "0x") then
    try_catch
      (tokenAddress <- call_str (GetTokenAddress chain symbol) ;;
       if (Js.toUpperCase symbol =? "BNB")%string then ret NATIVE_SENTINEL
       else ret tokenAddress)
      (fun _ => throw ("Could not find token " ^^ symbol ^^ " on chain " ^^ chain
                       ^^ ". Please check the token symbol."))
  else ret symbol.

(** [params.slippage || 0.05] *)
Definition effectiveSlippage (s : option Q) : Q :=
  match s with
  | Some s => if Qeq_bool s 0 then DEFAULT_SLIPPAGE else s
  | None => DEFAULT_SLIPPAGE
  end.

(** The [catch] block of [swap] around the routing and the execution
    (lines 170-189): it throws the error caught unless its message is one
    of the two known; reading the message of [null] or [undefined] throws a
    [TypeError]. *)
Definition swapError (params : SwapParams) (error : Exn) : M SwapResponse :=
  errorMessage <- error_text error ;;
  if Js.includes errorMessage "insufficient funds"
  then throw ("Insufficient funds for swapping " ^^ amount params ^^ " "
              ^^ fromToken params ^^ ". Please check your balance.")
  else if Js.includes errorMessage "Cannot read properties"
  then throw "Error processing swap response. This might be due to rate limits or invalid token parameters."
  else throw error.

(** [SwapAction.swap] *)
Definition swap (params : SwapParams) : M SwapResponse :=
  params <- validateAndNormalizeParams params ;;
  env <- ask ;;
  let fromAddress := address env in
  call_unit (ConfigureLiFiSdk (chain params)) ;;;
  fromTokenAddress <- resolveToken (chain params) (fromToken params) ;;
  toTokenAddress <- resolveToken (chain params) (toToken params) ;;
  let resp := {| resp_chain := chain params; txHash := "0x";
                 resp_fromToken := fromToken params;
                 resp_toToken := toToken params;
                 resp_amount := amount params |} in
  let slippage' := effectiveSlippage (slippage params) in
  try_catch
    (fromAmount <- parseEther (amount params) ;;
     routes <- call_len (GetRoutes (chain params) fromTokenAddress toTokenAddress
                           fromAmount fromAddress slippage') ;;
     if (routes =? 0)%nat
     then throw ("No routes found from " ^^ fromToken params ^^ " to "
                 ^^ toToken params ^^ " with amount " ^^ amount params)
     else
       process <- call_process ExecuteRoute ;;
       match process with
       | None => throw "Transaction failed: unknown error"
       | Some pr =>
           if negb (Js.truthy (status pr)) || (status pr =? "FAILED")%string
           then throw ("Transaction failed: " ^^ Js.or_else (status pr) "unknown error")
           else ret {| resp_chain := resp_chain resp; txHash := processTxHash pr;
                       resp_fromToken := resp_fromToken resp;
                       resp_toToken := resp_toToken resp;
                       resp_amount := resp_amount resp |}
       end)
    (swapError params).

(** ** swapAction.handler *)

(** [promptText.match(basicSwapRegex) || promptText.match(advancedSwapRegex)] *)
Definition swapMatch (env : Env) (text : string) : option (list string) :=
  match regexMatch env Js.BasicSwapRegex text with
  | Some m => Some m
  | None => regexMatch env Js.AdvancedSwapRegex text
  end.

(** [directAmount], [directFromToken] and [directToToken] (lines 299-311),
    the empty string standing for [null]. *)
Definition directAmount (m : option (list string)) : string :=
  match m with
  | Some l => if (4 <=? length l)%nat then Js.group l 1 else ""
  | None => ""
  end.

Definition directFromToken (m : option (list string)) : string :=
  match m with
  | Some l => if (4 <=? length l)%nat && Js.truthy (Js.group l 2)
              then Js.toUpperCase (Js.group l 2) else ""
  | None => ""
  end.

Definition directToToken (m : option (list string)) : string :=
  match m with
  | Some l => if (4 <=? length l)%nat && Js.truthy (Js.group l 3)
              then Js.toUpperCase (Js.group l 3) else ""
  | None => ""
  end.

(** [tokenMentions[token]] (lines 314-324): the token occurs in the text as
    a whole word, whatever its case. *)
Definition tokenMentions (env : Env) (text token : string) : bool :=
  match regexMatch env (Js.MentionRegex token) text with
  | Some _ => true
  | None => false
  end.

(** The input token (lines 386-399) *)
Definition resolveFromToken (direct : string) (inputToken : Js.Val)
    (mentionsBnb : bool) : string :=
  if Js.truthy direct then direct
  else match truthyString inputToken with
       | Some t => t
       | None => if mentionsBnb then "BNB" else "BNB"
       end.

(** The output token (lines 402-425) *)
Definition resolveToToken (direct : string) (outputToken : Js.Val)
    (fromToken : string) (mentions : string -> bool) : string :=
  if Js.truthy direct then direct
  else match truthyString outputToken with
       | Some t => t
       | None =>
           match find (fun t => negb (t =? fromToken)%string && mentions t)
                      ["USDC"; "USDT"; "BUSD"] with
           | Some t => t
           | None => if (fromToken =? "BNB")%string then "USDC" else "BNB"
           end
       end.

(** The amount (lines 428-439) *)
Definition resolveAmount (env : Env) (direct : string) (contentAmount : Js.Val)
  : string :=
  if Js.truthy direct then direct
  else match amountOfContent env contentAmount with
       | Some a => a
       | None => "0.001"
       end.

(** The slippage (lines 442-448) *)
Definition resolveSlippage (v : Js.Val) : Q :=
  match v with
  | Js.Num q => if Qle_bool q 0 || negb (Qle_bool q 1) then DEFAULT_SLIPPAGE else q
  | _ => DEFAULT_SLIPPAGE
  end.

(** The message of the failure response (lines 553-563), [errorMessage]
    being [errorObj.message || String(error)]. *)
Definition failureMessage (errorMessage fromToken toToken : string) : string :=
  if Js.includes errorMessage "No routes found"
  then "No swap route found from " ^^ fromToken ^^ " to " ^^ toToken
       ^^ ". Please check that both tokens exist and have liquidity."
  else if Js.includes errorMessage "insufficient funds"
  then "Insufficient funds for the swap. Please check your balance and try with a smaller amount."
  else if Js.includes errorMessage "high slippage"
  then "Swap failed due to high price impact. Try reducing the amount or using a different token pair."
  else errorMessage.

(** The guarded part of the handler (lines 462-574): the swap, the success
    response, and the failure response for what the swap throws.  The
    [catch] block starts by reading [errorObj.message] (line 527), which
    throws on [null] and [undefined]. *)
Definition execute (swapOptions : SwapParams) (hasCallback : bool) : M bool :=
  env <- ask ;;
  try_catch
    (swapResp <- swap swapOptions ;;
     let explorer := explorerUrl (resp_chain swapResp) in
     let txExplorerUrl := explorer ^^ "/tx/" ^^ txHash swapResp in
     let walletExplorerUrl := explorer ^^ "/address/" ^^ address env in
     emit hasCallback
       ("Successfully swapped " ^^ resp_amount swapResp ^^ " "
        ^^ resp_fromToken swapResp ^^ " to " ^^ resp_toToken swapResp ^^ Js.nl
        ^^ "Transaction Hash: " ^^ txHash swapResp ^^ Js.nl
        ^^ "View transaction: " ^^ txExplorerUrl ^^ Js.nl
        ^^ "View wallet: " ^^ walletExplorerUrl ^^ Js.nl ^^ Js.nl)
       (Js.Obj [("chain", Js.Str (resp_chain swapResp));
                ("txHash", Js.Str (txHash swapResp));
                ("fromToken", Js.Str (resp_fromToken swapResp));
                ("toToken", Js.Str (resp_toToken swapResp));
                ("amount", Js.Str (resp_amount swapResp));
                ("txExplorerUrl", Js.Str txExplorerUrl);
                ("walletExplorerUrl", Js.Str walletExplorerUrl);
                ("gasDetails",
                 Js.Obj [("gasPrice", Js.Str "Unknown");
                         ("gasLimit", Js.Str "Unknown");
                         ("gasCostBNB", Js.Str "Unknown");
                         ("gasCostUSD", Js.Str "Unknown")])]) ;;;
     ret true)
    (fun error =>
       errorMessage <- error_text error ;;
       let errorMessage := failureMessage errorMessage (fromToken swapOptions)
                             (toToken swapOptions) in
       emit hasCallback ("Swap failed: " ^^ errorMessage)
         (Js.Obj [("error", Js.Str errorMessage);
                  ("fromToken", Js.Str (fromToken swapOptions));
                  ("toToken", Js.Str (toToken swapOptions))]) ;;;
       ret false).

(** [swapAction.handler] *)
Definition handler (message : Message) (hasState hasCallback : bool) : M bool :=
  env <- ask ;;
  let text := promptText message in
  let m := swapMatch env text in
  currentState hasState ;;;
  (if hasState then try_catch (call_unit WalletInfo) (fun _ => ret tt) else ret tt) ;;;
  mlOutput <- call_val (UseModel "swapTemplate") ;;
  let content := match parseModelOutput env mlOutput with
                 | Ok v => v
                 | Throw _ => Js.Obj []
                 end in
  chainValue <- prop content "chain" ;;
  let chain := match chainValue with
               | Js.Str c => Js.toLowerCase c
               | _ => "bsc"
               end in
  inputToken <- prop content "inputToken" ;;
  let fromToken := resolveFromToken (directFromToken m) inputToken
                     (tokenMentions env text "BNB") in
  outputToken <- prop content "outputToken" ;;
  let toToken := resolveToToken (directToToken m) outputToken fromToken
                   (tokenMentions env text) in
  contentAmount <- prop content "amount" ;;
  let amount := resolveAmount env (directAmount m) contentAmount in
  contentSlippage <- prop content "slippage" ;;
  call_unit InitWalletProvider ;;;
  execute {| chain := chain; fromToken := fromToken; toToken := toToken;
             amount := amount; slippage := Some (resolveSlippage contentSlippage) |}
          hasCallback.

End Swap.

(* ================================================================== *)
(** * BridgeAction (actions/bridge.ts) *)
(* ================================================================== *)

Module Bridge.

Record BridgeParams : Type := {
  fromChain : string;
  toChain : string;
  fromToken : option string;
  toToken : option string;
  amount : string;
  toAddress : option string
}.

Record BridgeResponse : Type := {
  resp_fromChain : string;
  resp_toChain : string;
  resp_fromToken : string;
  resp_toToken : string;
  resp_amount : string;
  txHash : string;
  recipient : string
}.

Definition L1_BRIDGE_ADDRESS : string := "0xF05F0e4362859c3331Cb9395CBC201E3Fa6757Ea".
Definition L2_BRIDGE_ADDRESS : string := "0x4000698e3De52120DE28181BaACda82B21568416".
Definition LEGACY_ERC20_ETH : string := "0xDeadDeAddeAddEAddeadDEaDDEAdDeaDDeAD0000".

Definition UNSUPPORTED_DIRECTION : string :=
  "Unsupported bridge direction. Currently only supporting: BSC ↔ opBNB".

(** [typeof t === 'string' && t.toUpperCase() === "BNB"] *)
Definition isBnb (t : option string) : bool :=
  match t with
  | Some s => (Js.toUpperCase s =? "BNB")%string
  | None => false
  end.

(** The two supported directions. *)
Definition isSupported (fromChain toChain : string) : bool :=
  ((fromChain =? "bsc")%string && (toChain =? "opBNB")%string)
  || ((fromChain =? "opBNB")%string && (toChain =? "bsc")%string).

(** The source chain after lines 459-462: BSC when none is given. *)
Definition defaultChain (fromChain : string) : string :=
  if negb (Js.truthy fromChain) then "bsc" else fromChain.

(** [BridgeAction.validateAndNormalizeParams] *)
Definition validateAndNormalizeParams (params : BridgeParams) : M BridgeParams :=
  let fromChain' := defaultChain (fromChain params) in
  if negb (Js.truthy (toChain params))
  then throw "Destination chain is required for bridging"
  else if negb (isSupported fromChain' (toChain params))
  then throw UNSUPPORTED_DIRECTION
  else if negb (Js.truthy (amount params))
  then throw "Amount is required for bridging"
  else
    try_catch
      (env <- ask ;;
       if negb (parsesPositive env (amount params))
       then throw ("Invalid amount: " ^^ amount params
                   ^^ ". Please provide a positive number.")
       else ret tt)
      (fun _ => throw ("Invalid amount format: " ^^ amount params
                       ^^ ". Please provide a valid number.")) ;;;
    (if (fromChain' =? "bsc")%string && (toChain params =? "opBNB")%string
        && Js.truthy_opt (fromToken params) && negb (isBnb (fromToken params))
     then
       match toToken params with
       | Some t =>
           if negb (Js.truthy t)
           then throw "When bridging ERC20 tokens from BSC to opBNB, the token address on opBNB is required"
           else if negb (Js.startsWith t "0x")
           then throw ("Invalid token address: " ^^ t
                       ^^ ". Please provide a 0x-prefixed address.")
           else ret tt
       | None =>
           throw "When bridging ERC20 tokens from BSC to opBNB, the token address on opBNB is required"
       end
     else ret tt) ;;;
    let fromToken' := if isBnb (fromToken params) then None else fromToken params in
    match toAddress params with
    | Some a =>
        if Js.truthy a
           && (negb (Js.startsWith a "0x") || negb (String.length a =? 42)%nat)
        then throw ("Invalid destination address: " ^^ a
                    ^^ ". Please provide a valid 0x-prefixed address.")
        else ret tt
    | None => ret tt
    end ;;;
    ret {| fromChain := fromChain'; toChain := toChain params;
           fromToken := fromToken'; toToken := toToken params;
           amount := amount params; toAddress := toAddress params |}.

Definition opt_or (o : option string) (d : string) : string :=
  match o with
  | Some s => Js.or_else s d
  | None => d
  end.

Definition opt_str (o : option string) : string :=
  match o with
  | Some s => s
  | None => ""
  end.

(** The allowance step before an ERC20 deposit or withdrawal (lines 157-188
    towards the L1 bridge, 331-362 towards the L2 bridge). *)
Definition ensureAllowance (params : BridgeParams) (fromAddress spender : string)
    (amount : Z) : M unit :=
  allowance <- call_int (CheckERC20Allowance (fromChain params)
                           (opt_str (fromToken params)) fromAddress spender) ;;
  if allowance <? amount then
    hash <- call_str (ApproveERC20 (fromChain params) (opt_str (fromToken params))
                        spender amount) ;;
    call_unit (WaitForTransactionReceipt (fromChain params) hash)
  else ret tt.

(** [publicClient.simulateContract] then [walletClient.writeContract] on the
    same function and arguments. *)
Definition simulateAndWrite (chain address functionName : string)
    (args : list Arg) (value : option Z) : M string :=
  call_unit (SimulateContract chain address functionName args value) ;;;
  call_str (WriteContract chain address functionName args value).

(** The [catch] block of [bridge] (lines 425-446): it throws the error
    caught unless its message is one of the three known; reading the
    message of [null] or [undefined] throws a [TypeError]. *)
Definition bridgeError {A} (amount fromToken : string) (error : Exn) : M A :=
  errorMessage <- error_text error ;;
  if Js.includes errorMessage "insufficient funds"
  then throw ("Insufficient funds to bridge " ^^ amount ^^ " " ^^ fromToken
              ^^ ". Please check your balance.")
  else if Js.includes errorMessage "user rejected"
  then throw "Transaction rejected by user."
  else if Js.includes errorMessage "execution reverted"
  then throw "Bridge transaction reverted. This could be due to contract restrictions or incorrect parameters."
  else throw error.

(** [BridgeAction.bridge] *)
Definition bridge (params : BridgeParams) : M BridgeResponse :=
  params <- validateAndNormalizeParams params ;;
  let nativeTokenBridge :=
    match fromToken params with
    | None => true
    | Some _ => isBnb (fromToken params)
    end in
  let selfBridge := match toAddress params with None => true | Some _ => false end in
  env <- ask ;;
  let fromAddress := address env in
  let resp := {| resp_fromChain := fromChain params;
                 resp_toChain := toChain params;
                 resp_fromToken := if nativeTokenBridge then "BNB"
                                   else opt_or (fromToken params) "";
                 resp_toToken := if nativeTokenBridge then "BNB"
                                 else opt_or (toToken params) "";
                 resp_amount := amount params;
                 txHash := "0x";
                 recipient := opt_or (toAddress params) fromAddress |} in
  let with_hash (hash : string) :=
    {| resp_fromChain := resp_fromChain resp; resp_toChain := resp_toChain resp;
       resp_fromToken := resp_fromToken resp; resp_toToken := resp_toToken resp;
       resp_amount := resp_amount resp; txHash := hash;
       recipient := recipient resp |} in
  try_catch
    (call_unit (SwitchChain (fromChain params)) ;;;
     amount' <-
       (if nativeTokenBridge then parseEther (amount params)
        else
          decimals <- call_int (ReadContract (fromChain params)
                                  (opt_str (fromToken params)) "decimals" []) ;;
          lift (parseUnits env (amount params) decimals)) ;;
     if (fromChain params =? "bsc")%string && (toChain params =? "opBNB")%string
     then
       (if negb nativeTokenBridge
        then ensureAllowance params fromAddress L1_BRIDGE_ADDRESS amount'
        else ret tt) ;;;
       hash <-
         (if selfBridge && nativeTokenBridge then
            simulateAndWrite (fromChain params) L1_BRIDGE_ADDRESS "depositETH"
              [AInt 1; AStr "0x"] (Some amount')
          else if selfBridge && negb nativeTokenBridge then
            simulateAndWrite (fromChain params) L1_BRIDGE_ADDRESS "depositERC20"
              [AStr (opt_str (fromToken params)); AStr (opt_str (toToken params));
               AInt amount'; AInt 1; AStr "0x"] None
          else if negb selfBridge && nativeTokenBridge then
            simulateAndWrite (fromChain params) L1_BRIDGE_ADDRESS "depositETHTo"
              [AStr (opt_str (toAddress params)); AInt 1; AStr "0x"] (Some amount')
          else
            simulateAndWrite (fromChain params) L1_BRIDGE_ADDRESS "depositERC20To"
              [AStr (opt_str (fromToken params)); AStr (opt_str (toToken params));
               AStr (opt_str (toAddress params)); AInt amount'; AInt 1; AStr "0x"]
              None) ;;
       ret (with_hash hash)
     else if (fromChain params =? "opBNB")%string && (toChain params =? "bsc")%string
     then
       delegationFee <- call_int (ReadContract (fromChain params) L2_BRIDGE_ADDRESS
                                    "delegationFee" []) ;;
       (if negb nativeTokenBridge
        then ensureAllowance params fromAddress L2_BRIDGE_ADDRESS amount'
        else ret tt) ;;;
       hash <-
         (if nativeTokenBridge then
            simulateAndWrite (fromChain params) L2_BRIDGE_ADDRESS "withdraw"
              [AStr LEGACY_ERC20_ETH; AInt amount'; AInt 1; AStr "0x"]
              (Some (amount' + delegationFee))
          else
            simulateAndWrite (fromChain params) L2_BRIDGE_ADDRESS "withdraw"
              [AStr (opt_str (fromToken params)); AInt amount'; AInt 1; AStr "0x"]
              (Some delegationFee)) ;;
       ret (with_hash hash)
     else ret resp)
    (bridgeError (amount params) (resp_fromToken resp)).

(** ** bridgeAction.handler *)

(** [convertNullStringToUndefined] *)
Definition convertNullStringToUndefined (value : Js.Val) : Js.Val :=
  match value with
  | Js.Null => Js.Undefined
  | Js.Str s => if (s =? "")%string then Js.Undefined else value
  | _ => value
  end.

(** The direction named in the text (lines 591-603): the source and the
    destination chain, the empty strings when none is named. *)
Definition directChains (promptLower : string) : string * string :=
  if Js.includes promptLower "bsc to opbnb"
     || Js.includes promptLower "binance to opbnb"
     || Js.includes promptLower "l1 to l2"
  then ("bsc", "opBNB")
  else if Js.includes promptLower "opbnb to bsc"
          || Js.includes promptLower "opbnb to binance"
          || Js.includes promptLower "l2 to l1"
  then ("opBNB", "bsc")
  else ("", "").

(** The source chain (lines 661-670) *)
Definition resolveFromChain (direct : string) (contentFromChain : Js.Val) : string :=
  if Js.truthy direct then direct
  else match truthyString contentFromChain with
       | Some c => c
       | None => "bsc"
       end.

(** The destination chain (lines 673-682) *)
Definition resolveToChain (direct : string) (contentToChain : Js.Val)
    (fromChain : string) : string :=
  if Js.truthy direct then direct
  else match truthyString contentToChain with
       | Some c => c
       | None => if (fromChain =? "bsc")%string then "opBNB" else "bsc"
       end.

(** The source token (lines 685-695): the upper-cased second group of the
    pattern, else the truthy [fromToken] of the content, of whatever type. *)
Definition resolveFromToken (direct : string) (contentFromToken : Js.Val) : Js.Val :=
  if Js.truthy direct then Js.Str (Js.toUpperCase direct)
  else if Js.val_truthy contentFromToken
       then convertNullStringToUndefined contentFromToken
       else Js.Undefined.

(** The destination token (lines 698-705) *)
Definition resolveToToken (contentToToken : Js.Val) : Js.Val :=
  if Js.val_truthy contentToToken
  then convertNullStringToUndefined contentToToken
  else Js.Undefined.

(** [v?.startsWith("0x") ? v : undefined]: a [TypeError] on a value that is
    neither a string nor [undefined]. *)
Definition hexOrUndefined (v : Js.Val) : M (option string) :=
  match v with
  | Js.Undefined | Js.Null => ret None
  | Js.Str s => ret (if Js.startsWith s "0x" then Some s else None)
  | _ => throw TYPE_ERROR_STARTSWITH
  end.

(** The recipient (lines 718-729) *)
Definition resolveToAddress (direct : string) (contentToAddress : Js.Val)
  : M (option string) :=
  if Js.truthy direct && Js.startsWith direct "0x" then ret (Some direct)
  else if Js.val_truthy contentToAddress
       then hexOrUndefined (convertNullStringToUndefined contentToAddress)
       else ret None.

(** The amount (lines 732-742) *)
Definition resolveAmount (env : Env) (direct : string) (contentAmount : Js.Val)
  : string :=
  if Js.truthy direct then direct
  else match amountOfContent env contentAmount with
       | Some a => a
       | None => "0.001"
       end.

(** The check of lines 708-715: an ERC20 token leaving BSC needs a
    destination token. *)
Definition missingDestinationToken (fromChain : string) (fromToken toToken : Js.Val)
  : bool :=
  (fromChain =? "bsc")%string && Js.val_truthy fromToken
  && negb (match fromToken with
           | Js.Str s => (s =? "BNB")%string
           | _ => false
           end)
  && negb (Js.val_truthy toToken).

(** [EXPLORERS[chain.toUpperCase()]] *)
Definition explorerOf (chain : string) : option string :=
  let k := Js.toUpperCase chain in
  if (k =? "BSC")%string then Some EXPLORERS_BSC
  else if (k =? "BSC_TESTNET")%string then Some EXPLORERS_BSC_TESTNET
  else if (k =? "OPBNB")%string then Some EXPLORERS_OPBNB
  else None.

(** The message of the failure response (lines 824-836), [errorMessage]
    being [errorObj.message || String(error)]. *)
Definition failureMessage (errorMessage : string) : string :=
  if Js.includes errorMessage "insufficient funds"
  then "Insufficient funds for the bridge operation. Please check your balance and try with a smaller amount."
  else if Js.includes errorMessage "user rejected"
  then "Transaction was rejected. Please try again if you want to proceed with the bridge operation."
  else if Js.includes errorMessage "token address on opBNB is required"
  then "When bridging ERC20 tokens from BSC to opBNB, you must specify the token address on opBNB."
  else if Js.includes errorMessage "Unsupported bridge direction"
  then "Only bridges between BSC and opBNB are supported. Valid directions are BSC→opBNB and opBNB→BSC."
  else errorMessage.

Definition nullable (o : option string) : Js.Val :=
  match o with
  | Some s => Js.Str s
  | None => Js.Null
  end.

(** The parameters the handler hands to [bridge] (lines 653-765), from the
    groups of the pattern [m], the lower-cased text and the content.  The
    reads of the content have no effect, so that the place of a [TypeError]
    among them is immaterial; the handler returns [None] where it answers
    the missing destination token itself. *)
Definition resolveParams (m : option (list string)) (promptLower : string)
    (content : Js.Val) (hasCallback : bool) : M (option BridgeParams) :=
  env <- ask ;;
  let directAmount := Js.group_opt m 1 in
  let directFromToken := Js.group_opt m 2 in
  let directToAddress := Js.group_opt m 3 in
  let direct := directChains promptLower in
  contentFromChain <- prop content "fromChain" ;;
  let fromChain := resolveFromChain (fst direct) contentFromChain in
  contentToChain <- prop content "toChain" ;;
  let toChain := resolveToChain (snd direct) contentToChain fromChain in
  contentFromToken <- prop content "fromToken" ;;
  let fromToken := resolveFromToken directFromToken contentFromToken in
  contentToToken <- prop content "toToken" ;;
  let toToken := resolveToToken contentToToken in
  if missingDestinationToken fromChain fromToken toToken
  then
    emit hasCallback
      "Cannot bridge ERC20 token from BSC to opBNB without destination token address. Please provide the token address on opBNB."
      (Js.Obj [("error", Js.Str "Missing destination token address")]) ;;;
    ret None
  else
    contentToAddress <- prop content "toAddress" ;;
    toAddress <- resolveToAddress directToAddress contentToAddress ;;
    contentAmount <- prop content "amount" ;;
    let amount := resolveAmount env directAmount contentAmount in
    call_unit InitWalletProvider ;;;
    fromTokenAddress <- hexOrUndefined fromToken ;;
    toTokenAddress <- hexOrUndefined toToken ;;
    ret (Some {| fromChain := fromChain; toChain := toChain;
                 fromToken := fromTokenAddress; toToken := toTokenAddress;
                 amount := amount; toAddress := toAddress |}).

(** The guarded part of the handler (lines 769-843): the bridge, the
    success response, and the failure response for what the bridge throws.
    The [catch] block starts by reading [errorObj.message] (line 798),
    which throws on [null] and [undefined]. *)
Definition execute (bridgeParams : BridgeParams) (hasCallback : bool) : M bool :=
  try_catch
    (bridgeResp <- bridge bridgeParams ;;
     let explorer := explorerOf (resp_fromChain bridgeResp) in
     let txExplorerUrl :=
       match explorer with
       | Some url => if Js.truthy (txHash bridgeResp)
                     then Some (url ^^ "/tx/" ^^ txHash bridgeResp) else None
       | None => None
       end in
     let walletExplorerUrl :=
       match explorer with
       | Some url => if Js.truthy (recipient bridgeResp)
                     then Some (url ^^ "/address/" ^^ recipient bridgeResp)
                     else None
       | None => None
       end in
     emit hasCallback
       ("Successfully bridged " ^^ resp_amount bridgeResp ^^ " "
        ^^ resp_fromToken bridgeResp ^^ " from " ^^ resp_fromChain bridgeResp
        ^^ " to " ^^ resp_toChain bridgeResp ^^ Js.nl
        ^^ "Transaction Hash: " ^^ txHash bridgeResp
        ^^ match txExplorerUrl with
           | Some u => Js.nl ^^ Js.nl ^^ "View transaction: " ^^ u
           | None => ""
           end
        ^^ match walletExplorerUrl with
           | Some u => Js.nl ^^ "View wallet: " ^^ u
           | None => ""
           end
        ^^ Js.nl ^^ Js.nl
        ^^ "Note: Bridge transactions may take 10-20 minutes to complete.")
       (Js.Obj [("fromChain", Js.Str (resp_fromChain bridgeResp));
                ("toChain", Js.Str (resp_toChain bridgeResp));
                ("fromToken", Js.Str (resp_fromToken bridgeResp));
                ("toToken", Js.Str (resp_toToken bridgeResp));
                ("amount", Js.Str (resp_amount bridgeResp));
                ("txHash", Js.Str (txHash bridgeResp));
                ("recipient", Js.Str (recipient bridgeResp));
                ("txExplorerUrl", nullable txExplorerUrl);
                ("walletExplorerUrl", nullable walletExplorerUrl)]) ;;;
     ret true)
    (fun error =>
       errorMessage <- error_text error ;;
       let errorMessage := failureMessage errorMessage in
       emit hasCallback ("Bridge failed: " ^^ errorMessage)
         (Js.Obj [("error", Js.Str errorMessage)]) ;;;
       ret false).

(** [bridgeAction.handler] *)
Definition handler (message : Message) (hasState hasCallback : bool) : M bool :=
  env <- ask ;;
  let promptLower := Js.toLowerCase (promptText message) in
  let m := regexMatch env Js.BridgeRegex (promptText message) in
  currentState hasState ;;;
  walletOk <-
    (if hasState then
       try_catch (call_unit WalletInfo ;;; ret true)
         (fun error =>
            let errorMessage := message_of error in
            emit hasCallback ("Unable to access wallet: " ^^ errorMessage)
              (Js.Obj [("error", Js.Str errorMessage)]) ;;;
            ret false)
     else ret true) ;;
  if negb walletOk then ret false
  else
    mlOutput <- call_val (UseModel "bridgeTemplate") ;;
    let content := match parseModelOutput env mlOutput with
                   | Ok v => v
                   | Throw _ => Js.Obj []
                   end in
    resolved <- resolveParams m promptLower content hasCallback ;;
    match resolved with
    | None => ret false
    | Some bridgeParams => execute bridgeParams hasCallback
    end.

End Bridge.

(* ================================================================== *)
(** * StakeAction (actions/stake.ts) *)
(* ================================================================== *)

Module Stake.

Definition LISTA_DAO : string := "0x1adB950d8bB3dA4bE104211D5AB038628e477fE6".
Definition SLIS_BNB : string := "0xB0b84D294e0C75A6abe60171b70edEb2EFd14A1B".

(** The [catch] block of [doWithdraw] (lines 355-372): it throws the error
    caught unless its message is one of the known; reading the message of
    [null] or [undefined] throws a [TypeError]. *)
Definition withdrawError {A} (error : Exn) : M A :=
  errorMessage <- error_text error ;;
  if Js.includes errorMessage "insufficient funds"
     || Js.includes errorMessage "insufficient balance"
  then throw "Insufficient slisBNB balance to withdraw. Please check your balance."
  else if Js.includes errorMessage "user rejected"
  then throw "Transaction rejected by user."
  else throw error.

(** The [catch] block of [doClaim] (lines 469-482). *)
Definition claimError {A} (error : Exn) : M A :=
  errorMessage <- error_text error ;;
  if Js.includes errorMessage "user rejected"
  then throw "Transaction rejected by user."
  else throw error.

(** [StakeAction.doWithdraw]; the empty string is the omitted amount. *)
Definition doWithdraw (amount : string) : M string :=
  env <- ask ;;
  if negb (hasAccount env) then throw "Wallet account not found"
  else
    try_catch
      (amountToWithdraw <-
         (if negb (Js.truthy amount)
          then call_int (ReadContract "bsc" SLIS_BNB "balanceOf" [AStr (address env)])
          else parseEther amount) ;;
       if amountToWithdraw <=? 0
       then throw "No slisBNB tokens available to withdraw"
       else
         allowance <- call_int (CheckERC20Allowance "bsc" SLIS_BNB (address env)
                                  LISTA_DAO) ;;
         (if allowance <? amountToWithdraw then
            txHash <- call_str (ApproveERC20 "bsc" SLIS_BNB LISTA_DAO amountToWithdraw) ;;
            call_unit (WaitForTransactionReceipt "bsc" txHash)
          else ret tt) ;;;
         call_unit (SimulateContract "bsc" LISTA_DAO "requestWithdraw"
                      [AInt amountToWithdraw] None) ;;;
         txHash <- call_str (WriteContract "bsc" LISTA_DAO "requestWithdraw"
                               [AInt amountToWithdraw] None) ;;
         call_unit (WaitForTransactionReceipt "bsc" txHash) ;;;
         slisBNBBalance <- call_int (ReadContract "bsc" SLIS_BNB "balanceOf"
                                       [AStr (address env)]) ;;
         ret ("Successfully requested withdrawal of "
              ^^ Js.or_else amount (Viem.formatEther amountToWithdraw)
              ^^ " slisBNB. You have " ^^ Viem.formatEther slisBNBBalance
              ^^ " slisBNB left. " ^^ Js.nl
              ^^ "You can claim your BNB in 7-14 days using the 'claim' action."
              ^^ Js.nl ^^ "Transaction Hash: " ^^ txHash))
      withdrawError.

(** The state of the claim loop: [totalClaimed], [claimedCount],
    [lastTxHash]. *)
Record ClaimState : Type := {
  totalClaimed : Z;
  claimedCount : nat;
  lastTxHash : string
}.

(** The loop of [doClaim] (lines 417-458), [remaining] being
    [requests.length - idx]: the status of request [idx] is read; a
    claimable request is claimed (simulate, write, wait) and the loop goes
    on; a request that is not claimable ends the loop. *)
Fixpoint claimLoop (remaining idx : nat) (st : ClaimState) : M ClaimState :=
  match remaining with
  | O => ret st
  | S remaining' =>
      env <- ask ;;
      s <- call_status (ReadContract "bsc" LISTA_DAO "getUserRequestStatus"
                          [AStr (address env); AInt (Z.of_nat idx)]) ;;
      if fst s then
        call_unit (SimulateContract "bsc" LISTA_DAO "claimWithdraw"
                     [AInt (Z.of_nat idx)] None) ;;;
        txHash <- call_str (WriteContract "bsc" LISTA_DAO "claimWithdraw"
                              [AInt (Z.of_nat idx)] None) ;;
        call_unit (WaitForTransactionReceipt "bsc" txHash) ;;;
        claimLoop remaining' (S idx)
          {| totalClaimed := totalClaimed st + snd s;
             claimedCount := S (claimedCount st);
             lastTxHash := txHash |}
      else ret st
  end.

(** [StakeAction.doClaim] *)
Definition doClaim : M string :=
  env <- ask ;;
  if negb (hasAccount env) then throw "Wallet account not found"
  else
    try_catch
      (requests <- call_len (ReadContract "bsc" LISTA_DAO "getUserWithdrawalRequests"
                               [AStr (address env)]) ;;
       if (requests =? 0)%nat
       then ret "No withdrawal requests found to claim. You need to request a withdrawal first using the 'withdraw' action."
       else
         st <- claimLoop requests 0
                 {| totalClaimed := 0; claimedCount := 0; lastTxHash := "" |} ;;
         if (claimedCount st =? 0)%nat
         then ret "No claimable withdrawals found. Withdrawal requests typically need 7-14 days to become claimable."
         else ret ("Successfully claimed " ^^ Viem.formatEther (totalClaimed st)
                   ^^ " BNB from "
                   ^^ NilZero.string_of_uint (Nat.to_uint (claimedCount st))
                   ^^ " withdrawal request(s)." ^^ Js.nl
                   ^^ "Transaction Hash: " ^^ lastTxHash st))
      claimError.

End Stake.

(* ================================================================== *)
(** * FaucetAction (actions/faucet.ts) *)
(* ================================================================== *)

Module Faucet.

Record FaucetParams : Type := {
  token : string;
  toAddress : string
}.

Record FaucetResponse : Type := {
  resp_token : string;
  recipient : string;
  txHash : string
}.

Definition SUPPORTED_TOKENS : list string :=
  ["BNB"; "BTC"; "BUSD"; "DAI"; "ETH"; "USDC"].

(** [FaucetAction.validateAndNormalizeParams] *)
Definition validateAndNormalizeParams (params : FaucetParams) : M FaucetParams :=
  env <- ask ;;
  let token' := if negb (Js.truthy (token params)) then "BNB" else token params in
  if negb (existsb (String.eqb token') SUPPORTED_TOKENS)
  then throw ("Unsupported token: " ^^ token' ^^ ". Supported tokens are: "
              ^^ Js.join ", " SUPPORTED_TOKENS)
  else if negb (Js.truthy (toAddress params))
  then ret {| token := token'; toAddress := address env |}
  else if Js.startsWith (toAddress params) "0x"
          && (String.length (toAddress params) =? 42)%nat
  then ret {| token := token'; toAddress := toAddress params |}
  else
    formatted <- try_catch (call_str (FormatAddress (toAddress params)))
                   (fun _ => ret (address env)) ;;
    ret {| token := token'; toAddress := formatted |}.

(** A message of the faucet, parsed: [response.success],
    [response.requests[0].tx.hash] when [response.requests] is not empty,
    [response.error] (the empty string when there is none). *)
Record Response : Type := {
  success : bool;
  hash : option string;
  error : string
}.

(** What the socket and the timer deliver, in the order of delivery. *)
Inductive WsEvent : Type :=
| Open
| Error (message : string)
| Message (response : Response)
| TimerFired.

(** How the awaited promise ends; [Pending] when nothing delivered settles
    it. *)
Inductive Outcome : Type :=
| Resolved (txHash : string)
| Rejected (message : string)
| Pending.

(** The socket after the session: the number of [ws.send] and of
    [ws.close] calls. *)
Record Socket : Type := {
  sends : nat;
  closes : nat
}.

Definition TIMEOUT_MS : Z := 15000.

(** The second promise (lines 922-966), the timer of [TIMEOUT_MS] armed:
    the timer closes the socket and rejects; a message with [success] is
    the acknowledgement; a message with a hash clears the timer and
    resolves; a message with an error clears the timer and rejects; an
    error of the socket clears the timer and rejects.  The result is the
    outcome and the number of [ws.close] calls made by the callbacks. *)
Fixpoint awaitHash (events : list WsEvent) : Outcome * nat :=
  match events with
  | [] => (Pending, O)
  | TimerFired :: _ => (Rejected "Faucet request timeout", 1%nat)
  | Error message :: _ => (Rejected ("WebSocket error occurred: " ^^ message), O)
  | Message response :: rest =>
      if success response then awaitHash rest
      else
        match hash response with
        | Some h =>
            if Js.truthy h
            then (Resolved (if Js.startsWith h "0x" then h else "0x" ^^ h), O)
            else if Js.truthy (error response)
                 then (Rejected (error response), O)
                 else awaitHash rest
        | None =>
            if Js.truthy (error response)
            then (Rejected (error response), O)
            else awaitHash rest
        end
  | Open :: rest => awaitHash rest
  end.

(** The first promise (lines 906-909) and what follows it: until the socket
    opens only [open] and [error] have a listener, and no timer is armed. *)
Fixpoint awaitOpen (events : list WsEvent) : Outcome * Socket :=
  match events with
  | [] => (Pending, {| sends := 0; closes := 0 |})
  | Open :: rest =>
      let (outcome, closed) := awaitHash rest in
      (outcome, {| sends := 1; closes := closed |})
  | Error message :: _ => (Rejected message, {| sends := 0; closes := 0 |})
  | Message _ :: rest => awaitOpen rest
  | TimerFired :: rest => awaitOpen rest
  end.

(** The session on the socket (lines 902-973): the two promises, then the
    [finally] block, which closes the socket once the promise has settled. *)
Definition session (events : list WsEvent) : Outcome * Socket :=
  let (outcome, ws) := awaitOpen events in
  match outcome with
  | Pending => (Pending, ws)
  | _ => (outcome, {| sends := sends ws; closes := S (closes ws) |})
  end.

(** An event that settles nothing once the socket is open: an
    acknowledgement, or a message with neither a hash nor an error. *)
Definition settlesNothing (ev : WsEvent) : bool :=
  match ev with
  | Message response =>
      success response
      || (negb (Js.truthy_opt (hash response)) && negb (Js.truthy (error response)))
  | Open => true
  | _ => false
  end.

(** An event nothing listens to before the socket is open. *)
Definition unheardBeforeOpen (ev : WsEvent) : bool :=
  match ev with
  | Message _ | TimerFired => true
  | _ => false
  end.

(** How [faucet] ends once the parameters are valid. *)
Inductive Settled : Type :=
| Returned (resp : FaucetResponse)
| Thrown (message : string)
| Hanging.

(** [FaucetAction.faucet]: how the call ends, with the state of the socket;
    an error of the validation is thrown before a socket exists.  After the
    validation a token or a recipient that is still empty is filled in
    (lines 879-887). *)
Definition faucet (params : FaucetParams) (events : list WsEvent)
  : M (Settled * Socket) :=
  params <- validateAndNormalizeParams params ;;
  env <- ask ;;
  let params := {| token := Js.or_else (token params) "BNB";
                   toAddress := Js.or_else (toAddress params) (address env) |} in
  match session events with
  | (Resolved h, ws) =>
      ret (Returned {| resp_token := token params; recipient := toAddress params;
                       txHash := h |}, ws)
  | (Rejected message, ws) => ret (Thrown message, ws)
  | (Pending, ws) => ret (Hanging, ws)
  end.

End Faucet.

(* ================================================================== *)
(** * Sample collaborators *)
(* ================================================================== *)

Module Sample.

Fixpoint digits (acc : Z) (s : string) : option Z :=
  match s with
  | EmptyString => Some acc
  | String c s' =>
      let n := Z.of_nat (nat_of_ascii c) in
      if (48 <=? n) && (n <=? 57) then digits (10 * acc + (n - 48)) s' else None
  end.

Fixpoint splitDot (s : string) : string * option string :=
  match s with
  | EmptyString => ("", None)
  | String "."%char rest => ("", Some rest)
  | String c rest => let (i, f) := splitDot rest in (String c i, f)
  end.

(** A parser of plain decimals: viem's [parseUnits] on an unsigned decimal
    whose fraction has no more digits than [decimals]; anything else is
    refused. *)
Definition parseUnits (s : string) (decimals : Z) : Result Z :=
  let (i, f) := splitDot s in
  let f := match f with Some f => f | None => "" end in
  if (s =? "")%string || (s =? ".")%string
     || (decimals <? Z.of_nat (String.length f))
  then Throw "InvalidDecimalNumberError"
  else match digits 0 (i ^^ f) with
       | Some n => Ok (n * 10 ^ (decimals - Z.of_nat (String.length f)))
       | None => Throw "InvalidDecimalNumberError"
       end.

Definition parsesPositive (s : string) : bool :=
  match parseUnits s 18 with
  | Ok n => 0 <? n
  | Throw _ => false
  end.

Definition HASH : string :=
  "0x9f1c7a4e5b2d8c3f6a0e1b4d7c2f5a8e3b6d9c0f1a4e7b2d5c8f3a6e9b0d1c4f".
Definition ALICE : string := "0x742d35Cc6634C0532925a3b844Bc454e4438f44e".
Definition WALLET : string := "0xC9904881242cF8A1e105E800A9CF6fF4Ec0289f0".
Definition USDT : string := "0x55d398326f99059fF775485246999027B3197955".
Definition USDT_OPBNB : string := "0x9e5AAC1Ba1a2e6aEd6b32689DFcF62A509Ca96f3".

(** A chain on which every call succeeds: the wallet holds [balance] wei,
    tokens have 18 decimals, the allowance towards any spender is
    [allowance], requests are claimable as [requests] says, the model
    answers [mlOutput], and the patterns match as [matches] says. *)
Definition chainEnv (balance allowance : Z) (requests : list (bool * Z))
    (mlOutput : Js.Val) (matches : Js.Regex -> option (list string)) : Env :=
  {| ask_unit := fun _ _ => Ok tt;
     ask_int := fun _ c =>
       match c with
       | GetBalance _ _ => Ok balance
       | CheckERC20Allowance _ _ _ _ => Ok allowance
       | ReadContract _ _ f _ =>
           if (f =? "decimals")%string then Ok 18
           else if (f =? "delegationFee")%string then Ok 2000000000000000
           else Ok balance
       | _ => Ok 0
       end;
     ask_str := fun _ c =>
       match c with
       | FormatAddress a => Ok a
       | GetTokenAddress _ _ => Ok USDT
       | _ => Ok HASH
       end;
     ask_status := fun _ c =>
       match c with
       | ReadContract _ _ _ [_; AInt idx] => Ok (nth (Z.to_nat idx) requests (false, 0))
       | _ => Ok (false, 0)
       end;
     ask_len := fun _ c =>
       match c with
       | GetRoutes _ _ _ _ _ _ => Ok 1%nat
       | _ => Ok (length requests)
       end;
     ask_val := fun _ _ => Ok mlOutput;
     ask_process := fun _ _ => Ok (Some {| status := "DONE"; processTxHash := HASH |});
     address := WALLET;
     chains := [("bsc", Some "BNB"); ("bscTestnet", Some "tBNB"); ("opBNB", Some "BNB")];
     hasAccount := true;
     Fx.parseUnits := parseUnits;
     Fx.parsesPositive := parsesPositive;
     jsonParse := fun s => if (s =? "{}")%string then Ok (Js.Obj [])
                           else Throw "SyntaxError";
     numberToString := fun _ => "1";
     regexMatch := fun re _ => matches re |}.

Definition noMatch : Js.Regex -> option (list string) := fun _ => None.

Definition BOB : string := "0x2CE4EaF47CACFbC6590686f8f7521e0385822334".

(** "Transfer 1 BNB to <ALICE>", and how the transfer pattern matches it. *)
Definition TRANSFER_TEXT : string := "Transfer 1 BNB to " ^^ ALICE.

Definition transferMatch : Js.Regex -> option (list string) :=
  fun re =>
    match re with
    | Js.TransferRegex => Some [TRANSFER_TEXT; "1"; "BNB"; ALICE]
    | _ => None
    end.

(** "bridge 1 USDT from bsc to opbnb", and how the bridge pattern matches
    it. *)
Definition BRIDGE_TEXT : string := "bridge 1 USDT from bsc to opbnb".

Definition bridgeMatch : Js.Regex -> option (list string) :=
  fun re =>
    match re with
    | Js.BridgeRegex => Some [BRIDGE_TEXT; "1"; "USDT"; ""]
    | _ => None
    end.

(** The chain on which the model answers a transfer of 2 to BOB, and the
    transfer pattern matches a transfer of 1 BNB to ALICE. *)
Definition transferEnv : Env :=
  chainEnv 5000000000000000000 0 []
    (Js.Obj [("amount", Js.Str "2"); ("toAddress", Js.Str BOB)]) transferMatch.

(** The chain on which the model answers the addresses of USDT on both
    chains, and the bridge pattern matches a bridge of 1 USDT. *)
Definition bridgeEnv : Env :=
  chainEnv 5000000000000000000 0 []
    (Js.Obj [("fromToken", Js.Str USDT); ("toToken", Js.Str USDT_OPBNB)])
    bridgeMatch.

(** A message from the chat with the text [text]. *)
Definition chat (text : string) : Message :=
  {| promptText := text; source := "direct" |}.

(** The plain chain: 5 BNB in the wallet, no allowance, nothing else. *)
Definition env : Env :=
  chainEnv 5000000000000000000 0 [] (Js.Obj []) noMatch.

(** The same chain on which a call [failing] fails. *)
Definition failing (base : Env) (fails : Call -> bool) (message : string) : Env :=
  {| ask_unit := fun h c => if fails c then Throw message else ask_unit base h c;
     ask_int := fun h c => if fails c then Throw message else ask_int base h c;
     ask_str := fun h c => if fails c then Throw message else ask_str base h c;
     ask_status := fun h c => if fails c then Throw message else ask_status base h c;
     ask_len := fun h c => if fails c then Throw message else ask_len base h c;
     ask_val := fun h c => if fails c then Throw message else ask_val base h c;
     ask_process := fun h c => if fails c then Throw message else ask_process base h c;
     address := address base;
     chains := chains base;
     hasAccount := hasAccount base;
     Fx.parseUnits := Fx.parseUnits base;
     Fx.parsesPositive := Fx.parsesPositive base;
     jsonParse := jsonParse base;
     numberToString := numberToString base;
     regexMatch := regexMatch base |}.

Definition isWait (c : Call) : bool :=
  match c with
  | WaitForTransactionReceipt _ _ => true
  | _ => false
  end.

Definition isWalletTransfer (c : Call) : bool :=
  match c with
  | WalletTransfer _ _ _ _ _ _ => true
  | _ => false
  end.

Definition isUseModel (c : Call) : bool :=
  match c with
  | UseModel _ => true
  | _ => false
  end.

(** The plain chain on which the wallet refuses every native transfer for
    lack of funds. *)
Definition brokeEnv : Env :=
  failing env isWalletTransfer "insufficient funds for gas".

(** A transfer of 1 BNB to ALICE on BSC. *)
Definition transferOfOne : Transfer.TransferParams :=
  {| Transfer.chain := "bsc"; Transfer.token := "BNB"; Transfer.amount := "1";
     Transfer.toAddress := ALICE; Transfer.data := None |}.

End Sample.

(* ================================================================== *)
(** * The priority of the sources of a parameter *)
(* ================================================================== *)

(** The parameters of the actions as lists of sources by priority: the
    first source that gives a value is used, and the default when none
    does.  The handlers compute them by nested tests. *)
Module Priority.

Fixpoint firstSome (sources : list (option string)) : option string :=
  match sources with
  | Some value :: _ => Some value
  | None :: rest => firstSome rest
  | [] => None
  end.

Definition firstOf (sources : list (option string)) (default : string) : string :=
  match firstSome sources with
  | Some value => value
  | None => default
  end.

(** The group [i] captured from the text by the pattern of the action, when
    the match [m] has at least [groups] elements and the group is not
    empty. *)
Definition captured (m : option (list string)) (groups i : nat) : option string :=
  match m with
  | Some l => if (groups <=? length l)%nat && Js.truthy (Js.group l i)
              then Some (Js.group l i) else None
  | None => None
  end.

Definition upperCased (source : option string) : option string :=
  option_map Js.toUpperCase source.

(** A source that is kept only when it starts with 0x. *)
Definition hexOnly (source : option string) : option string :=
  match source with
  | Some s => if Js.startsWith s "0x" then Some s else None
  | None => None
  end.

(** The field [k] of the content of the model output. *)
Definition field (content : Js.Val) (k : string) : Js.Val :=
  match Js.get content k with
  | Some v => v
  | None => Js.Undefined
  end.

(** The content of the model output of the swap and of the bridge: the
    output parsed, and the empty object when it does not parse. *)
Definition parsed (env : Env) (mlOutput : Js.Val) : Js.Val :=
  match parseModelOutput env mlOutput with
  | Ok content => content
  | Throw _ => Js.Obj []
  end.

(** A field that is a string. *)
Definition stringOf (v : Js.Val) : option string :=
  match v with
  | Js.Str s => Some s
  | _ => None
  end.

(** A field that is a string that starts with 0x. *)
Definition hexString (v : Js.Val) : option string := hexOnly (stringOf v).

(** The parameters of a transfer.  The token is the token of the text,
    then that of the content; the amount and the recipient are those of the
    content, then those of the text. *)
Definition transferParams (env : Env) (text : string) (content : Js.Val)
  : Transfer.TransferParams :=
  let m := regexMatch env Js.TransferRegex text in
  {| Transfer.chain := match field content "chain" with
                       | Js.Str c => Js.toLowerCase c
                       | _ => "bsc"
                       end;
     Transfer.token :=
       firstOf [upperCased (captured m 3 2); truthyString (field content "token")]
         "BNB";
     Transfer.amount :=
       firstOf [amountOfContent env (field content "amount"); captured m 0 1] "";
     Transfer.toAddress :=
       firstOf [stringOf (field content "toAddress"); captured m 0 3] "";
     Transfer.data := Transfer.resolveData (field content "data") |}.

(** The output token of a swap that neither the text nor the content
    names (lines 410-424 of swap.ts). *)
Definition swapOutputDefault (fromToken : string) (mentions : string -> bool)
  : string :=
  Swap.resolveToToken "" Js.Undefined fromToken mentions.

(** The parameters of a swap: the text, then the content. *)
Definition swapParams (env : Env) (text : string) (content : Js.Val)
  : Swap.SwapParams :=
  let m := Swap.swapMatch env text in
  let fromToken :=
    firstOf [upperCased (captured m 4 2); truthyString (field content "inputToken")]
      "BNB" in
  {| Swap.chain := match field content "chain" with
                   | Js.Str c => Js.toLowerCase c
                   | _ => "bsc"
                   end;
     Swap.fromToken := fromToken;
     Swap.toToken :=
       firstOf [upperCased (captured m 4 3);
                truthyString (field content "outputToken")]
         (swapOutputDefault fromToken (Swap.tokenMentions env text));
     Swap.amount :=
       firstOf [captured m 4 1; amountOfContent env (field content "amount")]
         "0.001";
     Swap.slippage := Some (Swap.resolveSlippage (field content "slippage")) |}.

(** The parameters of a bridge: the text, then the content, for the amount
    and the recipient.  A token captured from the text is not a source of
    the source token: it hides the token of the content and is not used
    itself. *)
Definition bridgeParams (env : Env) (text : string) (content : Js.Val)
  : Bridge.BridgeParams :=
  let m := regexMatch env Js.BridgeRegex text in
  let direct := Bridge.directChains (Js.toLowerCase text) in
  let fromChain := Bridge.resolveFromChain (fst direct) (field content "fromChain") in
  {| Bridge.fromChain := fromChain;
     Bridge.toChain :=
       Bridge.resolveToChain (snd direct) (field content "toChain") fromChain;
     Bridge.fromToken :=
       match captured m 0 2 with
       | Some _ => None
       | None => hexString (field content "fromToken")
       end;
     Bridge.toToken := hexString (field content "toToken");
     Bridge.amount :=
       firstOf [captured m 0 1; amountOfContent env (field content "amount")]
         "0.001";
     Bridge.toAddress :=
       firstSome [hexOnly (captured m 0 3);
                  hexString (field content "toAddress")] |}.

End Priority.

(* ================================================================== *)
(** * Properties of traces *)
(* ================================================================== *)

Module Trace.


Definition isLookup (c : Call) : bool :=
  match c with
  | GetTokenAddress _ _ => true
  | _ => false
  end.


Definition count (f : Call -> bool) (tr : list Event) : nat :=
  length (filter f (calls tr)).


(** [b] is the event right after [a]. *)
Fixpoint adjacent (a b : Event) (tr : list Event) : Prop :=
  match tr with
  | x :: (y :: _) as rest => (x = a /\ y = b) \/ adjacent a b rest
  | _ => False
  end.

(** A call did not fail. *)
Definition succeeded (r : Resp) : Prop :=
  match r with
  | RThrow _ => False
  | _ => True
  end.





(** The indices of the withdrawal requests claimed (the claim transaction
    was submitted), in the order of the claims. *)
Fixpoint claimed (tr : list Event) : list Z :=
  match tr with
  | [] => []
  | (WriteContract _ _ f [AInt idx] _, RStr _) :: rest =>
      if (f =? "claimWithdraw")%string then idx :: claimed rest else claimed rest
  | _ :: rest => claimed rest
  end.

(** The indices of the withdrawal requests whose status was read. *)
Fixpoint statusReads (tr : list Event) : list Z :=
  match tr with
  | [] => []
  | (ReadContract _ _ f [_; AInt idx], _) :: rest =>
      if (f =? "getUserRequestStatus")%string then idx :: statusReads rest
      else statusReads rest
  | _ :: rest => statusReads rest
  end.

(** A successful submission of a transfer, with the hash it returned. *)
Definition isSubmission (ev : Event) (hash : string) : Prop :=
  match ev with
  | (WalletTransfer _ _ _ _ _ _, RStr h) | (TransferERC20 _ _ _ _, RStr h) => h = hash
  | _ => False
  end.

(** A token that [transfer] takes for the native asset of a chain whose
    native token is [native]: none, the word "null", the native token up to
    case, or exactly BNB or bnb. *)
Definition namesNative (token native : string) : bool :=
  negb (Js.truthy token)
  || (token =? "null")%string
  || (Js.toLowerCase token =? Js.toLowerCase native)%string
  || Transfer.isBnbSymbol token.

(** A token that [transfer] treats as a symbol to look up on a chain whose
    native token is [native]: it is given, it is not the native token up to
    case, not the word "null", not BNB, and not an address. *)
Definition otherSymbol (token native : string) : Prop :=
  Js.truthy token = true
  /\ (Js.toLowerCase token =? Js.toLowerCase native)%string = false
  /\ (token =? "null")%string = false
  /\ Transfer.isBnbSymbol token = false
  /\ Js.startsWith token "0x" = false.

(** The failure response of a handler: a text for the user and a content
    whose [error] is a message. *)
Definition isFailureResponse (ev : Event) : Prop :=
  match ev with
  | (Callback text content, _) =>
      Js.truthy text = true /\
      exists message, Js.get content "error" = Some (Js.Str message)
  | _ => False
  end.

(** The calls of a handler itself, on the agent runtime: those that are not
    calls of the action it executes. *)
Definition isRuntimeCall (c : Call) : bool :=
  match c with
  | ComposeState | WalletInfo | UseModel _ | InitWalletProvider | Callback _ _ => true
  | _ => false
  end.

(** The failure response of a handler for the message [message]: the text
    starts with [failed] and the message, and the [error] of the content is
    the message. *)
Definition failureResponseOf (failed message : string) (ev : Event) : Prop :=
  match ev with
  | (Callback text content, RUnit) =>
      Js.startsWith text (failed ^^ message) = true
      /\ Js.get content "error" = Some (Js.Str message)
  | _ => False
  end.

(** How the guarded part of a handler ends ([outcome]), given how the action
    it executes ends from the same history ([ra], at the history [ha]).
    When the action returned: [true], after one response.  When the action
    threw an [Error]: [false], after the failure response for the message
    that [explain] makes of the message of the error ([String(error)] when
    it has none), which is not empty.  When the action threw [null] or
    [undefined]: the [TypeError] of the [catch] block, and no response.  A
    response is made only when there is a callback. *)
Definition guards {R} (failed : string) (explain : string -> string)
    (hasCallback : bool) (ra : Result R) (ha : History)
    (outcome : Result bool * History) : Prop :=
  match ra with
  | Ok _ =>
      fst outcome = Ok true
      /\ if hasCallback
         then exists text content,
                snd outcome = (Callback text content, RUnit) :: ha
         else snd outcome = ha
  | Throw (JsError message) =>
      let explained := explain (Js.or_else message "Error") in
      fst outcome = Ok false
      /\ Js.truthy explained = true
      /\ if hasCallback
         then exists ev,
                failureResponseOf failed explained ev /\ snd outcome = ev :: ha
         else snd outcome = ha
  | Throw _ => outcome = (Throw (JsError TYPE_ERROR_NULL), ha)
  end.

(** The calls of [transfer] whose rejection reaches the handler as it is:
    the switch of the chain, the read of the balance of a transfer of
    everything, and the two submissions. *)
Definition rawTransferCall (c : Call) : bool :=
  match c with
  | SwitchChain _ | GetBalance _ _ | WalletTransfer _ _ _ _ _ _
  | TransferERC20 _ _ _ _ => true
  | _ => false
  end.

(** The call of [swap] whose rejection reaches the handler as it is. *)
Definition rawSwapCall (c : Call) : bool :=
  match c with
  | ConfigureLiFiSdk _ => true
  | _ => false
  end.

(** What a handler does with its guarded part [execute].  Either it goes
    on, after calls on the runtime alone, with the guarded part on some
    parameters, and ends as the guarded part ends.  Or it ends before, the
    trace holding calls on the runtime only: it throws, or it returns
    [false], after a failure response when there is a callback. *)
Definition Handles {P} (handler : M bool) (execute : P -> bool -> M bool)
    (hasCallback : bool) : Prop :=
  forall env r tr,
    run handler env = (r, tr) ->
    (exists p before,
        forallb isRuntimeCall (calls before) = true
        /\ runFrom (execute p hasCallback) env before = (r, tr))
    \/ (forallb isRuntimeCall (calls tr) = true
        /\ r <> Ok true
        /\ (r = Ok false -> hasCallback = true ->
            exists pre ev, tr = pre ++ [ev] /\ isFailureResponse ev)).


Definition isCallback (c : Call) : bool :=
  match c with
  | Callback _ _ => true
  | _ => false
  end.

End Trace.

Export Trace.

(* ================================================================== *)
(** * More properties of traces *)
(* ================================================================== *)

Module Events.

(** A submission of a transfer, native or ERC20. *)
Definition isSend (c : Call) : bool :=
  match c with
  | WalletTransfer _ _ _ _ _ _ | TransferERC20 _ _ _ _ => true
  | _ => false
  end.

(** The chain and the recipient of a submission of a transfer. *)
Definition sendOf (c : Call) : option (string * string) :=
  match c with
  | WalletTransfer chain toAddress _ _ _ _ => Some (chain, toAddress)
  | TransferERC20 chain _ toAddress _ => Some (chain, toAddress)
  | _ => None
  end.

(** A submission of a contract call. *)
Definition isWrite (c : Call) : bool :=
  match c with
  | WriteContract _ _ _ _ _ => true
  | _ => false
  end.

(** The execution of a route. *)
Definition isExecuteRoute (c : Call) : bool :=
  match c with
  | ExecuteRoute => true
  | _ => false
  end.

(** Every submission of a contract call in [tr] comes right after its
    simulation, which succeeded, with the same contract, function,
    arguments and value. *)
Fixpoint simulatedWrites (prev : option Event) (tr : list Event) : Prop :=
  match tr with
  | [] => True
  | ev :: rest =>
      match fst ev with
      | WriteContract c a f args v =>
          prev = Some (SimulateContract c a f args v, RUnit)
      | _ => True
      end
      /\ simulatedWrites (Some ev) rest
  end.

(** A trace that begins with a submission of a contract call. *)
Definition beginsWithWrite (l : list Event) : bool :=
  match l with
  | (WriteContract _ _ _ _ _, _) :: _ => true
  | _ => false
  end.

(** What the claim loop adds to a trace: reads of statuses and, for
    requests read as claimable, the simulation, the submission and the
    wait of their claim.  No submission comes first, each comes right after
    its simulation, and each claims a request on the Lista DAO contract
    whose status was read as claimable. *)
Definition claimEvents (env : Env) (l : list Event) : Prop :=
  beginsWithWrite l = false
  /\ (forall prev, simulatedWrites prev l)
  /\ forall c a f args v rsp,
       In (WriteContract c a f args v, rsp) l ->
       c = "bsc" /\ a = Stake.LISTA_DAO /\ f = "claimWithdraw" /\ v = None
       /\ exists idx amt,
            args = [AInt idx]
            /\ In (ReadContract "bsc" Stake.LISTA_DAO "getUserRequestStatus"
                     [AStr (address env); AInt idx], RStatus true amt) l.

End Events.

Export Events.

(* ================================================================== *)
(** * StakeAction.stake and stakeAction.handler (actions/stake.ts) *)
(* ================================================================== *)

Module StakeAction.

(** [StakeParams]; the empty string is the omitted amount. *)
Record StakeParams : Type := {
  chain : string;
  action : string;
  amount : string
}.

(** [StakeResponse]; [txHash] is [None] for [undefined]. *)
Record StakeResponse : Type := {
  response : string;
  txHash : option string;
  resp_action : string;
  resp_amount : string
}.

Definition validActions : list string := ["deposit"; "withdraw"; "claim"].

(** [StakeAction.validateStakeParams] (lines 115-164) *)
Definition validateStakeParams (params : StakeParams) : M StakeParams :=
  chain' <- (if negb (Js.truthy (chain params)) then ret "bsc"
             else if negb (chain params =? "bsc")%string
                  then throw "Only BSC mainnet is supported for staking"
                  else ret (chain params)) ;;
  if negb (Js.truthy (action params))
  then throw "Action is required for staking. Use 'deposit', 'withdraw', or 'claim'"
  else if negb (existsb (String.eqb (action params)) validActions)
  then throw ("Invalid staking action: " ^^ action params
              ^^ ". Valid actions are: " ^^ Js.join ", " validActions)
  else if (action params =? "deposit")%string && negb (Js.truthy (amount params))
  then throw "Amount is required for deposit"
  else
    (if Js.truthy (amount params) then
       try_catch
         (env <- ask ;;
          if negb (parsesPositive env (amount params))
          then throw ("Invalid amount: " ^^ amount params
                      ^^ ". Please provide a positive number.")
          else ret tt)
         (fun _ => throw ("Invalid amount format: " ^^ amount params
                          ^^ ". Please provide a valid number."))
     else ret tt) ;;;
    ret {| chain := chain'; action := action params; amount := amount params |}.

(** The [catch] block of [doDeposit] (lines 222-238): it throws the error
    caught unless its message is one of the two known; reading the message
    of [null] or [undefined] throws a [TypeError]. *)
Definition depositError {A} (amount : string) (error : Exn) : M A :=
  errorMessage <- error_text error ;;
  if Js.includes errorMessage "insufficient funds"
  then throw ("Insufficient funds to deposit " ^^ amount
              ^^ " BNB. Please check your balance.")
  else if Js.includes errorMessage "user rejected"
  then throw "Transaction rejected by user."
  else throw error.

(** [StakeAction.doDeposit] (lines 173-239).  The amount is parsed once for
    the debug message, outside the [try], and once for the value. *)
Definition doDeposit (amount : string) : M string :=
  env <- ask ;;
  if negb (hasAccount env) then throw "Wallet account not found"
  else
    parseEther amount ;;;
    try_catch
      (value <- parseEther amount ;;
       call_unit (SimulateContract "bsc" Stake.LISTA_DAO "deposit" [] (Some value)) ;;;
       txHash <- call_str (WriteContract "bsc" Stake.LISTA_DAO "deposit" []
                             (Some value)) ;;
       call_unit (WaitForTransactionReceipt "bsc" txHash) ;;;
       slisBNBBalance <- call_int (ReadContract "bsc" Stake.SLIS_BNB "balanceOf"
                                     [AStr (address env)]) ;;
       ret ("Successfully deposited " ^^ amount ^^ " BNB. You now hold "
            ^^ Viem.formatEther slisBNBBalance ^^ " slisBNB. " ^^ Js.nl
            ^^ "Transaction Hash: " ^^ txHash))
      (depositError amount).

Definition isHexDigit (c : ascii) : bool :=
  let n := nat_of_ascii c in
  ((48 <=? n) && (n <=? 57) || (65 <=? n) && (n <=? 70)
   || (97 <=? n) && (n <=? 102))%nat.

(** The first [n] characters of [s] when they are hexadecimal digits. *)
Fixpoint hexDigits (n : nat) (s : string) : option string :=
  match n with
  | O => Some ""
  | S n' =>
      match s with
      | String c rest =>
          if isHexDigit c
          then match hexDigits n' rest with
               | Some digits => Some (String c digits)
               | None => None
               end
          else None
      | EmptyString => None
      end
  end.

Definition HASH_LABEL : string := "Transaction Hash: 0x".

(** [resp.match(/Transaction Hash: (0x[a-fA-F0-9]{64})/)?.[1]]: the group
    of the leftmost match. *)
Fixpoint matchTxHash (resp : string) : option string :=
  let here :=
    if String.prefix HASH_LABEL resp
    then hexDigits 64 (String.substring (String.length HASH_LABEL)
                         (String.length resp - String.length HASH_LABEL) resp)
    else None in
  match here with
  | Some digits => Some ("0x" ^^ digits)
  | None =>
      match resp with
      | EmptyString => None
      | String _ rest => matchTxHash rest
      end
  end.

(** [StakeAction.stake] (lines 50-107) *)
Definition stake (params : StakeParams) : M StakeResponse :=
  params <- validateStakeParams params ;;
  call_unit (SwitchChain "bsc") ;;;
  resp <-
    (if (action params =? "deposit")%string then
       if negb (Js.truthy (amount params))
       then throw "Amount is required for deposit"
       else doDeposit (amount params)
     else if (action params =? "withdraw")%string
     then Stake.doWithdraw (amount params)
     else if (action params =? "claim")%string
     then Stake.doClaim
     else throw "actions[params.action] is not a function") ;;
  ret {| response := resp;
         txHash := if Js.includes resp "Transaction Hash:"
                   then matchTxHash resp else None;
         resp_action := action params;
         resp_amount := amount params |}.

(** ** stakeAction.handler *)

(** What the patterns of the handler matched in the text: the matches of
    [stakeRegex], [withdrawRegex], [claimRegex] and of the pattern of a
    number ([amountRegex]).  Matching is left to the engine. *)
Record Matches : Type := {
  stakeMatch : option (list string);
  withdrawMatch : option (list string);
  claimMatch : option (list string);
  amountMatch : option (list string)
}.

(** [match && match.length >= 2] *)
Definition matched2 (m : option (list string)) : bool :=
  match m with
  | Some l => (2 <=? length l)%nat
  | None => false
  end.

(** The action and the amount of the patterns (lines 531-554), the empty
    string standing for [null]. *)
Definition patternAction (ms : Matches) : string * string :=
  if matched2 (stakeMatch ms)
  then ("deposit", Js.group_opt (stakeMatch ms) 1)
  else if matched2 (withdrawMatch ms)
  then ("withdraw", Js.group_opt (withdrawMatch ms) 1)
  else match claimMatch ms with
       | Some _ => ("claim", "")
       | None => ("", "")
       end.

(** The action of the keywords (lines 557-568) *)
Definition keywordAction (promptLower : string) : string :=
  if Js.includes promptLower "stake" || Js.includes promptLower "deposit"
  then "deposit"
  else if Js.includes promptLower "withdraw" || Js.includes promptLower "unstake"
          || Js.includes promptLower "undelegate"
  then "withdraw"
  else if Js.includes promptLower "claim" then "claim"
  else "".

(** [directAction] after lines 531-568 *)
Definition directAction (ms : Matches) (promptLower : string) : string :=
  if Js.truthy (fst (patternAction ms)) then fst (patternAction ms)
  else keywordAction promptLower.

(** [directAmount] after lines 531-579: the amount of the pattern, else,
    unless the action is a claim, the first number of the text. *)
Definition directAmount (ms : Matches) (promptLower : string) : string :=
  let fromPattern := snd (patternAction ms) in
  if negb (Js.truthy fromPattern)
     && negb (directAction ms promptLower =? "claim")%string
  then if matched2 (amountMatch ms) then Js.group_opt (amountMatch ms) 1
       else fromPattern
  else fromPattern.

(** The action (lines 645-659): the action of the text, then the action of
    the content, then a deposit. *)
Definition resolveAction (direct : string) (contentAction : Js.Val) : string :=
  if Js.truthy direct then direct
  else match truthyString contentAction with
       | Some a => a
       | None => "deposit"
       end.

(** The amount (lines 662-676): none for a claim; else the amount of the
    text, then the amount of the content, then 0.001 for a deposit and none
    for anything else. *)
Definition resolveAmount (env : Env) (stakeAction direct : string)
    (contentAmount : Js.Val) : string :=
  if negb (stakeAction =? "claim")%string then
    if Js.truthy direct then direct
    else match amountOfContent env contentAmount with
         | Some a => a
         | None => if (stakeAction =? "deposit")%string then "0.001" else ""
         end
  else "".

(** The message of the failure response (lines 757-767), [errorMessage]
    being [errorObj.message || String(error)]. *)
Definition failureMessage (errorMessage : string) : string :=
  if Js.includes errorMessage "insufficient funds"
  then "Insufficient funds for the stake operation. Please check your balance and try with a smaller amount."
  else if Js.includes errorMessage "user rejected"
  then "Transaction was rejected. Please try again if you want to proceed with the stake operation."
  else if Js.includes errorMessage "No withdrawal requests"
  then "No withdrawal requests found to claim. You need to request a withdrawal first using the 'withdraw' action."
  else errorMessage.

Definition optional (o : option string) : Js.Val :=
  match o with
  | Some s => Js.Str s
  | None => Js.Undefined
  end.

(** [amount] as a value: [undefined] when there is none. *)
Definition amountValue (amount : string) : Js.Val :=
  if Js.truthy amount then Js.Str amount else Js.Undefined.

(** The guarded part of the handler (lines 688-779): the stake operation,
    the success response, and the failure response for what the operation
    throws.  The [catch] block starts by reading [errorObj.message] (line
    731), which throws on [null] and [undefined]. *)
Definition execute (paramOptions : StakeParams) (hasCallback : bool) : M bool :=
  env <- ask ;;
  try_catch
    (stakeResp <- stake paramOptions ;;
     let txExplorerUrl :=
       match txHash stakeResp with
       | Some h => if Js.truthy h then Some (EXPLORERS_BSC ^^ "/tx/" ^^ h) else None
       | None => None
       end in
     let walletExplorerUrl :=
       match txHash stakeResp with
       | Some h => if Js.truthy h
                   then Some (EXPLORERS_BSC ^^ "/address/" ^^ address env)
                   else None
       | None => None
       end in
     emit hasCallback
       (response stakeResp
        ^^ match txExplorerUrl with
           | Some u => Js.nl ^^ Js.nl ^^ "View transaction: " ^^ u
           | None => ""
           end
        ^^ match walletExplorerUrl with
           | Some u => Js.nl ^^ "View wallet: " ^^ u
           | None => ""
           end)
       (Js.Obj [("response", Js.Str (response stakeResp));
                ("txHash", optional (txHash stakeResp));
                ("action", Js.Str (resp_action stakeResp));
                ("amount", amountValue (resp_amount stakeResp));
                ("txExplorerUrl", optional txExplorerUrl);
                ("walletExplorerUrl", optional walletExplorerUrl)]) ;;;
     ret true)
    (fun error =>
       errorMessage <- error_text error ;;
       let errorMessage := failureMessage errorMessage in
       emit hasCallback ("Stake failed: " ^^ errorMessage)
         (Js.Obj [("error", Js.Str errorMessage);
                  ("action", Js.Str (action paramOptions));
                  ("amount", amountValue (amount paramOptions))]) ;;;
       ret false).

(** [stakeAction.handler] (lines 508-779) *)
Definition handler (message : Message) (ms : Matches) (hasState hasCallback : bool)
  : M bool :=
  env <- ask ;;
  let promptLower := Js.toLowerCase (promptText message) in
  if negb ((source message =? "direct")%string
           || (source message =? "client_chat:user")%string)
  then
    emit hasCallback "I can't do that for you."
      (Js.Obj [("error", Js.Str "Stake not allowed")]) ;;;
    ret false
  else
    currentState hasState ;;;
    walletOk <-
      (if hasState then
         try_catch (call_unit WalletInfo ;;; ret true)
           (fun error =>
              let errorMessage := message_of error in
              emit hasCallback ("Unable to access wallet: " ^^ errorMessage)
                (Js.Obj [("error", Js.Str errorMessage)]) ;;;
              ret false)
       else ret true) ;;
    if negb walletOk then ret false
    else
      mlOutput <- call_val (UseModel "stakeTemplate") ;;
      let content := match parseModelOutput env mlOutput with
                     | Ok v => v
                     | Throw _ => Js.Obj []
                     end in
      contentAction <-
        (if Js.truthy (directAction ms promptLower) then ret Js.Undefined
         else prop content "action") ;;
      let stakeAction := resolveAction (directAction ms promptLower) contentAction in
      contentAmount <-
        (if negb (stakeAction =? "claim")%string
            && negb (Js.truthy (directAmount ms promptLower))
         then prop content "amount" else ret Js.Undefined) ;;
      let amount := resolveAmount env stakeAction (directAmount ms promptLower)
                      contentAmount in
      call_unit InitWalletProvider ;;;
      execute {| chain := "bsc"; action := stakeAction; amount := amount |}
              hasCallback.

(** What a stake operation may submit: on the Lista DAO contract on BSC,
    for a deposit [deposit] with the amount in wei as value; for a
    withdrawal [requestWithdraw] of a positive amount, the amount of the
    request in wei or, when it has none, the slisBNB balance read; for a
    claim [claimWithdraw] of a request whose status was read as
    claimable. *)
Definition submission (env : Env) (action amount : string) (tr : list Event)
    (c : Call) : Prop :=
  match c with
  | WriteContract chain contract f args v =>
      chain = "bsc" /\ contract = Stake.LISTA_DAO
      /\ ((action = "deposit" /\ f = "deposit" /\ args = []
           /\ exists amt, parseUnits env amount 18 = Ok amt /\ v = Some amt)
          \/ (action = "withdraw" /\ f = "requestWithdraw" /\ v = None
              /\ exists amt,
                   args = [AInt amt] /\ 0 < amt
                   /\ if Js.truthy amount
                      then parseUnits env amount 18 = Ok amt
                      else In (ReadContract "bsc" Stake.SLIS_BNB "balanceOf"
                                 [AStr (address env)], RInt amt) tr)
          \/ (action = "claim" /\ f = "claimWithdraw" /\ v = None
              /\ exists idx amt,
                   args = [AInt idx]
                   /\ In (ReadContract "bsc" Stake.LISTA_DAO "getUserRequestStatus"
                            [AStr (address env); AInt idx], RStatus true amt) tr))
  | _ => True
  end.

(** What an operation of [action] has added to the history [h]: events
    that do not begin with a submission, in which every submission comes
    right after its simulation and is one the action may submit. *)
Definition operationEvents (env : Env) (action amount : string) (h h' : History)
  : Prop :=
  exists evs,
    h' = evs ++ h
    /\ beginsWithWrite (rev evs) = false
    /\ (forall prev, simulatedWrites prev (rev evs))
    /\ forall c rsp, In (c, rsp) (rev evs) ->
                     submission env action amount (rev evs) c.

End StakeAction.

(* ================================================================== *)
(** * faucetAction.handler (actions/faucet.ts) *)
(* ================================================================== *)

Module FaucetHandler.

(** The parsed model output (lines 1095-1127): the JSON of the output,
    taken out of a markdown fence when there is one; an object is used as
    it is. *)
Definition parseContent (env : Env) (mlOutput : Js.Val) : Result Js.Val :=
  match mlOutput with
  | Js.Str s =>
      jsonParse env
        match regexMatch env Js.JsonFenceRegex s with
        | Some f => if Js.truthy (Js.group f 1) then Js.group f 1 else s
        | None => s
        end
  | v => Ok v
  end.

(** The parameters of the request (lines 1134-1139): the token of the
    content when it is a string and BNB otherwise; the recipient of the
    content when it is a string that is not empty, and the address of the
    wallet otherwise. *)
Definition faucetParams (env : Env) (token toAddress : Js.Val)
  : Faucet.FaucetParams :=
  {| Faucet.token := match token with
                     | Js.Str s => s
                     | _ => "BNB"
                     end;
     Faucet.toAddress := match toAddress with
                         | Js.Str s => if Js.truthy s then s else address env
                         | _ => address env
                         end |}.

(** The message of the failure response (lines 1170-1185), [e] being the
    message of [error instanceof Error ? error : new Error(String(error))]. *)
Definition failureMessage (e : string) : string :=
  if Js.includes e "Invalid address"
  then "Failed to validate address. Please provide a valid BSC address."
  else if Js.includes e "Unsupported token" then e
  else if Js.includes e "WebSocket"
  then "Connection to the faucet service failed. The service may be down or experiencing issues. Please try again later."
  else if Js.includes e "timeout"
  then "The faucet request timed out. Please try again later."
  else e.

(** The parameters object of the handler once [action.faucet] has run on
    it.  The validation writes into the object it is given: the default
    token (line 993) before it throws, the recipient (lines 1004, 1016,
    1021) afterwards; [faucet] fills in what is still empty (lines
    879-887).  The handler reads the object again in its failure response
    (lines 1188-1189). *)
Definition written (env : Env) (params : Faucet.FaucetParams)
    (validated : Result Faucet.FaucetParams) : Faucet.FaucetParams :=
  match validated with
  | Ok normalized =>
      {| Faucet.token := Js.or_else (Faucet.token normalized) "BNB";
         Faucet.toAddress := Js.or_else (Faucet.toAddress normalized) (address env) |}
  | Throw _ =>
      {| Faucet.token := Js.or_else (Faucet.token params) "BNB";
         Faucet.toAddress := Faucet.toAddress params |}
  end.

(** The guarded part of the handler (lines 1143-1192): the request to the
    faucet, on whose socket [events] are delivered, the success response,
    and the failure response for whatever the request throws, which names
    the token and the recipient that are in the parameters object by then.
    The validation is the first thing [faucet] does, from the history the
    handler has reached, so its outcome is known from there.  The result is
    [None] when the request never settles. *)
Definition execute (params : Faucet.FaucetParams) (events : list Faucet.WsEvent)
    (hasCallback : bool) : M (option bool) :=
  fun env h =>
  let faucetParams :=
    written env params (fst (Faucet.validateAndNormalizeParams params env h)) in
  try_catch
    (settled <- Faucet.faucet params events ;;
     match fst settled with
     | Faucet.Returned faucetResponse =>
         let blockExplorerUrl :=
           EXPLORERS_BSC_TESTNET ^^ "/tx/" ^^ Faucet.txHash faucetResponse in
         emit hasCallback
           ("Successfully requested " ^^ Faucet.resp_token faucetResponse
            ^^ " tokens from the BSC Testnet faucet." ^^ Js.nl
            ^^ "Transaction hash: " ^^ Faucet.txHash faucetResponse ^^ Js.nl
            ^^ "Tokens will be sent to: " ^^ Faucet.recipient faucetResponse
            ^^ Js.nl ^^ "Check on block explorer: " ^^ blockExplorerUrl)
           (Js.Obj [("success", Js.Bool true);
                    ("token", Js.Str (Faucet.resp_token faucetResponse));
                    ("recipient", Js.Str (Faucet.recipient faucetResponse));
                    ("txHash", Js.Str (Faucet.txHash faucetResponse));
                    ("chain", Js.Str "bscTestnet");
                    ("blockExplorerUrl", Js.Str blockExplorerUrl)]) ;;;
         ret (Some true)
     | Faucet.Thrown message => throw message
     | Faucet.Hanging => ret None
     end)
    (fun error =>
       let errorMessage := failureMessage (message_of error) in
       emit hasCallback ("Failed to get test tokens: " ^^ errorMessage)
         (Js.Obj [("success", Js.Bool false);
                  ("error", Js.Str errorMessage);
                  ("requestedToken", Js.Str (Faucet.token faucetParams));
                  ("requestedAddress", Js.Str (Faucet.toAddress faucetParams))]) ;;;
       ret (Some false))
    env h.

(** [faucetAction.handler] (lines 1048-1192) *)
Definition handler (events : list Faucet.WsEvent) (hasState hasCallback : bool)
  : M (option bool) :=
  env <- ask ;;
  currentState hasState ;;;
  walletOk <-
    (if hasState then
       try_catch (call_unit WalletInfo ;;; ret true)
         (fun error =>
            let errorMessage := message_of error in
            emit hasCallback ("Unable to access wallet: " ^^ errorMessage)
              (Js.Obj [("error", Js.Str errorMessage)]) ;;;
            ret false)
     else ret true) ;;
  if negb walletOk then ret (Some false)
  else
    mlOutput <- call_val (UseModel "faucetTemplate") ;;
    match parseContent env mlOutput with
    | Throw _ =>
        emit hasCallback
          "Failed to process faucet request parameters. Please try again with a clearer request."
          (Js.Obj [("error", Js.Str "Invalid model output format")]) ;;;
        ret (Some false)
    | Ok content =>
        call_unit InitWalletProvider ;;;
        token <- prop content "token" ;;
        toAddress <- prop content "toAddress" ;;
        execute (faucetParams env token toAddress) events hasCallback
    end.

End FaucetHandler.

(* ================================================================== *)
(** * Proof machinery *)
(* ================================================================== *)

(** Unfold the monad, keep the pure helpers folded. *)
Ltac fx_norm H :=
  cbv beta iota zeta delta
    [bind try_catch ret throw ask lift emit perform resp_of
     call_unit call_int call_str call_status call_len call_val call_process
     parseEther] in H;
  cbn [fst snd negb andb orb
       Transfer.chain Transfer.token Transfer.amount Transfer.toAddress
       Transfer.data Transfer.resp_chain Transfer.txHash Transfer.recipient
       Transfer.resp_amount Transfer.resp_token
       Swap.chain Swap.fromToken Swap.toToken Swap.amount Swap.slippage
       Swap.resp_chain Swap.txHash Swap.resp_fromToken Swap.resp_toToken
       Swap.resp_amount
       Bridge.fromChain Bridge.toChain Bridge.fromToken Bridge.toToken
       Bridge.amount Bridge.toAddress Bridge.resp_fromChain Bridge.resp_toChain
       Bridge.resp_fromToken Bridge.resp_toToken Bridge.resp_amount
       Bridge.txHash Bridge.recipient
       Stake.totalClaimed Stake.claimedCount Stake.lastTxHash] in H.

(** Case analysis on a scrutinee of the run under [H] that depends on no
    other undecided scrutinee: the answer of the next call, or the next
    test. *)
Ltac fx_step H :=
  match type of H with
  | context [match ?X with _ => _ end] =>
      lazymatch X with
      | context [match _ with _ => _ end] => fail
      | _ => destruct X eqn:?
      end
  end.

(** The [catch] blocks that translate an error throw an [Error] in every
    case, and make no call. *)
Lemma swapError_throws p e env h :
  exists m : string, Swap.swapError p e env h = (Throw m, h).
Proof.
  unfold Swap.swapError, error_text, bind, ret, throw.
  destruct e; repeat match goal with
                     | |- context [if ?b then _ else _] => destruct b
                     end; eexists; reflexivity.
Qed.

Lemma bridgeError_throws {A} amount fromToken e env h :
  exists m : string,
    @Bridge.bridgeError A amount fromToken e env h = (Throw m, h).
Proof.
  unfold Bridge.bridgeError, error_text, bind, ret, throw.
  destruct e; repeat match goal with
                     | |- context [if ?b then _ else _] => destruct b
                     end; eexists; reflexivity.
Qed.

Lemma withdrawError_throws {A} e env h :
  exists m : string, @Stake.withdrawError A e env h = (Throw m, h).
Proof.
  unfold Stake.withdrawError, error_text, bind, ret, throw.
  destruct e; repeat match goal with
                     | |- context [if ?b then _ else _] => destruct b
                     end; eexists; reflexivity.
Qed.

Lemma claimError_throws {A} e env h :
  exists m : string, @Stake.claimError A e env h = (Throw m, h).
Proof.
  unfold Stake.claimError, error_text, bind, ret, throw.
  destruct e; repeat match goal with
                     | |- context [if ?b then _ else _] => destruct b
                     end; eexists; reflexivity.
Qed.

Lemma depositError_throws {A} amount e env h :
  exists m : string,
    @StakeAction.depositError A amount e env h = (Throw m, h).
Proof.
  unfold StakeAction.depositError, error_text, bind, ret, throw.
  destruct e; repeat match goal with
                     | |- context [if ?b then _ else _] => destruct b
                     end; eexists; reflexivity.
Qed.

(** The tests of a [catch] block on the message of a known error. *)
Ltac known_error H :=
  unfold Swap.swapError, Bridge.bridgeError, Stake.withdrawError,
    Stake.claimError, StakeAction.depositError, error_text in H;
  cbv beta iota zeta delta [bind ret throw] in H;
  repeat match type of H with
         | context [Js.or_else ?a ?b] =>
             let v := eval vm_compute in (Js.or_else a b) in
             change (Js.or_else a b) with v in H
         end;
  repeat match type of H with
         | context [Js.includes ?a ?b] =>
             let v := eval vm_compute in (Js.includes a b) in
             lazymatch v with
             | true => idtac
             | false => idtac
             end;
             change (Js.includes a b) with v in H
         end;
  cbn [orb andb negb] in H;
  cbv beta iota in H;
  match type of H with
  | (_, _) = (_, _) => injection H as <- <-
  end.

(** What the [catch] block of an action makes of the error under [H]:
    computed for a known error, and some [Error] otherwise. *)
Ltac rethrow H :=
  first
    [ known_error H
    | match type of H with
      | Swap.swapError ?p ?e ?env ?h = _ =>
          let e' := fresh "thrown" in
          let E := fresh "Ethrown" in
          destruct (swapError_throws p e env h) as (e' & E);
          rewrite E in H; clear E; injection H as <- <-
      | @Bridge.bridgeError ?A ?a ?f ?e ?env ?h = _ =>
          let e' := fresh "thrown" in
          let E := fresh "Ethrown" in
          destruct (@bridgeError_throws A a f e env h) as (e' & E);
          rewrite E in H; clear E; injection H as <- <-
      | @Stake.withdrawError ?A ?e ?env ?h = _ =>
          let e' := fresh "thrown" in
          let E := fresh "Ethrown" in
          destruct (@withdrawError_throws A e env h) as (e' & E);
          rewrite E in H; clear E; injection H as <- <-
      | @Stake.claimError ?A ?e ?env ?h = _ =>
          let e' := fresh "thrown" in
          let E := fresh "Ethrown" in
          destruct (@claimError_throws A e env h) as (e' & E);
          rewrite E in H; clear E; injection H as <- <-
      | @StakeAction.depositError ?A ?a ?e ?env ?h = _ =>
          let e' := fresh "thrown" in
          let E := fresh "Ethrown" in
          destruct (@depositError_throws A a e env h) as (e' & E);
          rewrite E in H; clear E; injection H as <- <-
      end ].

(** All the paths of the run under [H]. *)
Ltac fx_paths H :=
  fx_norm H; repeat (fx_step H; fx_norm H);
  match type of H with
  | (_, _) = (_, _) => injection H as <- <-
  | _ => try rethrow H
  end.

(** Which element of a trace an event is. *)
Ltac in_cases H :=
  cbn [In] in H;
  repeat match type of H with
         | _ \/ _ => destruct H as [H|H]
         | False => destruct H
         | _ = _ => first [discriminate H | injection H as ?; subst]
         end.


Lemma run_inv {A} (m : M A) env r tr :
  run m env = (r, tr) -> exists h, m env [] = (r, h) /\ tr = rev h.
Proof.
  unfold run. destruct (m env []) as [r0 h0]. intros H.
  injection H as <- <-. eauto.
Qed.

Lemma adjacent_split a b tr :
  adjacent a b tr -> exists pre post, tr = pre ++ a :: b :: post.
Proof.
  induction tr as [|x tr IH]; simpl; [tauto|].
  destruct tr as [|y tr']; [tauto|].
  intros [[-> ->]|H].
  - exists [], tr'. reflexivity.
  - destruct (IH H) as (pre & post & E). exists (x :: pre), post.
    rewrite E. reflexivity.
Qed.

(* ================================================================== *)
(** * Shared steps *)
(* ================================================================== *)

Lemma truthy_false s : Js.truthy s = false -> s = "".
Proof.
  unfold Js.truthy. intros H. apply negb_false_iff in H.
  apply String.eqb_eq. exact H.
Qed.

(** The tests a path has taken, as equations on the values tested. *)
Ltac tests :=
  repeat match goal with
         | H : negb _ = true |- _ => apply negb_true_iff in H
         | H : negb _ = false |- _ => apply negb_false_iff in H
         | H : _ || _ = false |- _ =>
             apply orb_false_iff in H; destruct H as (? & ?)
         | H : _ && _ = true |- _ =>
             apply andb_true_iff in H; destruct H as (? & ?)
         end.

(** All the paths of the run under [H], with the normalisation [norm]. *)
Ltac paths_with norm H :=
  norm H; repeat (fx_step H; norm H);
  match type of H with
  | (_, _) = (_, _) => injection H as <- <-
  | _ => try rethrow H
  end.

(** The events of [l] down to the history [h]. *)
Ltac prefix_of l h :=
  lazymatch l with
  | h => constr:(@nil Event)
  | ?x :: ?l' => let r := prefix_of l' h in constr:(x :: r)
  end.

(** Exhibit the events a run has added to its history. *)
Ltac new_events :=
  match goal with
  | |- exists evs, ?l = evs ++ ?h /\ _ =>
      let e := prefix_of l h in exists e; split; [reflexivity|]
  end.

Lemma simulatedWrites_app prev l1 l2 :
  simulatedWrites prev (l1 ++ l2)
  <-> simulatedWrites prev l1
      /\ simulatedWrites (fold_left (fun _ ev => Some ev) l1 prev) l2.
Proof.
  revert prev. induction l1 as [|ev l1 IH]; intros prev; cbn [app fold_left].
  - cbn [simulatedWrites]. tauto.
  - cbn [simulatedWrites]. rewrite IH. tauto.
Qed.

(** A trace that does not begin with a submission does not depend on what
    came before. *)
Lemma simulatedWrites_any prev prev' l :
  beginsWithWrite l = false ->
  simulatedWrites prev l -> simulatedWrites prev' l.
Proof.
  destruct l as [|[c rsp] l]; [trivial|].
  cbn [simulatedWrites fst beginsWithWrite].
  destruct c; try discriminate; tauto.
Qed.

Lemma prefix_app p s :
  String.prefix p s = true ->
  s = p ^^ String.substring (String.length p) (String.length s - String.length p) s.
Proof.
  revert s. induction p as [|c p IH]; intros s H.
  - cbn. rewrite Nat.sub_0_r.
    clear H. induction s as [|a s IHs]; [reflexivity|].
    cbn. f_equal. exact IHs.
  - destruct s as [|a s]; [discriminate|].
    cbn [String.prefix] in H. destruct (ascii_dec c a) as [->|]; [|discriminate].
    cbn. f_equal. apply IH. exact H.
Qed.

Lemma prefix_of_app p q s :
  String.prefix q s = true -> String.prefix (p ^^ q) (p ^^ s) = true.
Proof.
  intros H. induction p as [|c p IH]; [exact H|].
  cbn. destruct (ascii_dec c c); [exact IH|contradiction].
Qed.

Lemma includes_tail s p c :
  Js.includes s p = true -> Js.includes (String c s) p = true.
Proof.
  intros H. cbn [Js.includes]. rewrite H. apply orb_true_r.
Qed.

Lemma includes_prefix s p :
  String.prefix p s = true -> Js.includes s p = true.
Proof.
  intros H. destruct s; cbn [Js.includes]; rewrite H; reflexivity.
Qed.

Lemma prefix_append p s : String.prefix p (p ^^ s) = true.
Proof.
  induction p as [|c p IH]; cbn.
  - destruct s; reflexivity.
  - destruct (ascii_dec c c); [exact IH|contradiction].
Qed.

Lemma includes_append a p b : Js.includes (a ^^ p ^^ b) p = true.
Proof.
  induction a as [|c a IH]; cbn [String.append].
  - apply includes_prefix, prefix_append.
  - apply includes_tail, IH.
Qed.

Lemma includes_split s p :
  Js.includes s p = true -> exists a b, s = a ^^ p ^^ b.
Proof.
  induction s as [|c s IH]; cbn [Js.includes]; intros H.
  - rewrite orb_false_r in H. exists "", "".
    destruct p; [reflexivity|discriminate H].
  - apply orb_true_iff in H. destruct H as [H|H].
    + exists "". eexists. rewrite (prefix_app _ _ H) at 1. reflexivity.
    + destruct (IH H) as (a & b & ->). exists (String c a), b. reflexivity.
Qed.

Lemma append_assoc (a b c : string) : (a ^^ b) ^^ c = a ^^ b ^^ c.
Proof.
  induction a as [|x a IH]; cbn; [reflexivity|]. rewrite IH. reflexivity.
Qed.

Lemma or_else_truthy m : Js.truthy (Js.or_else m "Error") = true.
Proof.
  unfold Js.or_else. destruct (Js.truthy m) eqn:E; [exact E|reflexivity].
Qed.

Ltac branches :=
  repeat match goal with
         | |- context [if ?b then _ else _] => destruct b
         | |- context [match ?x with _ => _ end] => destruct x
         end.

Lemma startsWith_append a b c : Js.startsWith (a ^^ b ^^ c) (a ^^ b) = true.
Proof.
  unfold Js.startsWith. rewrite <- append_assoc. apply prefix_append.
Qed.

Lemma startsWith_refl a : Js.startsWith a a = true.
Proof.
  unfold Js.startsWith. induction a as [|c a IH]; cbn; [reflexivity|].
  destruct (ascii_dec c c); [exact IH|contradiction].
Qed.

(** The guarded part of a handler, from how its action ends. *)
Ltac solve_guards H explained :=
  unfold guards;
  cbv beta iota zeta delta [bind try_catch ret throw emit error_text ask];
  rewrite H;
  match goal with
  | |- context [match ?ra with _ => _ end] =>
      destruct ra as [?|[?| |]]
  end;
  cbn [fst snd];
  [ split; [reflexivity|];
    match goal with
    | |- context [if ?cb then _ else _] =>
        destruct cb; [do 2 eexists; reflexivity|reflexivity]
    end
  | split; [reflexivity|]; split;
    [ apply explained; apply or_else_truthy
    | match goal with
      | |- context [if ?cb then _ else _] =>
          destruct cb;
          [ eexists; split; [|reflexivity];
            cbn [failureResponseOf]; split;
            [ first [apply startsWith_append | apply startsWith_refl]
            | reflexivity ]
          | reflexivity ]
      end ]
  | reflexivity
  | reflexivity ].

(** The run of the guarded part, given by [H]. *)
Ltac this_run H :=
  match type of H with
  | ?lhs = _ =>
      match goal with
      | |- (let (_, _) := ?x in _) = _ => change x with lhs
      end
  end;
  rewrite H; reflexivity.


(* ================================================================== *)
(** * The bridge rejects an unsupported direction *)
(* ================================================================== *)

Lemma isSupported_same c : Bridge.isSupported c c = false.
Proof.
  unfold Bridge.isSupported.
  destruct (c =? "bsc")%string eqn:E1.
  - apply String.eqb_eq in E1. subst. reflexivity.
  - simpl. destruct (c =? "opBNB")%string eqn:E2; reflexivity.
Qed.

(** C6.  A bridge request that names a destination chain and whose chains,
    once the source chain has its default, are not BSC to opBNB or opBNB to
    BSC, fails with the error of the unsupported direction, and its trace
    is empty: no call at all was made.  A request from a chain to itself is
    such a request. *)
Theorem C6_unsupported_direction_fails_before_any_call :
  forall env (p : Bridge.BridgeParams),
    Js.truthy (Bridge.toChain p) = true ->
    Bridge.isSupported (Bridge.defaultChain (Bridge.fromChain p))
                       (Bridge.toChain p) = false ->
    run (Bridge.bridge p) env = (Throw Bridge.UNSUPPORTED_DIRECTION, [])
    /\ Js.includes Bridge.UNSUPPORTED_DIRECTION "Unsupported bridge direction" = true
    /\ (forall c, Bridge.isSupported c c = false).
Proof.
  intros env p Hto Hdir. split; [|split].
  - unfold run, Bridge.bridge, Bridge.validateAndNormalizeParams, bind, throw.
    rewrite Hto, Hdir. reflexivity.
  - reflexivity.
  - apply isSupported_same.
Qed.

Lemma C6_witness :
  run (Bridge.bridge {| Bridge.fromChain := "bsc"; Bridge.toChain := "bsc";
                        Bridge.fromToken := None; Bridge.toToken := None;
                        Bridge.amount := "1"; Bridge.toAddress := None |})
      Sample.env
  = (Throw Bridge.UNSUPPORTED_DIRECTION, []).
Proof.
  apply (C6_unsupported_direction_fails_before_any_call Sample.env
           {| Bridge.fromChain := "bsc"; Bridge.toChain := "bsc";
              Bridge.fromToken := None; Bridge.toToken := None;
              Bridge.amount := "1"; Bridge.toAddress := None |});
    reflexivity.
Defined.

(* ================================================================== *)
(** * Transfers *)
(* ================================================================== *)

Ltac transfer_paths H :=
  unfold Transfer.transfer, Transfer.validateAndNormalizeParams,
    Transfer.nativeTransfer, Transfer.erc20Transfer, Transfer.confirm in H;
  fx_paths H.

(** C7.  In every run of [transfer] in which the wait for the receipt of
    [hash] fails, [hash] is the hash a submission returned, and the
    transfer returns its response, with that hash. *)
Theorem C7_receipt_failure_keeps_hash :
  forall env p r tr c hash e,
    run (Transfer.transfer p) env = (r, tr) ->
    In (WaitForTransactionReceipt c hash, RThrow e) tr ->
    (exists ev, In ev tr /\ isSubmission ev hash) /\
    Transfer.noHash hash = false /\
    exists resp, r = Ok resp /\ Transfer.txHash resp = hash.
Proof.
  intros env p r tr c hash e H Hw.
  apply run_inv in H. destruct H as (h & H & ->).
  apply in_rev in Hw.
  transfer_paths H.
  all: in_cases Hw.
  all: split; [|split; [assumption|eexists; split; reflexivity]].
  all: match goal with
       | |- exists ev, In ev (rev ?l) /\ isSubmission ev ?hash =>
           match l with
           | context [(?call, RStr hash)] => exists (call, RStr hash)
           end
       end.
  all: split; [rewrite <- in_rev; cbn [In]; tauto|reflexivity].
Qed.

Lemma C7_witness :
  exists resp,
    fst (run (Transfer.transfer
                {| Transfer.chain := "bsc"; Transfer.token := "USDT";
                   Transfer.amount := "1"; Transfer.toAddress := Sample.ALICE;
                   Transfer.data := None |})
           (Sample.failing Sample.env Sample.isWait "timeout")) = Ok resp
    /\ Transfer.txHash resp = Sample.HASH.
Proof.
  destruct (C7_receipt_failure_keeps_hash
              (Sample.failing Sample.env Sample.isWait "timeout")
              {| Transfer.chain := "bsc"; Transfer.token := "USDT";
                 Transfer.amount := "1"; Transfer.toAddress := Sample.ALICE;
                 Transfer.data := None |}
              _ _ "bsc" Sample.HASH "timeout" eq_refl)
    as (_ & _ & resp & E & Eh).
  - vm_compute. tauto.
  - exists resp. split; [exact E|exact Eh].
Defined.

(** C4.  In every run of [transfer] without an amount, a native transfer is
    submitted right after the read of the balance, with the balance minus
    21000 gas at 3 gwei, that is 0.000063 BNB, as its value, and this value
    is the amount of the response; of a balance of 5 BNB, 4.999937 BNB are
    transferred. *)
Theorem C4_native_transfer_of_whole_balance :
  forall env p r tr,
    Transfer.amount p = "" ->
    run (Transfer.transfer p) env = (r, tr) ->
    forall c to v g gp d rsp,
      In (WalletTransfer c to v g gp d, rsp) tr ->
      exists bal pre post,
        tr = pre ++ (GetBalance c (address env), RInt bal)
                    :: (WalletTransfer c to v g gp d, rsp) :: post
        /\ v = bal - Transfer.TRANSFER_GAS * Transfer.DEFAULT_GAS_PRICE
        /\ Transfer.TRANSFER_GAS * Transfer.DEFAULT_GAS_PRICE = 63000000000000
        /\ Viem.formatEther (Transfer.TRANSFER_GAS * Transfer.DEFAULT_GAS_PRICE)
           = "0.000063"
        /\ (forall resp, r = Ok resp ->
                         Transfer.resp_amount resp = Viem.formatEther v)
        /\ (bal = 5000000000000000000 -> Viem.formatEther v = "4.999937").
Proof.
  intros env p r tr Ha H c to v g gp d rsp Hin.
  apply run_inv in H. destruct H as (h & H & ->).
  apply in_rev in Hin.
  unfold Transfer.transfer, Transfer.validateAndNormalizeParams,
    Transfer.nativeTransfer, Transfer.erc20Transfer, Transfer.confirm in H.
  fx_paths H.
  all: in_cases Hin.
  all: try match goal with
           | Hb : negb (Js.truthy (Transfer.amount _)) = false |- _ =>
               rewrite Ha in Hb; discriminate Hb
           end.
  all: cbn [rev app];
    match goal with
    | |- context [(GetBalance _ _, RInt ?b) :: (WalletTransfer _ _ _ _ _ _, _) :: _] =>
        exists b
    end.
  all: match goal with
       | |- exists pre post, ?l = pre ++ ?a :: ?b :: post /\ _ =>
           let Hadj := fresh in
           assert (Hadj : adjacent a b l) by (cbn [adjacent]; tauto);
           destruct (adjacent_split _ _ _ Hadj) as (pre & post & Hsplit);
           exists pre, post; split; [exact Hsplit|clear Hsplit Hadj]
       end.
  all: split; [reflexivity|].
  all: split; [reflexivity|].
  all: split; [reflexivity|].
  all: split;
    [intros resp E; first [discriminate E | injection E as <-; reflexivity]|].
  all: intros ->; reflexivity.
Qed.

Lemma C4_witness :
  exists pre post,
    snd (run (Transfer.transfer
                {| Transfer.chain := "bsc"; Transfer.token := "BNB";
                   Transfer.amount := ""; Transfer.toAddress := Sample.ALICE;
                   Transfer.data := None |}) Sample.env)
    = pre ++ (GetBalance "bsc" Sample.WALLET, RInt 5000000000000000000)
             :: (WalletTransfer "bsc" Sample.ALICE 4999937000000000000
                   (Some 21000) (Some 3000000000) None, RStr Sample.HASH)
             :: post.
Proof.
  destruct (C4_native_transfer_of_whole_balance Sample.env
              {| Transfer.chain := "bsc"; Transfer.token := "BNB";
                 Transfer.amount := ""; Transfer.toAddress := Sample.ALICE;
                 Transfer.data := None |} _ _ eq_refl eq_refl
              "bsc" Sample.ALICE 4999937000000000000 (Some 21000)
              (Some 3000000000) None (RStr Sample.HASH))
    as (bal & pre & post & E & Hv & _).
  - vm_compute. tauto.
  - exists pre, post.
    assert (bal = 5000000000000000000) as ->
      by (unfold Transfer.TRANSFER_GAS, Transfer.DEFAULT_GAS_PRICE in Hv; lia).
    exact E.
Defined.

(* ================================================================== *)
(** * The faucet session *)
(* ================================================================== *)

Lemma awaitHash_timeout acks rest :
  forallb Faucet.settlesNothing acks = true ->
  Faucet.awaitHash (acks ++ Faucet.TimerFired :: rest)
  = (Faucet.Rejected "Faucet request timeout", 1%nat).
Proof.
  induction acks as [|ev acks IH]; intros H; [reflexivity|].
  cbn [forallb] in H. apply andb_prop in H. destruct H as [Hev Hacks].
  destruct ev as [|m|response|]; cbn [Faucet.settlesNothing] in Hev;
    try discriminate Hev; cbn [app Faucet.awaitHash].
  - exact (IH Hacks).
  - destruct (Faucet.success response); [exact (IH Hacks)|].
    cbn [orb] in Hev. apply andb_prop in Hev. destruct Hev as [Hh He].
    apply negb_true_iff in Hh. apply negb_true_iff in He.
    destruct (Faucet.hash response) as [h|]; cbn [Js.truthy_opt] in Hh.
    + rewrite Hh, He. exact (IH Hacks).
    + rewrite He. exact (IH Hacks).
Qed.

Lemma awaitOpen_skip pre events :
  forallb Faucet.unheardBeforeOpen pre = true ->
  Faucet.awaitOpen (pre ++ events) = Faucet.awaitOpen events.
Proof.
  induction pre as [|ev pre IH]; intros H; [reflexivity|].
  cbn [forallb] in H. apply andb_prop in H. destruct H as [Hev Hpre].
  destruct ev; cbn [Faucet.unheardBeforeOpen] in Hev; try discriminate Hev;
    cbn [app Faucet.awaitOpen]; exact (IH Hpre).
Qed.

(** C8, as the code has it.  When the socket opens and then delivers
    nothing that settles the request (acknowledgements, messages with
    neither a hash nor an error) before the timer fires, the request is
    rejected with the timeout error, after one message sent, and
    [ws.close()] has been called twice: by the timer callback and by the
    [finally] block. *)
Theorem C8_timeout_rejects_and_closes_twice :
  forall pre acks rest,
    forallb Faucet.unheardBeforeOpen pre = true ->
    forallb Faucet.settlesNothing acks = true ->
    Faucet.session (pre ++ Faucet.Open :: acks ++ Faucet.TimerFired :: rest)
    = (Faucet.Rejected "Faucet request timeout",
       {| Faucet.sends := 1; Faucet.closes := 2 |}).
Proof.
  intros pre acks rest Hpre Hacks.
  unfold Faucet.session. rewrite (awaitOpen_skip _ _ Hpre).
  cbn [Faucet.awaitOpen]. rewrite (awaitHash_timeout _ _ Hacks). reflexivity.
Qed.

Lemma C8_witness :
  Faucet.session [Faucet.Open;
                  Faucet.Message {| Faucet.success := true; Faucet.hash := None;
                                    Faucet.error := "" |};
                  Faucet.TimerFired]
  = (Faucet.Rejected "Faucet request timeout",
     {| Faucet.sends := 1; Faucet.closes := 2 |}).
Proof.
  apply (C8_timeout_rejects_and_closes_twice []
           [Faucet.Message {| Faucet.success := true; Faucet.hash := None;
                              Faucet.error := "" |}] []);
    reflexivity.
Defined.

(** C8 as stated fails: the socket opens, the faucet stays silent, the timer
    fires; the request is rejected with the timeout error, but [ws.close()]
    has been called twice, not once. *)
Lemma C8_counterexample :
  ~ (let (outcome, ws) := Faucet.session [Faucet.Open; Faucet.TimerFired] in
     outcome = Faucet.Rejected "Faucet request timeout"
     /\ Faucet.closes ws = 1%nat).
Proof.
  vm_compute. intros [_ H]. discriminate H.
Qed.

(* ================================================================== *)
(** * Claiming withdrawals *)
(* ================================================================== *)

Lemma claimed_app a b : claimed (a ++ b) = claimed a ++ claimed b.
Proof.
  induction a as [|[c rsp] a IH]; [reflexivity|].
  cbn [app claimed]. rewrite IH.
  destruct c; try reflexivity.
  destruct args as [|[s|z] [|x args]]; try reflexivity.
  destruct rsp; try reflexivity.
  destruct (functionName =? "claimWithdraw")%string; reflexivity.
Qed.

Lemma statusReads_app a b : statusReads (a ++ b) = statusReads a ++ statusReads b.
Proof.
  induction a as [|[c rsp] a IH]; [reflexivity|].
  cbn [app statusReads]. rewrite IH.
  destruct c; try reflexivity.
  destruct args as [|x [|[s|z] [|y args]]]; try reflexivity.
  destruct (functionName =? "getUserRequestStatus")%string; reflexivity.
Qed.

Section Claim.

Variable env : Env.
Variable reqs : list (bool * Z).
Variable k : nat.

(** The chain holds the requests [reqs]: it answers their number and the
    status of each of them. *)
Hypothesis answers_status :
  forall h i,
    ask_status env h
      (ReadContract "bsc" Stake.LISTA_DAO "getUserRequestStatus"
         [AStr (address env); AInt (Z.of_nat i)])
    = Ok (nth i reqs (false, 0)).

(** The requests before [k] are claimable, request [k] is not. *)
Hypothesis claimable_prefix : forall i, (i < k)%nat -> fst (nth i reqs (false, 0)) = true.
Hypothesis first_unclaimable : fst (nth k reqs (false, 0)) = false.

Lemma claimLoop_spec :
  forall remaining idx st h r h',
    (idx <= k)%nat -> (k < idx + remaining)%nat ->
    Stake.claimLoop remaining idx st env h = (r, h') ->
    exists evs,
      h' = evs ++ h
      /\ Forall (fun i => Z.of_nat idx <= i <= Z.of_nat k) (statusReads (rev evs))
      /\ exists n,
           (idx <= n <= k)%nat
           /\ claimed (rev evs) = map Z.of_nat (seq idx (n - idx))
           /\ ((exists c e, In (c, RThrow e) evs)
               \/ (n = k /\ exists st', r = Ok st')).
Proof.
  induction remaining as [|remaining IH]; intros idx st h r h' Hle Hlt H.
  - lia.
  - cbn [Stake.claimLoop] in H. fx_norm H. rewrite answers_status in H.
    destruct (Nat.eq_dec idx k) as [->|Hne].
    + rewrite first_unclaimable in H. injection H as <- <-.
      eexists [_]. split; [reflexivity|]. split.
      * cbn. rewrite ?String.eqb_refl. constructor; [lia|constructor].
      * exists k. split; [lia|]. split.
        -- rewrite Nat.sub_diag. reflexivity.
        -- right. eauto.
    + assert (Hlt' : (idx < k)%nat) by lia.
      rewrite (claimable_prefix idx Hlt') in H.
      destruct (nth idx reqs (false, 0)) as [b amt] eqn:En.
      cbn [fst snd] in H.
      fx_step H; fx_norm H;
        [fx_step H; fx_norm H; [fx_step H; fx_norm H|]|].
      * (* the claim went through *)
        apply IH in H; [|lia|lia].
        destruct H as (evs & -> & Hreads & n & Hn & Hclaimed & Hend).
        eexists (evs ++ [_; _; _; _]). split.
        { rewrite <- app_assoc. reflexivity. }
        split.
        { rewrite rev_app_distr, statusReads_app. cbn [rev app statusReads].
          rewrite ?String.eqb_refl.
          constructor; [lia|].
          eapply Forall_impl; [|exact Hreads]. cbn beta. lia. }
        exists n. split; [lia|]. split.
        { rewrite rev_app_distr, claimed_app. cbn [rev app claimed].
          rewrite ?String.eqb_refl, ?Hclaimed.
          replace (n - idx)%nat with (S (n - S idx)) by lia. reflexivity. }
        destruct Hend as [(c & e & Hin)|Hend]; [left|right; exact Hend].
        exists c, e. apply in_or_app. left. exact Hin.
      * injection H as <- <-.
        eexists [_; _; _; _]. split; [reflexivity|]. split.
        { cbn. rewrite ?String.eqb_refl. constructor; [lia|constructor]. }
        exists (S idx). split; [lia|]. split.
        { replace (S idx - idx)%nat with 1%nat by lia.
          cbn. rewrite ?String.eqb_refl. reflexivity. }
        left. do 2 eexists. left. reflexivity.
      * injection H as <- <-.
        eexists [_; _; _]. split; [reflexivity|]. split.
        { cbn. rewrite ?String.eqb_refl. constructor; [lia|constructor]. }
        exists idx. split; [lia|]. split.
        { rewrite Nat.sub_diag. cbn. rewrite ?String.eqb_refl. reflexivity. }
        left. do 2 eexists. left. reflexivity.
      * injection H as <- <-.
        eexists [_; _]. split; [reflexivity|]. split.
        { cbn. rewrite ?String.eqb_refl. constructor; [lia|constructor]. }
        exists idx. split; [lia|]. split.
        { rewrite Nat.sub_diag. reflexivity. }
        left. do 2 eexists. left. reflexivity.
Qed.

End Claim.

(** C5.  Let the chain hold a list of withdrawal requests of which the
    first that is not claimable is request [k].  In every run of [doClaim]
    the statuses read are those of requests 0 to [k] at most, and the
    requests claimed are requests 0, 1, ... in this order, up to [k - 1] at
    most; when no call fails, they are exactly the requests 0 to [k - 1],
    and [doClaim] returns. *)
Theorem C5_claims_stop_at_first_unclaimable :
  forall env (reqs : list (bool * Z)) (k : nat) r tr,
    hasAccount env = true ->
    (forall h,
        ask_len env h
          (ReadContract "bsc" Stake.LISTA_DAO "getUserWithdrawalRequests"
             [AStr (address env)])
        = Ok (length reqs)) ->
    (forall h i,
        ask_status env h
          (ReadContract "bsc" Stake.LISTA_DAO "getUserRequestStatus"
             [AStr (address env); AInt (Z.of_nat i)])
        = Ok (nth i reqs (false, 0))) ->
    (k < length reqs)%nat ->
    (forall i, (i < k)%nat -> fst (nth i reqs (false, 0)) = true) ->
    fst (nth k reqs (false, 0)) = false ->
    run Stake.doClaim env = (r, tr) ->
    Forall (fun i => 0 <= i <= Z.of_nat k) (statusReads tr)
    /\ (exists n, (n <= k)%nat /\ claimed tr = map Z.of_nat (seq 0 n))
    /\ ((forall c rsp, In (c, rsp) tr -> succeeded rsp) ->
        claimed tr = map Z.of_nat (seq 0 k) /\ exists s, r = Ok s).
Proof.
  intros env reqs k r tr Hacc Hlen Hst Hk Hpre Hkth H.
  apply run_inv in H. destruct H as (h & H & ->).
  unfold Stake.doClaim in H. fx_norm H.
  rewrite Hacc in H. cbn [negb] in H. fx_norm H.
  rewrite Hlen in H. fx_norm H.
  destruct (length reqs =? 0)%nat eqn:E0; [apply Nat.eqb_eq in E0; lia|].
  fx_norm H.
  match type of H with
  | context [Stake.claimLoop ?a ?b ?c ?d ?e] =>
      destruct (Stake.claimLoop a b c d e) as [r0 h0] eqn:Eloop
  end.
  destruct (claimLoop_spec env reqs k Hst Hpre Hkth _ _ _ _ _ _
              (Nat.le_0_l k) Hk Eloop)
    as (evs & -> & Hreads & n & Hn & Hclaimed & Hend).
  assert (Hh : h = evs ++ [(ReadContract "bsc" Stake.LISTA_DAO
                              "getUserWithdrawalRequests" [AStr (address env)],
                            RLen (length reqs))]
               /\ (forall st', r0 = Ok st' -> exists s, r = Ok s)).
  { destruct r0 as [st'|e]; fx_norm H.
    - destruct (Stake.claimedCount st' =? 0)%nat; fx_norm H;
        injection H as <- <-;
        (split; [reflexivity|eauto]).
    - unfold Stake.claimError, error_text in H; fx_norm H;
      repeat (fx_step H; fx_norm H); injection H as <- <-;
        (split; [reflexivity|intros ? [=]]). }
  destruct Hh as (-> & Hok).
  rewrite rev_app_distr. cbn [rev app].
  rewrite Nat.sub_0_r in Hclaimed.
  cbn [statusReads claimed]. split; [|split].
  - eapply Forall_impl; [|exact Hreads]. cbn beta. lia.
  - exists n. split; [lia|exact Hclaimed].
  - intros Hall. destruct Hend as [(c & e & Hin)|(-> & st' & ->)].
    + exfalso. apply (Hall c (RThrow e)). right. apply in_rev in Hin. exact Hin.
    + split; [exact Hclaimed|]. eapply Hok. reflexivity.
Qed.

Lemma C5_witness :
  claimed (snd (run Stake.doClaim
                  (Sample.chainEnv 0 0 [(true, 5); (true, 7); (false, 9); (true, 1)]
                     (Js.Obj []) Sample.noMatch)))
  = [0; 1].
Proof.
  set (reqs := [(true, 5); (true, 7); (false, 9); (true, 1)]).
  set (env := Sample.chainEnv 0 0 reqs (Js.Obj []) Sample.noMatch).
  destruct (run Stake.doClaim env) as [r tr] eqn:E.
  assert (Hst : forall h i,
             ask_status env h
               (ReadContract "bsc" Stake.LISTA_DAO "getUserRequestStatus"
                  [AStr (address env); AInt (Z.of_nat i)])
             = Ok (nth i reqs (false, 0))).
  { intros h i. cbn. rewrite Nat2Z.id. reflexivity. }
  assert (Hk : (2 < length reqs)%nat) by (cbn; lia).
  assert (Hpre : forall i, (i < 2)%nat -> fst (nth i reqs (false, 0)) = true).
  { intros [|[|i]] Hi; [reflexivity|reflexivity|lia]. }
  destruct (C5_claims_stop_at_first_unclaimable env reqs 2 r tr eq_refl
              (fun h => eq_refl) Hst Hk Hpre eq_refl E) as (_ & _ & H).
  apply H. vm_compute in E. injection E as <- <-.
  intros c rsp Hin. in_cases Hin; exact I.
Defined.

(* ================================================================== *)
(** * The allowance before an ERC20 operation *)
(* ================================================================== *)

Lemma bridge_validate_inv env p h r h' :
  Bridge.validateAndNormalizeParams p env h = (r, h') ->
  h' = h /\
  forall p', r = Ok p' ->
    p' = {| Bridge.fromChain := Bridge.defaultChain (Bridge.fromChain p);
            Bridge.toChain := Bridge.toChain p;
            Bridge.fromToken := if Bridge.isBnb (Bridge.fromToken p) then None
                                else Bridge.fromToken p;
            Bridge.toToken := Bridge.toToken p;
            Bridge.amount := Bridge.amount p;
            Bridge.toAddress := Bridge.toAddress p |}
    /\ Bridge.isSupported (Bridge.fromChain p') (Bridge.toChain p') = true.
Proof.
  intros H. unfold Bridge.validateAndNormalizeParams in H.
  fx_paths H.
  all: split; [reflexivity|]; intros p' E;
    first [discriminate E | injection E as <-].
  all: split; [reflexivity|].
  all: cbn [Bridge.fromChain Bridge.toChain];
    match goal with
    | Hs : negb (Bridge.isSupported _ _) = false |- _ =>
        apply negb_false_iff in Hs; exact Hs
    end.
Qed.


Ltac withdraw_paths H :=
  unfold Stake.doWithdraw in H; fx_paths H; try discriminate.













(* ================================================================== *)
(** * Symbol resolution *)
(* ================================================================== *)

Lemma other_symbol_is_kept token native :
  otherSymbol token native ->
  Transfer.normalizeToken token native = token
  /\ Transfer.isBnbSymbol token = false
  /\ Js.startsWith token "0x" = false
  /\ (Transfer.isNativeTransfer token native = true -> token = native).
Proof.
  intros (Ht & Hl & Hn & Hb & Hx). unfold Transfer.normalizeToken.
  rewrite Ht, Hl. cbn [negb]. repeat split; try assumption.
  unfold Transfer.isNativeTransfer. rewrite Ht, Hn. cbn [negb orb].
  apply String.eqb_eq.
Qed.

Lemma native_is_not_looked_up token native :
  namesNative token native = true ->
  Transfer.isNativeTransfer (Transfer.normalizeToken token native) native = false ->
  Transfer.isBnbSymbol (Transfer.normalizeToken token native) = true.
Proof.
  unfold namesNative, Transfer.normalizeToken, Transfer.isNativeTransfer.
  intros Hn.
  destruct (negb (Js.truthy token)) eqn:Ht.
  - rewrite String.eqb_refl, orb_true_r. discriminate.
  - destruct (Js.toLowerCase token =? Js.toLowerCase native)%string.
    + rewrite String.eqb_refl, orb_true_r. discriminate.
    + cbn [orb] in Hn. rewrite orb_false_r in Hn.
      rewrite Ht. cbn [orb].
      destruct (token =? "null")%string; [discriminate|].
      intros _. exact Hn.
Qed.

Lemma transfer_native_no_lookup env p r tr :
  run (Transfer.transfer p) env = (r, tr) ->
  (forall nativeSymbol,
      Transfer.lookup_chain (Transfer.chain p) (chains env) = Some nativeSymbol ->
      namesNative (Transfer.token p) (Transfer.nativeTokenOf nativeSymbol) = true) ->
  count isLookup tr = 0%nat.
Proof.
  intros H Hb.
  apply run_inv in H. destruct H as (h & H & ->).
  transfer_paths H.
  all: first
         [ reflexivity
         | exfalso;
           match goal with
           | Hn : Transfer.isNativeTransfer _ (Transfer.nativeTokenOf ?n) = false,
             Hs : Transfer.isBnbSymbol _ = false |- _ =>
               rewrite (native_is_not_looked_up _ _ (Hb n eq_refl) Hn) in Hs;
               discriminate Hs
           end ].
Qed.

(** A trace that ends with a failed call. *)
Ltac ends_failing :=
  cbn [rev app];
  match goal with
  | |- exists pre c e, ?l = pre ++ [(c, RThrow e)] /\ _ =>
      exists (removelast l); do 2 eexists; split; [reflexivity|]
  end.

Lemma transfer_symbol_lookup env p native r tr :
  Transfer.lookup_chain (Transfer.chain p) (chains env) = Some native ->
  Js.truthy (Transfer.toAddress p) = true ->
  otherSymbol (Transfer.token p) (Transfer.nativeTokenOf native) ->
  run (Transfer.transfer p) env = (r, tr) ->
  In (GetTokenAddress (Transfer.chain p) (Transfer.token p)) (calls tr)
  \/ exists pre c e,
       tr = pre ++ [(c, RThrow e)]
       /\ (c = FormatAddress (Transfer.toAddress p)
           \/ c = SwitchChain (Transfer.chain p)
           \/ c = ConfigureLiFiSdk (Transfer.chain p)).
Proof.
  intros Hc Ha Ho H.
  apply run_inv in H. destruct H as (h & H & ->).
  destruct (other_symbol_is_kept _ _ Ho) as (Hk & Hb & Hx & Hnat).
  unfold Transfer.transfer, Transfer.validateAndNormalizeParams,
    Transfer.nativeTransfer, Transfer.erc20Transfer, Transfer.confirm in H.
  fx_norm H. rewrite Hc, Ha in H. fx_norm H.
  repeat (fx_step H; fx_norm H); injection H as <- <-.
  all: try (rewrite Hk in *).
  all: try match goal with
           | Hn : Transfer.isNativeTransfer _ _ = true |- _ =>
               destruct Ho as (_ & Hl & _); rewrite (Hnat Hn) in Hl;
               rewrite String.eqb_refl in Hl; discriminate Hl
           end.
  all: try congruence.
  all: try match goal with
           | Hs : negb (Js.startsWith _ _) = false |- _ =>
               rewrite Hx in Hs; discriminate Hs
           end.
  all: first
         [ left; unfold calls; rewrite map_rev, <- in_rev; cbn [map fst In];
           tauto
         | right; ends_failing;
           first [ left; reflexivity
                 | right; left; reflexivity
                 | right; right; reflexivity ] ].
Qed.

Lemma swap_validate_inv env p h r h' :
  Swap.validateAndNormalizeParams p env h = (r, h') ->
  h' = h /\
  forall p', r = Ok p' ->
    Swap.chain p' = "bsc"
    /\ Swap.fromToken p' = Swap.fromToken p
    /\ Swap.toToken p' = Swap.toToken p
    /\ Swap.amount p' = Swap.amount p.
Proof.
  intros H. unfold Swap.validateAndNormalizeParams in H.
  fx_paths H.
  all: split; [reflexivity|]; intros p' E;
    first [discriminate E | injection E as <-].
  all: cbn [Swap.chain Swap.fromToken Swap.toToken Swap.amount].
  all: repeat split.
  all: match goal with
       | Hc : negb (_ =? "bsc")%string = false |- _ =>
           apply negb_false_iff, String.eqb_eq in Hc; exact Hc
       end.
Qed.

Ltac swap_paths H :=
  unfold Swap.swap, Swap.resolveToken in H;
  fx_paths H;
  try discriminate;
  repeat match goal with
         | Hv : Swap.validateAndNormalizeParams _ _ _ = (_, _) |- _ =>
             apply swap_validate_inv in Hv;
             let Hh := fresh "Hh" in
             let Hp := fresh "Hp" in
             destruct Hv as (Hh & Hp); subst
         end;
  try match goal with
      | Hp : forall p', Ok ?a = Ok p' -> _ |- _ =>
          let Hc := fresh "Hc" in
          let Hf := fresh "Hf" in
          let Ht := fresh "Ht" in
          let Ham := fresh "Ham" in
          destruct (Hp a eq_refl) as (Hc & Hf & Ht & Ham); clear Hp;
          rewrite ?Hc, ?Hf, ?Ht, ?Ham in *
      end.

Lemma swap_symbol_lookup env p r tr :
  run (Swap.swap p) env = (r, tr) ->
  tr <> [] ->
  (Js.startsWith (Swap.fromToken p) "0x" = false ->
   In (GetTokenAddress "bsc" (Swap.fromToken p)) (calls tr)
   \/ exists e, tr = [(ConfigureLiFiSdk "bsc", RThrow e)])
  /\ (Js.startsWith (Swap.toToken p) "0x" = false ->
      In (GetTokenAddress "bsc" (Swap.toToken p)) (calls tr)
      \/ exists pre c e,
           tr = pre ++ [(c, RThrow e)]
           /\ (c = ConfigureLiFiSdk "bsc"
               \/ c = GetTokenAddress "bsc" (Swap.fromToken p)))
  /\ (forall c f t amt a s rsp,
         In (GetRoutes c f t amt a s, rsp) tr ->
         (Js.startsWith (Swap.fromToken p) "0x" = false ->
          Js.toUpperCase (Swap.fromToken p) = "BNB" -> f = Swap.NATIVE_SENTINEL)
         /\ (Js.startsWith (Swap.toToken p) "0x" = false ->
             Js.toUpperCase (Swap.toToken p) = "BNB" -> t = Swap.NATIVE_SENTINEL)).
Proof.
  intros H Hne.
  apply run_inv in H. destruct H as (h & H & ->).
  swap_paths H.
  all: try (exfalso; apply Hne; reflexivity).
  all: clear Hne.
  all: split; [|split].
  all: try (intros Hx;
            first
              [ solve [left; unfold calls; rewrite map_rev, <- in_rev;
                       cbn [map fst In]; tauto]
              | solve [right; eexists; reflexivity]
              | solve [right; ends_failing;
                       first [left; reflexivity | right; reflexivity]]
              | exfalso;
                match goal with
                | Hs : negb (Js.startsWith _ _) = false |- _ =>
                    rewrite Hx in Hs; discriminate Hs
                end ]).
  all: intros ? ? ? ? ? ? ? Hin; apply in_rev in Hin; in_cases Hin.
  all: split; intros Hx Hu;
    repeat match goal with
           | Hs : negb (Js.startsWith _ _) = false |- _ =>
               first [rewrite Hx in Hs; discriminate Hs | clear Hs]
           | Hq : (Js.toUpperCase _ =? "BNB")%string = false |- _ =>
               first [rewrite Hu in Hq; discriminate Hq | clear Hq]
           end;
    try reflexivity.
Qed.

(** C3, as the code has it.  (1) A transfer never asks the token
    directory when its token names the native asset of its chain: no token,
    the word [null], the native symbol of the chain in any case, or exactly
    [BNB] or [bnb].  (2) A transfer on a configured chain, with a
    recipient, of any other token that is not an address (another spelling
    of BNB on a chain whose native symbol is not BNB is one) asks the
    directory for that token, unless the run ends before with the failure
    of the formatting of the recipient, of the switch of the chain or of the
    configuration of the SDK.  (3) A swap that makes a call at all, which
    it does once its request is validated, asks the directory for every
    token of the pair that is not an address, BNB included: for the input
    token unless the configuration of the SDK, its only call, fails; for the
    output token unless the run ends before with the failure of the
    configuration or of the lookup of the input token.  For BNB, in any
    case, the answer is dropped, and the routes are requested with the
    native sentinel address. *)
Theorem C3_lookup_for_symbols_and_for_bnb_in_swaps :
  (forall env p r tr,
      run (Transfer.transfer p) env = (r, tr) ->
      (forall nativeSymbol,
          Transfer.lookup_chain (Transfer.chain p) (chains env)
          = Some nativeSymbol ->
          namesNative (Transfer.token p) (Transfer.nativeTokenOf nativeSymbol)
          = true) ->
      count isLookup tr = 0%nat)
  /\
  (forall env p native r tr,
      Transfer.lookup_chain (Transfer.chain p) (chains env) = Some native ->
      Js.truthy (Transfer.toAddress p) = true ->
      otherSymbol (Transfer.token p) (Transfer.nativeTokenOf native) ->
      run (Transfer.transfer p) env = (r, tr) ->
      In (GetTokenAddress (Transfer.chain p) (Transfer.token p)) (calls tr)
      \/ exists pre c e,
           tr = pre ++ [(c, RThrow e)]
           /\ (c = FormatAddress (Transfer.toAddress p)
               \/ c = SwitchChain (Transfer.chain p)
               \/ c = ConfigureLiFiSdk (Transfer.chain p)))
  /\
  (forall env p r tr,
      run (Swap.swap p) env = (r, tr) ->
      tr <> [] ->
      (Js.startsWith (Swap.fromToken p) "0x" = false ->
       In (GetTokenAddress "bsc" (Swap.fromToken p)) (calls tr)
       \/ exists e, tr = [(ConfigureLiFiSdk "bsc", RThrow e)])
      /\ (Js.startsWith (Swap.toToken p) "0x" = false ->
          In (GetTokenAddress "bsc" (Swap.toToken p)) (calls tr)
          \/ exists pre c e,
               tr = pre ++ [(c, RThrow e)]
               /\ (c = ConfigureLiFiSdk "bsc"
                   \/ c = GetTokenAddress "bsc" (Swap.fromToken p)))
      /\ (forall c f t amt a s rsp,
             In (GetRoutes c f t amt a s, rsp) tr ->
             (Js.startsWith (Swap.fromToken p) "0x" = false ->
              Js.toUpperCase (Swap.fromToken p) = "BNB" ->
              f = Swap.NATIVE_SENTINEL)
             /\ (Js.startsWith (Swap.toToken p) "0x" = false ->
                 Js.toUpperCase (Swap.toToken p) = "BNB" ->
                 t = Swap.NATIVE_SENTINEL))).
Proof.
  split; [|split].
  - exact transfer_native_no_lookup.
  - exact transfer_symbol_lookup.
  - exact swap_symbol_lookup.
Qed.

Lemma C3_witness :
  count isLookup
    (snd (run (Transfer.transfer
                 {| Transfer.chain := "bscTestnet"; Transfer.token := "Tbnb";
                    Transfer.amount := "0.001"; Transfer.toAddress := Sample.ALICE;
                    Transfer.data := None |}) Sample.env)) = 0%nat
  /\ In (GetTokenAddress "bscTestnet" "Bnb")
        (calls (snd (run (Transfer.transfer
                            {| Transfer.chain := "bscTestnet";
                               Transfer.token := "Bnb";
                               Transfer.amount := "1";
                               Transfer.toAddress := Sample.ALICE;
                               Transfer.data := None |}) Sample.env)))
  /\ In (GetTokenAddress "bsc" "BNB")
        (calls (snd (run (Swap.swap
                            {| Swap.chain := "bsc"; Swap.fromToken := "BNB";
                               Swap.toToken := "USDC"; Swap.amount := "0.5";
                               Swap.slippage := None |}) Sample.env))).
Proof.
  destruct C3_lookup_for_symbols_and_for_bnb_in_swaps as (Hbnb & Hsym & Hswap).
  split; [|split].
  - eapply (Hbnb Sample.env).
    + apply surjective_pairing.
    + intros nativeSymbol Hc. vm_compute in Hc. injection Hc as <-.
      reflexivity.
  - destruct (Hsym Sample.env
                {| Transfer.chain := "bscTestnet"; Transfer.token := "Bnb";
                   Transfer.amount := "1"; Transfer.toAddress := Sample.ALICE;
                   Transfer.data := None |} (Some "tBNB") _ _
                eq_refl eq_refl (conj eq_refl (conj eq_refl (conj eq_refl
                  (conj eq_refl eq_refl)))) (surjective_pairing _))
      as [H|(pre & c & e & H & _)]; [exact H|].
    exfalso. vm_compute in H.
    destruct pre as [|e0 [|e1 [|e2 [|e3 [|e4 [|e5 [|e6 [|e7 pre]]]]]]]];
      cbn [app] in H; try discriminate H;
      repeat match goal with
             | Hq : _ :: _ = _ :: _ |- _ => injection Hq as ? Hq
             end;
      try discriminate;
      destruct pre; discriminate.
  - destruct (Hswap Sample.env
                {| Swap.chain := "bsc"; Swap.fromToken := "BNB";
                   Swap.toToken := "USDC"; Swap.amount := "0.5";
                   Swap.slippage := None |} _ _ (surjective_pairing _))
      as (H & _).
    + vm_compute. discriminate.
    + destruct (H eq_refl) as [Hin|(e & Hin)]; [exact Hin|].
      exfalso. vm_compute in Hin. discriminate Hin.
Defined.

(** C3 as stated fails for swaps: a swap of BNB for USDC asks the token
    directory for the address of BNB. *)
Lemma C3_counterexample :
  In (GetTokenAddress "bsc" "BNB")
     (calls (snd (run (Swap.swap
                         {| Swap.chain := "bsc"; Swap.fromToken := "BNB";
                            Swap.toToken := "USDC"; Swap.amount := "0.5";
                            Swap.slippage := None |}) Sample.env))).
Proof.
  vm_compute. tauto.
Qed.
(* ================================================================== *)
(** * The priority of the sources of a parameter *)
(* ================================================================== *)

Lemma truthy_toUpperCase s : Js.truthy (Js.toUpperCase s) = Js.truthy s.
Proof. destruct s; reflexivity. Qed.

(** An upper-cased string does not start with 0x. *)
Lemma upper_is_not_hex s : Js.startsWith (Js.toUpperCase s) "0x" = false.
Proof.
  unfold Js.startsWith, Js.toUpperCase.
  destruct s as [|c0 [|c1 s]]; cbn [Js.map_string String.prefix].
  - reflexivity.
  - destruct (ascii_dec _ _); reflexivity.
  - destruct (ascii_dec "0" (Js.upper_ascii c0)); [|reflexivity].
    destruct (ascii_dec "x" (Js.upper_ascii c1)) as [E|]; [|reflexivity].
    exfalso. clear -E.
    destruct c1 as [[] [] [] [] [] [] [] []]; discriminate E.
Qed.

Lemma transfer_token_priority m tokenValue hasBnb :
  Transfer.resolveToken (Transfer.directTokenMatch m) tokenValue hasBnb
  = Priority.firstOf [Priority.upperCased (Priority.captured m 3 2);
                      truthyString tokenValue] "BNB".
Proof.
  unfold Transfer.resolveToken, Transfer.directTokenMatch, Priority.firstOf,
    Priority.captured.
  destruct m as [l|]; cbn [Priority.upperCased option_map Priority.firstSome].
  - destruct ((3 <=? length l)%nat && Js.truthy (Js.group l 2)) eqn:E;
      cbn [Priority.upperCased option_map Priority.firstSome].
    + apply andb_true_iff in E. destruct E as (_ & E).
      rewrite truthy_toUpperCase, E. cbn [negb].
      rewrite truthy_toUpperCase, E. reflexivity.
    + change (Js.truthy "") with false. cbn iota.
      destruct tokenValue; cbn [truthyString]; try (destruct hasBnb; reflexivity).
      destruct (Js.truthy s) eqn:Es; [rewrite Es; reflexivity|].
      destruct hasBnb; reflexivity.
  - change (Js.truthy "") with false. cbn iota.
    destruct tokenValue; cbn [truthyString]; try (destruct hasBnb; reflexivity).
    destruct (Js.truthy s) eqn:Es; [rewrite Es; reflexivity|].
    destruct hasBnb; reflexivity.
Qed.

Lemma captured_any m i :
  Priority.captured m 0 i
  = if Js.truthy (Js.group_opt m i) then Some (Js.group_opt m i) else None.
Proof.
  unfold Priority.captured. destruct m as [l|]; reflexivity.
Qed.

Lemma transfer_amount_priority env contentAmount m :
  Transfer.resolveAmount env contentAmount m
  = Priority.firstOf [amountOfContent env contentAmount; Priority.captured m 0 1] "".
Proof.
  unfold Transfer.resolveAmount, Priority.firstOf. rewrite captured_any.
  destruct (amountOfContent env contentAmount); cbn [Priority.firstSome];
    [reflexivity|].
  destruct (Js.truthy (Js.group_opt m 1)); reflexivity.
Qed.

Lemma transfer_recipient_priority contentToAddress m :
  Transfer.resolveToAddress contentToAddress m
  = Priority.firstOf [Priority.stringOf contentToAddress; Priority.captured m 0 3] "".
Proof.
  unfold Transfer.resolveToAddress, Priority.firstOf. rewrite captured_any.
  destruct contentToAddress; cbn [Priority.stringOf Priority.firstSome];
    try reflexivity.
  all: destruct (Js.truthy (Js.group_opt m 3)); reflexivity.
Qed.

Lemma swap_from_priority m inputToken mentionsBnb :
  Swap.resolveFromToken (Swap.directFromToken m) inputToken mentionsBnb
  = Priority.firstOf [Priority.upperCased (Priority.captured m 4 2);
                      truthyString inputToken] "BNB".
Proof.
  unfold Swap.resolveFromToken, Swap.directFromToken, Priority.firstOf,
    Priority.captured.
  destruct m as [l|]; cbn [Priority.upperCased option_map Priority.firstSome].
  - destruct ((4 <=? length l)%nat && Js.truthy (Js.group l 2)) eqn:E;
      cbn [Priority.upperCased option_map Priority.firstSome].
    + apply andb_true_iff in E. destruct E as (_ & E).
      rewrite truthy_toUpperCase, E. reflexivity.
    + change (Js.truthy "") with false. cbn iota.
      destruct (truthyString inputToken); [reflexivity|].
      destruct mentionsBnb; reflexivity.
  - change (Js.truthy "") with false. cbn iota.
    destruct (truthyString inputToken); [reflexivity|].
    destruct mentionsBnb; reflexivity.
Qed.

Lemma swap_fallback_any outputToken fromToken mentions :
  truthyString outputToken = None ->
  Swap.resolveToToken "" outputToken fromToken mentions
  = Priority.swapOutputDefault fromToken mentions.
Proof.
  intros H. unfold Priority.swapOutputDefault, Swap.resolveToToken.
  rewrite H. reflexivity.
Qed.

Lemma swap_to_priority m outputToken fromToken mentions :
  Swap.resolveToToken (Swap.directToToken m) outputToken fromToken mentions
  = Priority.firstOf [Priority.upperCased (Priority.captured m 4 3);
                      truthyString outputToken]
      (Priority.swapOutputDefault fromToken mentions).
Proof.
  unfold Swap.directToToken, Priority.firstOf, Priority.captured.
  destruct m as [l|]; cbn [Priority.upperCased option_map Priority.firstSome].
  - destruct ((4 <=? length l)%nat && Js.truthy (Js.group l 3)) eqn:E;
      cbn [Priority.upperCased option_map Priority.firstSome].
    + apply andb_true_iff in E. destruct E as (_ & E).
      unfold Swap.resolveToToken. rewrite truthy_toUpperCase, E. reflexivity.
    + destruct (truthyString outputToken) eqn:Eo.
      * unfold Swap.resolveToToken. rewrite Eo. reflexivity.
      * apply swap_fallback_any. exact Eo.
  - destruct (truthyString outputToken) eqn:Eo.
    + unfold Swap.resolveToToken. rewrite Eo. reflexivity.
    + apply swap_fallback_any. exact Eo.
Qed.

Lemma swap_amount_priority env m contentAmount :
  Swap.resolveAmount env (Swap.directAmount m) contentAmount
  = Priority.firstOf [Priority.captured m 4 1; amountOfContent env contentAmount]
      "0.001".
Proof.
  unfold Swap.resolveAmount, Swap.directAmount, Priority.firstOf,
    Priority.captured.
  destruct m as [l|]; cbn [Priority.firstSome].
  - destruct (4 <=? length l)%nat; cbn [andb].
    + destruct (Js.truthy (Js.group l 1)); cbn [Priority.firstSome];
        [reflexivity|].
      destruct (amountOfContent env contentAmount); reflexivity.
    + change (Js.truthy "") with false. cbn iota.
      destruct (amountOfContent env contentAmount); reflexivity.
  - change (Js.truthy "") with false. cbn iota.
    destruct (amountOfContent env contentAmount); reflexivity.
Qed.

Lemma bridge_amount_priority env m contentAmount :
  Bridge.resolveAmount env (Js.group_opt m 1) contentAmount
  = Priority.firstOf [Priority.captured m 0 1; amountOfContent env contentAmount]
      "0.001".
Proof.
  unfold Bridge.resolveAmount, Priority.firstOf. rewrite captured_any.
  destruct (Js.truthy (Js.group_opt m 1)); cbn [Priority.firstSome];
    [reflexivity|].
  destruct (amountOfContent env contentAmount); reflexivity.
Qed.

(** The source token and the destination token the handler hands on: what
    [hexOrUndefined] returns. *)
Lemma bridge_hex_string v env h r h' :
  Bridge.hexOrUndefined v env h = (r, h') ->
  h' = h /\ forall t, r = Ok t -> t = Priority.hexString v.
Proof.
  unfold Bridge.hexOrUndefined, Priority.hexString.
  destruct v; cbn [Priority.stringOf Priority.hexOnly]; intros [= <- <-];
    (split; [reflexivity|]); intros t [= <-]; reflexivity.
Qed.

(** The fields of the content, as the handler has read them. *)
Ltac fields_read :=
  unfold Priority.field;
  repeat match goal with
         | Hq : Js.get (Js.Obj []) _ = Some _ |- _ =>
             cbn [Js.get Js.lookup] in Hq;
             first [discriminate Hq | injection Hq as <- | clear Hq]
         end;
  repeat match goal with
         | Hq : parseModelOutput _ _ = _ |- _ => rewrite Hq; clear Hq
         end;
  cbn [Js.get Js.lookup];
  repeat match goal with
         | Hq : Js.get _ _ = Some _ |- _ => rewrite Hq; clear Hq
         end;
  cbv beta iota zeta.

(** A path of a handler that has reached its guarded part. *)
Ltac handed_over H :=
  match type of H with
  | _ _ _ _ ((InitWalletProvider, RUnit) :: (UseModel _, RVal ?a) :: ?rest)
    = (_, _) =>
      exists a, (rev rest); unfold runFrom; cbn [rev app];
      split; [assumption|]
  end.

Lemma transfer_handler_priority env msg st cb r tr :
  run (Transfer.handler msg st cb) env = (r, tr) ->
  In (InitWalletProvider, RUnit) tr ->
  exists mlOutput earlier,
    ask_val env (rev earlier) (UseModel "transferTemplate") = Ok mlOutput
    /\ runFrom
      (Transfer.execute
         (Priority.transferParams env (promptText msg)
            (Transfer.parseContent env mlOutput
               (regexMatch env Js.TransferRegex (promptText msg)))) cb) env
      (earlier ++ [(UseModel "transferTemplate", RVal mlOutput);
                   (InitWalletProvider, RUnit)])
    = (r, tr).
Proof.
  intros H Hin.
  apply run_inv in H. destruct H as (h & H & ->).
  apply in_rev in Hin.
  unfold Transfer.handler, currentState, prop in H.
  fx_paths H.
  all: try (exfalso; in_cases Hin; fail).
  all: try match goal with
           | Hs : Js.get ?c _ = Some _, Hn : Js.get ?c _ = None |- _ =>
               exfalso; clear -Hs Hn; destruct c; discriminate
           end.
  all: clear Hin.
  all: rewrite transfer_token_priority, transfer_amount_priority,
         transfer_recipient_priority in H.
  all: handed_over H.
  all: unfold Priority.transferParams; fields_read.
  all: this_run H.
Qed.

Lemma swap_handler_priority env msg st cb r tr :
  run (Swap.handler msg st cb) env = (r, tr) ->
  In (InitWalletProvider, RUnit) tr ->
  exists mlOutput earlier,
    ask_val env (rev earlier) (UseModel "swapTemplate") = Ok mlOutput
    /\ runFrom
      (Swap.execute
         (Priority.swapParams env (promptText msg)
            (Priority.parsed env mlOutput)) cb) env
      (earlier ++ [(UseModel "swapTemplate", RVal mlOutput);
                   (InitWalletProvider, RUnit)])
    = (r, tr).
Proof.
  intros H Hin.
  apply run_inv in H. destruct H as (h & H & ->).
  apply in_rev in Hin.
  unfold Swap.handler, currentState, prop in H.
  fx_paths H.
  all: try (exfalso; in_cases Hin; fail).
  all: try match goal with
           | Hs : Js.get ?c _ = Some _, Hn : Js.get ?c _ = None |- _ =>
               exfalso; clear -Hs Hn; destruct c; discriminate
           end.
  all: clear Hin.
  all: rewrite swap_from_priority, swap_to_priority, swap_amount_priority in H.
  all: handed_over H.
  all: unfold Priority.swapParams, Priority.parsed; fields_read.
  all: this_run H.
Qed.

(** What the handler of the bridge makes of the tokens and of the
    recipient. *)
Lemma bridge_from_token m v env h r h' :
  Bridge.hexOrUndefined (Bridge.resolveFromToken (Js.group_opt m 2) v) env h
  = (r, h') ->
  h' = h
  /\ match r with
     | Ok t => t = match Priority.captured m 0 2 with
                   | Some _ => None
                   | None => Priority.hexString v
                   end
     | Throw e => e = JsError TYPE_ERROR_STARTSWITH
                  /\ Priority.captured m 0 2 = None
                  /\ Js.val_truthy v = true
                  /\ Priority.stringOf v = None
     end.
Proof.
  unfold Bridge.resolveFromToken. rewrite captured_any.
  destruct (Js.truthy (Js.group_opt m 2)).
  - cbn [Bridge.hexOrUndefined]. rewrite upper_is_not_hex.
    intros [= <- <-]. split; reflexivity.
  - destruct v as [| |b|q|s|l|l];
      cbn [Js.val_truthy Bridge.convertNullStringToUndefined
           Bridge.hexOrUndefined Priority.hexString Priority.stringOf
           Priority.hexOnly].
    1-2: intros [= <- <-]; split; reflexivity.
    + destruct b; intros [= <- <-]; repeat split; reflexivity.
    + destruct (negb (Qeq_bool q 0)) eqn:E; intros [= <- <-];
        repeat split; reflexivity.
    + destruct s as [|c s]; cbn [Js.truthy String.eqb negb Bridge.hexOrUndefined];
        intros [= <- <-]; split; reflexivity.
    + intros [= <- <-]; repeat split; reflexivity.
    + intros [= <- <-]; repeat split; reflexivity.
Qed.

Lemma bridge_to_token v env h r h' :
  Bridge.hexOrUndefined (Bridge.resolveToToken v) env h = (r, h') ->
  h' = h
  /\ match r with
     | Ok t => t = Priority.hexString v
     | Throw e => e = JsError TYPE_ERROR_STARTSWITH
                  /\ Js.val_truthy v = true
                  /\ Priority.stringOf v = None
     end.
Proof.
  unfold Bridge.resolveToToken.
  destruct v as [| |b|q|s|l|l];
    cbn [Js.val_truthy Bridge.convertNullStringToUndefined
         Bridge.hexOrUndefined Priority.hexString Priority.stringOf
         Priority.hexOnly].
  1-2: intros [= <- <-]; split; reflexivity.
  - destruct b; intros [= <- <-]; repeat split; reflexivity.
  - destruct (negb (Qeq_bool q 0)) eqn:E; intros [= <- <-];
      repeat split; reflexivity.
  - destruct s as [|c s]; cbn [Js.truthy String.eqb negb Bridge.hexOrUndefined];
      intros [= <- <-]; split; reflexivity.
  - intros [= <- <-]; repeat split; reflexivity.
  - intros [= <- <-]; repeat split; reflexivity.
Qed.

Lemma bridge_recipient m v env h r h' :
  Bridge.resolveToAddress (Js.group_opt m 3) v env h = (r, h') ->
  h' = h
  /\ forall t, r = Ok t ->
       t = Priority.firstSome [Priority.hexOnly (Priority.captured m 0 3);
                               Priority.hexString v].
Proof.
  assert (Hc : forall e0 h0,
             (if Js.val_truthy v
              then Bridge.hexOrUndefined (Bridge.convertNullStringToUndefined v)
              else ret None) e0 h0
             = Bridge.hexOrUndefined (Bridge.resolveToToken v) e0 h0).
  { intros e0 h0. unfold Bridge.resolveToToken.
    destruct (Js.val_truthy v); reflexivity. }
  assert (Hjson : (if Js.val_truthy v
                   then Bridge.hexOrUndefined
                          (Bridge.convertNullStringToUndefined v)
                   else ret None) env h = (r, h') ->
                  h' = h /\ forall t, r = Ok t -> t = Priority.hexString v).
  { rewrite Hc. intros H.
    destruct (bridge_to_token v env h r h' H) as (Hh & Hr).
    split; [exact Hh|]. intros t ->. exact Hr. }
  unfold Bridge.resolveToAddress. rewrite captured_any.
  destruct (Js.truthy (Js.group_opt m 3)); cbn [andb Priority.hexOnly].
  - destruct (Js.startsWith (Js.group_opt m 3) "0x"); cbn [Priority.firstSome].
    + intros [= <- <-]. split; [reflexivity|]. intros t [= <-]. reflexivity.
    + intros H. destruct (Hjson H) as (Hh & Hr). split; [exact Hh|].
      intros t Ht. rewrite (Hr t Ht).
      destruct (Priority.hexString v); reflexivity.
  - cbn [Priority.firstSome].
    intros H. destruct (Hjson H) as (Hh & Hr). split; [exact Hh|].
    intros t Ht. rewrite (Hr t Ht).
    destruct (Priority.hexString v); reflexivity.
Qed.

Lemma bridge_handler_priority env msg st cb r tr :
  run (Bridge.handler msg st cb) env = (r, tr) ->
  In (InitWalletProvider, RUnit) tr ->
  exists mlOutput earlier,
    ask_val env (rev earlier) (UseModel "bridgeTemplate") = Ok mlOutput
    /\
    ((r = Throw (JsError TYPE_ERROR_STARTSWITH)
     /\ tr = earlier ++ [(UseModel "bridgeTemplate", RVal mlOutput);
                         (InitWalletProvider, RUnit)]
     /\ ((Priority.captured (regexMatch env Js.BridgeRegex (promptText msg))
            0 2 = None
          /\ Js.val_truthy
               (Priority.field (Priority.parsed env mlOutput) "fromToken") = true
          /\ Priority.stringOf
               (Priority.field (Priority.parsed env mlOutput) "fromToken") = None)
         \/ (Js.val_truthy
               (Priority.field (Priority.parsed env mlOutput) "toToken") = true
             /\ Priority.stringOf
                  (Priority.field (Priority.parsed env mlOutput) "toToken")
                = None)))
    \/ runFrom
         (Bridge.execute
            (Priority.bridgeParams env (promptText msg)
               (Priority.parsed env mlOutput)) cb) env
         (earlier ++ [(UseModel "bridgeTemplate", RVal mlOutput);
                      (InitWalletProvider, RUnit)])
       = (r, tr)).
Proof.
  intros H Hin.
  apply run_inv in H. destruct H as (h & H & ->).
  apply in_rev in Hin.
  unfold Bridge.handler, Bridge.resolveParams, currentState, prop in H.
  fx_paths H.
  all: repeat match goal with
              | Hp : Bridge.resolveToAddress _ _ _ _ = (_, _) |- _ =>
                  apply bridge_recipient in Hp; destruct Hp as (-> & Hp);
                  try (rewrite (Hp _ eq_refl) in *); clear Hp
              | Hp : Bridge.hexOrUndefined (Bridge.resolveFromToken _ _) _ _
                     = (_, _) |- _ =>
                  apply bridge_from_token in Hp; destruct Hp as (-> & Hp)
              | Hp : Bridge.hexOrUndefined (Bridge.resolveToToken _) _ _
                     = (_, _) |- _ =>
                  apply bridge_to_token in Hp; destruct Hp as (-> & Hp)
              end.
  all: try (exfalso; in_cases Hin; fail).
  all: try match goal with
           | Hs : Js.get ?c _ = Some _, Hn : Js.get ?c _ = None |- _ =>
               exfalso; clear -Hs Hn; destruct c; discriminate
           end.
  all: clear Hin.
  all: subst.
  all: first
         [ (* the bridge is executed *)
           rewrite bridge_amount_priority in H;
           handed_over H; right;
           unfold Priority.bridgeParams, Priority.parsed; fields_read;
           this_run H
         | (* a token of the content is not a string *)
           match goal with
           | |- context [rev ((InitWalletProvider, RUnit)
                              :: (UseModel _, RVal ?a) :: ?rest)] =>
               exists a, (rev rest)
           end;
           split; [cbn [rev app]; assumption|];
           left;
           repeat match goal with
                  | Hp : _ /\ _ |- _ => destruct Hp as (? & Hp)
                  end;
           subst;
           split; [reflexivity|];
           split; [reflexivity|];
           unfold Priority.parsed; fields_read;
           first [ left; repeat split; assumption
                 | right; split; assumption ] ].
Qed.

(** C1, as the code has it.  In every run of a handler in which the wallet
    provider is initialised, [mlOutput] being what the model answered:
    (1) the transfer handler goes on with the guarded part on the
    parameters [Priority.transferParams]: the token is the token captured
    from the text, in upper case, then the token of the content when it is
    a string that is not empty, then BNB; the amount and the recipient are
    those of the content (the amount a string that is not empty or a number
    that is not 0, the recipient a string), then those captured from the
    text, then none; (2) the swap handler goes on with the guarded part on
    [Priority.swapParams]: the tokens and the amount are those captured
    from the text (tokens in upper case), then those of the content, then
    BNB for the input token, the token of [Priority.swapOutputDefault] for
    the output token and 0.001 for the amount; (3) the bridge handler
    either throws the [TypeError] of [startsWith] on a token of the content
    that is truthy and not a string, or goes on with the guarded part on
    [Priority.bridgeParams]: the amount is the one captured from the text,
    then that of the content, then 0.001; the recipient is the one captured
    when it starts with 0x, then that of the content when it is a string
    that starts with 0x, then none; the source token is none when the text
    captures a token, whatever the content holds, and otherwise the token of
    the content when it is a string that starts with 0x. *)
Theorem C1_priority_of_the_sources :
  (forall env msg st cb r tr,
      run (Transfer.handler msg st cb) env = (r, tr) ->
      In (InitWalletProvider, RUnit) tr ->
      exists mlOutput earlier,
        ask_val env (rev earlier) (UseModel "transferTemplate") = Ok mlOutput
        /\ runFrom
             (Transfer.execute
                (Priority.transferParams env (promptText msg)
                   (Transfer.parseContent env mlOutput
                      (regexMatch env Js.TransferRegex (promptText msg)))) cb)
             env
             (earlier ++ [(UseModel "transferTemplate", RVal mlOutput);
                          (InitWalletProvider, RUnit)])
           = (r, tr))
  /\
  (forall env msg st cb r tr,
      run (Swap.handler msg st cb) env = (r, tr) ->
      In (InitWalletProvider, RUnit) tr ->
      exists mlOutput earlier,
        ask_val env (rev earlier) (UseModel "swapTemplate") = Ok mlOutput
        /\ runFrom
             (Swap.execute
                (Priority.swapParams env (promptText msg)
                   (Priority.parsed env mlOutput)) cb)
             env
             (earlier ++ [(UseModel "swapTemplate", RVal mlOutput);
                          (InitWalletProvider, RUnit)])
           = (r, tr))
  /\
  (forall env msg st cb r tr,
      run (Bridge.handler msg st cb) env = (r, tr) ->
      In (InitWalletProvider, RUnit) tr ->
      exists mlOutput earlier,
        ask_val env (rev earlier) (UseModel "bridgeTemplate") = Ok mlOutput
        /\
        ((r = Throw (JsError TYPE_ERROR_STARTSWITH)
          /\ tr = earlier ++ [(UseModel "bridgeTemplate", RVal mlOutput);
                              (InitWalletProvider, RUnit)]
          /\ ((Priority.captured
                 (regexMatch env Js.BridgeRegex (promptText msg)) 0 2 = None
               /\ Js.val_truthy
                    (Priority.field (Priority.parsed env mlOutput) "fromToken")
                  = true
               /\ Priority.stringOf
                    (Priority.field (Priority.parsed env mlOutput) "fromToken")
                  = None)
              \/ (Js.val_truthy
                    (Priority.field (Priority.parsed env mlOutput) "toToken")
                  = true
                  /\ Priority.stringOf
                       (Priority.field (Priority.parsed env mlOutput) "toToken")
                     = None)))
         \/ runFrom
              (Bridge.execute
                 (Priority.bridgeParams env (promptText msg)
                    (Priority.parsed env mlOutput)) cb)
              env
              (earlier ++ [(UseModel "bridgeTemplate", RVal mlOutput);
                           (InitWalletProvider, RUnit)])
            = (r, tr))).
Proof.
  split; [|split].
  - exact transfer_handler_priority.
  - exact swap_handler_priority.
  - exact bridge_handler_priority.
Qed.

Lemma C1_witness :
  (exists earlier,
      runFrom
        (Transfer.execute
           {| Transfer.chain := "bsc"; Transfer.token := "BNB";
              Transfer.amount := "2"; Transfer.toAddress := Sample.BOB;
              Transfer.data := None |} true)
        Sample.transferEnv
        (earlier ++ [(UseModel "transferTemplate",
                      RVal (Js.Obj [("amount", Js.Str "2");
                                    ("toAddress", Js.Str Sample.BOB)]));
                     (InitWalletProvider, RUnit)])
      = run (Transfer.handler (Sample.chat Sample.TRANSFER_TEXT) true true)
          Sample.transferEnv)
  /\
  (exists earlier,
      runFrom
        (Bridge.execute
           {| Bridge.fromChain := "bsc"; Bridge.toChain := "opBNB";
              Bridge.fromToken := None;
              Bridge.toToken := Some Sample.USDT_OPBNB;
              Bridge.amount := "1"; Bridge.toAddress := None |} true)
        Sample.bridgeEnv
        (earlier ++ [(UseModel "bridgeTemplate",
                      RVal (Js.Obj [("fromToken", Js.Str Sample.USDT);
                                    ("toToken", Js.Str Sample.USDT_OPBNB)]));
                     (InitWalletProvider, RUnit)])
      = run (Bridge.handler (Sample.chat Sample.BRIDGE_TEXT) true true)
          Sample.bridgeEnv).
Proof.
  destruct C1_priority_of_the_sources as (Htransfer & _ & Hbridge).
  split.
  - destruct (run (Transfer.handler (Sample.chat Sample.TRANSFER_TEXT) true true)
                Sample.transferEnv) as [r tr] eqn:E.
    assert (Hin : In (InitWalletProvider, RUnit) tr).
    { assert (Etr := E). vm_compute in Etr. injection Etr as _ <-.
      cbn [In]. tauto. }
    destruct (Htransfer _ _ _ _ _ _ E Hin) as (mlOutput & earlier & Hask & Hrun).
    vm_compute in Hask. injection Hask as <-.
    exists earlier. exact Hrun.
  - destruct (run (Bridge.handler (Sample.chat Sample.BRIDGE_TEXT) true true)
                Sample.bridgeEnv) as [r tr] eqn:E.
    assert (Hin : In (InitWalletProvider, RUnit) tr).
    { assert (Etr := E). vm_compute in Etr. injection Etr as _ <-.
      cbn [In]. tauto. }
    assert (Hr : r = Ok true).
    { assert (Etr := E). vm_compute in Etr. injection Etr as <- _.
      reflexivity. }
    destruct (Hbridge _ _ _ _ _ _ E Hin)
      as (mlOutput & earlier & Hask & [(Hthrow & _)|Hrun]).
    + rewrite Hr in Hthrow. discriminate Hthrow.
    + vm_compute in Hask. injection Hask as <-.
      exists earlier. exact Hrun.
Defined.

(** C1 as stated fails for the amount and the recipient of a transfer: the
    text "Transfer 1 BNB to <ALICE>" matches the transfer pattern, the
    model output holds the amount 2 and the recipient BOB, and 2 BNB are
    sent to BOB. *)
Lemma C1_counterexample :
  let env := Sample.chainEnv 5000000000000000000 0 []
               (Js.Obj [("amount", Js.Str "2"); ("toAddress", Js.Str Sample.BOB)])
               Sample.transferMatch in
  regexMatch env Js.TransferRegex Sample.TRANSFER_TEXT
  = Some [Sample.TRANSFER_TEXT; "1"; "BNB"; Sample.ALICE]
  /\ In (WalletTransfer "bsc" Sample.BOB 2000000000000000000 None None None)
        (calls (snd (run (Transfer.handler (Sample.chat Sample.TRANSFER_TEXT)
                            true true) env))).
Proof.
  vm_compute. split; [reflexivity|tauto].
Qed.
(* ================================================================== *)
(** * The handlers and the errors of the actions *)
(* ================================================================== *)

Lemma transfer_failureMessage_truthy env m chain token :
  Js.truthy m = true ->
  Js.truthy (Transfer.failureMessage env m chain token) = true.
Proof.
  intros H. unfold Transfer.failureMessage. branches;
    first [exact H | reflexivity].
Qed.

Lemma swap_failureMessage_truthy m fromToken toToken :
  Js.truthy m = true ->
  Js.truthy (Swap.failureMessage m fromToken toToken) = true.
Proof.
  intros H. unfold Swap.failureMessage. branches; first [exact H | reflexivity].
Qed.

Lemma bridge_failureMessage_truthy m :
  Js.truthy m = true -> Js.truthy (Bridge.failureMessage m) = true.
Proof.
  intros H. unfold Bridge.failureMessage. branches;
    first [exact H | reflexivity].
Qed.

Lemma transfer_execute_guards p cb env h ra ha :
  Transfer.transfer p env h = (ra, ha) ->
  guards "Transfer failed: "
    (fun m => Transfer.failureMessage env m (Transfer.chain p)
                (Transfer.tokenWritten env p (Transfer.since h ha)))
    cb ra ha (Transfer.execute p cb env h).
Proof.
  intros H. unfold Transfer.execute.
  solve_guards H transfer_failureMessage_truthy.
Qed.

Lemma swap_execute_guards p cb env h ra ha :
  Swap.swap p env h = (ra, ha) ->
  guards "Swap failed: "
    (fun m => Swap.failureMessage m (Swap.fromToken p) (Swap.toToken p))
    cb ra ha (Swap.execute p cb env h).
Proof.
  intros H. unfold Swap.execute. solve_guards H swap_failureMessage_truthy.
Qed.

Lemma bridge_execute_guards p cb env h ra ha :
  Bridge.bridge p env h = (ra, ha) ->
  guards "Bridge failed: " Bridge.failureMessage cb ra ha
    (Bridge.execute p cb env h).
Proof.
  intros H. unfold Bridge.execute.
  solve_guards H bridge_failureMessage_truthy.
Qed.

(** Where [null] or [undefined] thrown by an action comes from: a
    transfer throws it only when one of its raw calls was last rejected
    with it, a swap only when the configuration of the SDK was, and a bridge
    never. *)
Lemma transfer_throws_raw env p h r ha :
  Transfer.transfer p env h = (r, ha) ->
  forall e, r = Throw e -> e = JsNull \/ e = JsUndefined ->
  exists c rest, ha = (c, RThrow e) :: rest /\ rawTransferCall c = true.
Proof.
  intros H e E Hn. transfer_paths H.
  all: first [discriminate E | injection E as <-].
  all: try (destruct Hn as [Hn|Hn]; discriminate Hn).
  all: do 2 eexists; split; reflexivity.
Qed.

Lemma swap_throws_raw env p h r ha :
  Swap.swap p env h = (r, ha) ->
  forall e, r = Throw e -> e = JsNull \/ e = JsUndefined ->
  exists c rest, ha = (c, RThrow e) :: rest /\ rawSwapCall c = true.
Proof.
  intros H e E Hn.
  unfold Swap.swap, Swap.resolveToken, Swap.validateAndNormalizeParams in H.
  fx_paths H.
  all: first [discriminate E | injection E as <-].
  all: try (destruct Hn as [Hn|Hn]; discriminate Hn).
  all: do 2 eexists; split; reflexivity.
Qed.

Lemma bridge_throws_error env p h r ha :
  Bridge.bridge p env h = (r, ha) ->
  forall e, r = Throw e -> exists m, e = JsError m.
Proof.
  intros H e E.
  unfold Bridge.bridge, Bridge.ensureAllowance, Bridge.simulateAndWrite,
    Bridge.validateAndNormalizeParams in H.
  fx_paths H.
  all: first [discriminate E | injection E as <-].
  all: eexists; reflexivity.
Qed.

(** A path of a handler that ends before the guarded part. *)
Ltac own_steps :=
  right; split; [reflexivity|]; split; [discriminate|];
  intros Hb Hc; try discriminate Hb; try discriminate Hc;
  cbn [rev app];
  match goal with
  | |- exists pre ev, ?l = _ /\ _ =>
      exists (removelast l), (last l (ComposeState, RUnit));
      split; [reflexivity|];
      split; [reflexivity|eexists; reflexivity]
  end.

(** A path of a handler that goes on with the guarded part, whose run is
    [H]. *)
Ltac guarded_part H :=
  match type of H with
  | _ ?p _ _ ?before = (_, _) =>
      left; exists p, (rev before); split; [reflexivity|];
      unfold runFrom; cbn [rev app]; this_run H
  end.

Lemma transfer_handler_handles msg st cb :
  Handles (Transfer.handler msg st cb) Transfer.execute cb.
Proof.
  intros env r tr H.
  apply run_inv in H. destruct H as (h & H & ->).
  unfold Transfer.handler, currentState, prop in H.
  fx_paths H.
  all: first [guarded_part H | own_steps].
Qed.

Lemma swap_handler_handles msg st cb :
  Handles (Swap.handler msg st cb) Swap.execute cb.
Proof.
  intros env r tr H.
  apply run_inv in H. destruct H as (h & H & ->).
  unfold Swap.handler, currentState, prop in H.
  fx_paths H.
  all: first [guarded_part H | own_steps].
Qed.

Lemma bridge_handler_handles msg st cb :
  Handles (Bridge.handler msg st cb) Bridge.execute cb.
Proof.
  intros env r tr H.
  apply run_inv in H. destruct H as (h & H & ->).
  unfold Bridge.handler, Bridge.resolveParams, Bridge.resolveToAddress,
    Bridge.hexOrUndefined, currentState, prop in H.
  fx_paths H.
  all: first [guarded_part H | own_steps].
Qed.

(** C9, as the code has it.  (1) The guarded part of each handler ends as
    the action it executes ends: when the action returns, it returns [true]
    after the success response; when the action throws an [Error], it
    returns [false] after the failure response, whose text is "Transfer
    failed: ", "Swap failed: " or "Bridge failed: " and the message the
    handler makes of the message of the error, and whose content has that
    message as its [error]; the message is never empty; when the action
    throws [null] or [undefined], the [catch] block itself throws a
    [TypeError] and no response is made.  A response is made only when
    there is a callback.  (2) A transfer throws [null] or [undefined] only
    when the switch of the chain, the read of the balance or the submission
    was rejected with it, a swap only when the configuration of the SDK
    was, and a bridge never.  (3) A run of a handler either goes on, after
    calls on the runtime alone, with the guarded part and ends as it ends;
    or it ends before the action is executed, with calls on the runtime
    only: an exception then leaves it (from the composition of the state,
    the call of the model, the reading of a model output that is null or of
    the wrong type, the initialisation of the wallet provider), or it
    returns [false], after a failure response when there is a callback. *)
Theorem C9_handlers_catch_the_errors_of_the_actions :
  ((forall p cb env h ra ha,
       Transfer.transfer p env h = (ra, ha) ->
       guards "Transfer failed: "
         (fun m => Transfer.failureMessage env m (Transfer.chain p)
                     (Transfer.tokenWritten env p (Transfer.since h ha)))
         cb ra ha (Transfer.execute p cb env h))
   /\ (forall p cb env h ra ha,
          Swap.swap p env h = (ra, ha) ->
          guards "Swap failed: "
            (fun m => Swap.failureMessage m (Swap.fromToken p) (Swap.toToken p))
            cb ra ha (Swap.execute p cb env h))
   /\ (forall p cb env h ra ha,
          Bridge.bridge p env h = (ra, ha) ->
          guards "Bridge failed: " Bridge.failureMessage cb ra ha
            (Bridge.execute p cb env h)))
  /\
  ((forall env p h r ha,
       Transfer.transfer p env h = (r, ha) ->
       forall e, r = Throw e -> e = JsNull \/ e = JsUndefined ->
       exists c rest, ha = (c, RThrow e) :: rest /\ rawTransferCall c = true)
   /\ (forall env p h r ha,
          Swap.swap p env h = (r, ha) ->
          forall e, r = Throw e -> e = JsNull \/ e = JsUndefined ->
          exists c rest, ha = (c, RThrow e) :: rest /\ rawSwapCall c = true)
   /\ (forall env p h r ha,
          Bridge.bridge p env h = (r, ha) ->
          forall e, r = Throw e -> exists m, e = JsError m))
  /\
  ((forall msg st cb, Handles (Transfer.handler msg st cb) Transfer.execute cb)
   /\ (forall msg st cb, Handles (Swap.handler msg st cb) Swap.execute cb)
   /\ (forall msg st cb, Handles (Bridge.handler msg st cb) Bridge.execute cb)).
Proof.
  repeat apply conj.
  - exact transfer_execute_guards.
  - exact swap_execute_guards.
  - exact bridge_execute_guards.
  - exact transfer_throws_raw.
  - exact swap_throws_raw.
  - exact bridge_throws_error.
  - exact transfer_handler_handles.
  - exact swap_handler_handles.
  - exact bridge_handler_handles.
Qed.

Lemma C9_witness :
  fst (Transfer.execute Sample.transferOfOne true Sample.brokeEnv []) = Ok false
  /\ exists ev,
       failureResponseOf "Transfer failed: "
         "Insufficient funds for the transaction. Please check your balance and try again with a smaller amount."
         ev
       /\ snd (Transfer.execute Sample.transferOfOne true Sample.brokeEnv [])
          = ev :: snd (Transfer.transfer Sample.transferOfOne Sample.brokeEnv []).
Proof.
  assert (E : exists ha,
             Transfer.transfer Sample.transferOfOne Sample.brokeEnv []
             = (Throw "insufficient funds for gas", ha)).
  { eexists. vm_compute. reflexivity. }
  destruct E as (ha & E).
  pose proof (proj1 (proj1 C9_handlers_catch_the_errors_of_the_actions)
                Sample.transferOfOne true Sample.brokeEnv [] _ _ E) as G.
  rewrite E. cbn [snd].
  destruct G as (Hr & _ & ev & Hev & Hh).
  split; [exact Hr|]. exists ev. split; [exact Hev|exact Hh].
Defined.

(** C9 as stated fails: when the call of the model fails, the exception
    leaves each of the three handlers. *)
Lemma C9_counterexample :
  let env := Sample.failing Sample.env Sample.isUseModel "model unavailable" in
  fst (run (Transfer.handler (Sample.chat Sample.TRANSFER_TEXT) true true) env)
  = Throw "model unavailable"
  /\ fst (run (Swap.handler (Sample.chat "swap 0.5 BNB for USDC") true true) env)
     = Throw "model unavailable"
  /\ fst (run (Bridge.handler (Sample.chat Sample.BRIDGE_TEXT) true true) env)
     = Throw "model unavailable".
Proof.
  vm_compute. repeat split.
Qed.

(* ================================================================== *)
(** * A token symbol in a bridge request *)
(* ================================================================== *)

Ltac proj_bridge :=
  cbn [Bridge.fromChain Bridge.toChain Bridge.fromToken Bridge.toToken
       Bridge.amount Bridge.toAddress Bridge.resp_fromToken Bridge.resp_amount
       Bridge.txHash Bridge.opt_str] in *.







(* ================================================================== *)
(** * Further properties of the transfer *)
(* ================================================================== *)

(** A transfer submits at most one transaction; a transfer that returns
    has submitted exactly one, and returns the hash the submission
    answered. *)
Theorem transfer_submits_once env p r tr :
  run (Transfer.transfer p) env = (r, tr) ->
  (count isSend tr <= 1)%nat
  /\ (forall resp, r = Ok resp ->
        count isSend tr = 1%nat
        /\ exists ev, In ev tr /\ isSubmission ev (Transfer.txHash resp)).
Proof.
  intros H.
  apply run_inv in H. destruct H as (h & H & ->).
  transfer_paths H.
  all: cbn [rev app]; unfold count, calls; cbn [map filter fst isSend length].
  all: split; [lia|].
  all: intros resp E; first [discriminate E | injection E as <-].
  all: split; [reflexivity|].
  all: cbn [Transfer.txHash].
  all: match goal with
       | |- exists ev, In ev ?l /\ isSubmission ev ?hash =>
           match l with
           | context [(?call, RStr hash)] => exists (call, RStr hash)
           end
       end.
  all: split; [cbn [In]; tauto|reflexivity].
Qed.

Lemma transfer_submits_once_witness :
  count isSend
    (snd (run (Transfer.transfer
                 {| Transfer.chain := "bsc"; Transfer.token := "USDT";
                    Transfer.amount := "1"; Transfer.toAddress := Sample.ALICE;
                    Transfer.data := None |}) Sample.env)) = 1%nat.
Proof.
  destruct (run (Transfer.transfer
                   {| Transfer.chain := "bsc"; Transfer.token := "USDT";
                      Transfer.amount := "1"; Transfer.toAddress := Sample.ALICE;
                      Transfer.data := None |}) Sample.env) as [r tr] eqn:E.
  destruct (transfer_submits_once _ _ _ _ E) as (_ & H).
  assert (Er : exists resp, r = Ok resp).
  { vm_compute in E. injection E as <- _. eexists. reflexivity. }
  destruct Er as (resp & ->).
  exact (proj1 (H resp eq_refl)).
Defined.

Lemma dataParamOf_hex d s :
  Transfer.dataParamOf d = Some s -> d = Some s /\ Js.startsWith s "0x" = true.
Proof.
  unfold Transfer.dataParamOf. destruct d as [x|]; [|discriminate].
  destruct (Js.truthy x); cbn [andb]; [|discriminate].
  destruct (Js.startsWith x "0x") eqn:E; [|discriminate].
  intros [= <-]. split; [reflexivity|exact E].
Qed.

(** Nothing is done before the recipient is validated: the first call of a
    transfer is the formatting of the recipient, which is made only for a
    configured chain and a recipient that is given; when it fails the
    transfer throws the invalid address error and makes no other call. *)
Theorem transfer_validates_first env p r tr :
  run (Transfer.transfer p) env = (r, tr) ->
  tr <> [] ->
  Transfer.lookup_chain (Transfer.chain p) (chains env) <> None
  /\ Js.truthy (Transfer.toAddress p) = true
  /\ exists rsp post,
       tr = (FormatAddress (Transfer.toAddress p), rsp) :: post
       /\ (forall e, rsp = RThrow e ->
             post = []
             /\ r = Throw ("Invalid address format: " ^^ Transfer.toAddress p)).
Proof.
  intros H Hne.
  apply run_inv in H. destruct H as (h & H & ->).
  transfer_paths H.
  all: try (exfalso; apply Hne; reflexivity).
  all: split; [congruence|].
  all: split;
    [ match goal with
      | Hb : negb (Js.truthy ?x) = false |- Js.truthy ?x = true =>
          destruct (Js.truthy x); [reflexivity|discriminate Hb]
      end |].
  all: cbn [rev app]; do 2 eexists; split; [reflexivity|].
  all: intros e E; first [discriminate E | split; reflexivity].
Qed.

Lemma transfer_validates_first_witness :
  exists rsp post,
    snd (run (Transfer.transfer
                {| Transfer.chain := "bsc"; Transfer.token := "BNB";
                   Transfer.amount := "1"; Transfer.toAddress := Sample.ALICE;
                   Transfer.data := None |}) Sample.env)
    = (FormatAddress Sample.ALICE, rsp) :: post.
Proof.
  destruct (run (Transfer.transfer
                   {| Transfer.chain := "bsc"; Transfer.token := "BNB";
                      Transfer.amount := "1"; Transfer.toAddress := Sample.ALICE;
                      Transfer.data := None |}) Sample.env) as [r tr] eqn:E.
  destruct (transfer_validates_first _ _ _ _ E) as (_ & _ & rsp & post & Htr & _).
  - vm_compute in E. injection E as _ <-. discriminate.
  - exists rsp, post. exact Htr.
Defined.

(** Funds only go where the request says: every submission of a transfer
    is made on the chain of the request, to the address that the
    formatting of the recipient of the request answered; the data of a
    native transfer, when there is one, is the data of the request, and
    starts with 0x.  The response names that chain and that recipient. *)
Theorem transfer_pays_the_formatted_recipient env p r tr :
  run (Transfer.transfer p) env = (r, tr) ->
  (forall c rsp chain to,
      In (c, rsp) tr -> sendOf c = Some (chain, to) ->
      chain = Transfer.chain p
      /\ exists post, tr = (FormatAddress (Transfer.toAddress p), RStr to) :: post)
  /\ (forall c to v g gp s rsp,
        In (WalletTransfer c to v g gp (Some s), rsp) tr ->
        Transfer.data p = Some s /\ Js.startsWith s "0x" = true)
  /\ (forall resp, r = Ok resp ->
        Transfer.resp_chain resp = Transfer.chain p
        /\ exists post,
             tr = (FormatAddress (Transfer.toAddress p),
                   RStr (Transfer.recipient resp)) :: post).
Proof.
  intros H.
  apply run_inv in H. destruct H as (h & H & ->).
  transfer_paths H.
  all: cbn [rev app].
  all: split;
    [ intros c rsp chain to Hin Hs; in_cases Hin;
      cbn [sendOf] in Hs; try discriminate Hs;
      injection Hs as <- <-;
      (split; [reflexivity|eexists; reflexivity])
    | split;
      [ intros c to v g gp s rsp Hin; in_cases Hin;
        match goal with
        | Hd : Transfer.dataParamOf _ = Some _ |- _ =>
            exact (dataParamOf_hex _ _ Hd)
        end
      | intros resp E; first [discriminate E | injection E as <-];
        cbn [Transfer.resp_chain Transfer.recipient];
        (split; [reflexivity|eexists; reflexivity]) ] ].
Qed.

Lemma transfer_pays_the_formatted_recipient_witness :
  exists post,
    snd (run (Transfer.transfer
                {| Transfer.chain := "bsc"; Transfer.token := "USDT";
                   Transfer.amount := "1"; Transfer.toAddress := Sample.ALICE;
                   Transfer.data := None |}) Sample.env)
    = (FormatAddress Sample.ALICE, RStr Sample.ALICE) :: post.
Proof.
  assert (Hin : In (TransferERC20 "bsc" Sample.USDT Sample.ALICE
                      1000000000000000000, RStr Sample.HASH)
                   (snd (run (Transfer.transfer
                                {| Transfer.chain := "bsc"; Transfer.token := "USDT";
                                   Transfer.amount := "1";
                                   Transfer.toAddress := Sample.ALICE;
                                   Transfer.data := None |}) Sample.env))).
  { vm_compute. tauto. }
  exact (proj2 (proj1 (transfer_pays_the_formatted_recipient Sample.env _ _ _
                         (surjective_pairing _))
                  _ _ _ _ Hin eq_refl)).
Defined.

Lemma erc20_token_kept token native :
  Transfer.isNativeTransfer (Transfer.normalizeToken token native) native = false ->
  Transfer.normalizeToken token native = token.
Proof.
  unfold Transfer.normalizeToken, Transfer.isNativeTransfer.
  destruct (negb (Js.truthy token)).
  - rewrite String.eqb_refl, !orb_true_r. discriminate.
  - destruct (Js.toLowerCase token =? Js.toLowerCase native)%string.
    + rewrite String.eqb_refl, !orb_true_r. discriminate.
    + reflexivity.
Qed.

Lemma notAnAddress_false t :
  Transfer.notAnAddress t = false -> Js.startsWith t "0x" = true.
Proof.
  unfold Transfer.notAnAddress. intros H.
  apply orb_false_iff in H. destruct H as (_ & H).
  apply negb_false_iff in H. exact H.
Qed.

(** An ERC20 transfer is made on a contract address, the token of the
    request when it starts with 0x and otherwise the address the token
    directory answered for the symbol, which starts with 0x; its value is
    the amount of the request in the decimals read from that contract, or,
    when the request has no amount, the balance read from it. *)
Theorem transfer_erc20_amount env p r tr :
  run (Transfer.transfer p) env = (r, tr) ->
  forall c t to v rsp,
    In (TransferERC20 c t to v, rsp) tr ->
    Js.startsWith t "0x" = true
    /\ (if Js.startsWith (Transfer.token p) "0x" then t = Transfer.token p
        else In (GetTokenAddress c (Transfer.token p), RStr t) tr)
    /\ exists d,
         In (ReadContract c t "decimals" [], RInt d) tr
         /\ (if Js.truthy (Transfer.amount p)
             then parseUnits env (Transfer.amount p) d = Ok v
             else In (ReadContract c t "balanceOf" [AStr (address env)], RInt v) tr).
Proof.
  intros H c t to v rsp Hin.
  apply run_inv in H. destruct H as (h & H & ->).
  apply in_rev in Hin.
  transfer_paths H.
  all: in_cases Hin.
  all: cbn [rev app].
  all: match goal with
       | Hn : Transfer.isNativeTransfer _ _ = false |- _ =>
           rewrite (erc20_token_kept _ _ Hn) in *
       end.
  all: match goal with
       | Hs : negb (Js.startsWith ?x "0x") = _ |- _ =>
           destruct (Js.startsWith x "0x") eqn:Hx; cbn [negb] in Hs;
           try discriminate Hs
       end.
  all: split;
    [ first [ reflexivity
            | assumption
            | match goal with
              | Hn : Transfer.notAnAddress _ = false |- _ =>
                  exact (notAnAddress_false _ Hn)
              end ]
    | split;
      [ first [ reflexivity | cbn [In]; tauto ]
      | eexists; split;
        [ cbn [In]; tauto
        | match goal with
          | Ha : negb (Js.truthy ?x) = _ |- _ =>
              destruct (Js.truthy x); cbn [negb] in Ha; try discriminate Ha
          end;
          first [ assumption | cbn [In]; tauto ] ] ] ].
Qed.

Lemma transfer_erc20_amount_witness :
  In (TransferERC20 "bsc" Sample.USDT Sample.ALICE 1000000000000000000,
      RStr Sample.HASH)
     (snd (run (Transfer.transfer
                  {| Transfer.chain := "bsc"; Transfer.token := "USDT";
                     Transfer.amount := "1"; Transfer.toAddress := Sample.ALICE;
                     Transfer.data := None |}) Sample.env))
  /\ Js.startsWith Sample.USDT "0x" = true.
Proof.
  assert (Hin : In (TransferERC20 "bsc" Sample.USDT Sample.ALICE 1000000000000000000,
                    RStr Sample.HASH)
                   (snd (run (Transfer.transfer
                                {| Transfer.chain := "bsc"; Transfer.token := "USDT";
                                   Transfer.amount := "1";
                                   Transfer.toAddress := Sample.ALICE;
                                   Transfer.data := None |}) Sample.env))).
  { vm_compute. tauto. }
  split; [exact Hin|].
  destruct (run (Transfer.transfer
                   {| Transfer.chain := "bsc"; Transfer.token := "USDT";
                      Transfer.amount := "1"; Transfer.toAddress := Sample.ALICE;
                      Transfer.data := None |}) Sample.env) as [r tr] eqn:E.
  exact (proj1 (transfer_erc20_amount _ _ _ _ E _ _ _ _ _ Hin)).
Defined.

(** A native transfer with an amount sends the amount of the request, in
    wei, and leaves the gas and its price to the wallet. *)
Theorem transfer_native_amount env p r tr :
  run (Transfer.transfer p) env = (r, tr) ->
  Js.truthy (Transfer.amount p) = true ->
  forall c to v g gp d rsp,
    In (WalletTransfer c to v g gp d, rsp) tr ->
    parseUnits env (Transfer.amount p) 18 = Ok v /\ g = None /\ gp = None.
Proof.
  intros H Ha c to v g gp d rsp Hin.
  apply run_inv in H. destruct H as (h & H & ->).
  apply in_rev in Hin.
  transfer_paths H.
  all: in_cases Hin.
  all: try match goal with
       | Hb : negb (Js.truthy (Transfer.amount _)) = true |- _ =>
           rewrite Ha in Hb; discriminate Hb
       end.
  all: repeat split; assumption.
Qed.

Lemma transfer_native_amount_witness :
  parseUnits Sample.env "1" 18 = Ok 1000000000000000000.
Proof.
  assert (Hin : In (WalletTransfer "bsc" Sample.ALICE 1000000000000000000
                      None None None, RStr Sample.HASH)
                   (snd (run (Transfer.transfer
                                {| Transfer.chain := "bsc"; Transfer.token := "BNB";
                                   Transfer.amount := "1";
                                   Transfer.toAddress := Sample.ALICE;
                                   Transfer.data := None |}) Sample.env))).
  { vm_compute. tauto. }
  exact (proj1 (transfer_native_amount Sample.env
                  {| Transfer.chain := "bsc"; Transfer.token := "BNB";
                     Transfer.amount := "1"; Transfer.toAddress := Sample.ALICE;
                     Transfer.data := None |} _ _ (surjective_pairing _)
                  eq_refl _ _ _ _ _ _ _ Hin)).
Defined.

Lemma bnb_elsewhere t n :
  Transfer.isBnbSymbol t = true ->
  Js.toLowerCase n <> "bnb" ->
  Transfer.normalizeToken t n = t /\ Transfer.isNativeTransfer t n = false.
Proof.
  intros Ht Hn.
  assert (Hcase : t = "BNB" \/ t = "bnb").
  { unfold Transfer.isBnbSymbol in Ht. apply orb_true_iff in Ht.
    destruct Ht as [Ht|Ht]; apply String.eqb_eq in Ht; tauto. }
  assert (Hlow : (Js.toLowerCase t =? Js.toLowerCase n)%string = false).
  { apply String.eqb_neq. intros E. apply Hn. rewrite <- E.
    destruct Hcase as [-> | ->]; reflexivity. }
  assert (Hne : (t =? n)%string = false).
  { apply String.eqb_neq. intros E. apply Hn. rewrite <- E.
    destruct Hcase as [-> | ->]; reflexivity. }
  unfold Transfer.normalizeToken, Transfer.isNativeTransfer.
  rewrite Hlow, Hne.
  destruct Hcase as [-> | ->]; split; reflexivity.
Qed.

(** On a chain whose native token is not called BNB (the test networks
    call theirs tBNB), a transfer of BNB never waits for a receipt: as soon
    as the wallet has answered the native transfer with a hash, whatever
    the hash, the transfer returns it, in a response that names the native
    token of the chain. *)
Theorem transfer_of_bnb_is_not_confirmed env p native r tr :
  run (Transfer.transfer p) env = (r, tr) ->
  Transfer.lookup_chain (Transfer.chain p) (chains env) = Some native ->
  Transfer.isBnbSymbol (Transfer.token p) = true ->
  Js.toLowerCase (Transfer.nativeTokenOf native) <> "bnb" ->
  (forall c h rsp, ~ In (WaitForTransactionReceipt c h, rsp) tr)
  /\ (forall c to v g gp d hash,
        In (WalletTransfer c to v g gp d, RStr hash) tr ->
        exists resp,
          r = Ok resp /\ Transfer.txHash resp = hash
          /\ Transfer.resp_token resp = Transfer.nativeTokenOf native).
Proof.
  intros H Hc Ht Hn.
  destruct (bnb_elsewhere _ _ Ht Hn) as (En & Ei).
  apply run_inv in H. destruct H as (h & H & ->).
  transfer_paths H.
  all: match goal with
       | Hx : Transfer.lookup_chain _ _ = ?v |- _ =>
           let Hv := fresh "Hv" in
           assert (Hv : v = Some native) by congruence;
           first [discriminate Hv | injection Hv as ->]
       end.
  all: rewrite ?En, ?Ei in *.
  all: try discriminate.
  all: try match goal with
       | Hx : Transfer.isBnbSymbol _ = false |- _ =>
           rewrite Ht in Hx; discriminate Hx
       end.
  all: split;
    [ intros c h0 rsp Hin; cbn [rev app] in Hin; in_cases Hin
    | intros c to v g gp d hash Hin; cbn [rev app] in Hin; in_cases Hin;
      eexists; (split; [reflexivity|split; reflexivity]) ].
Qed.

Lemma transfer_of_bnb_is_not_confirmed_witness :
  exists resp,
    fst (run (Transfer.transfer
                {| Transfer.chain := "bscTestnet"; Transfer.token := "BNB";
                   Transfer.amount := "1"; Transfer.toAddress := Sample.ALICE;
                   Transfer.data := None |}) Sample.env) = Ok resp
    /\ Transfer.txHash resp = Sample.HASH
    /\ Transfer.resp_token resp = "tBNB".
Proof.
  assert (Hl : Js.toLowerCase (Transfer.nativeTokenOf (Some "tBNB")) <> "bnb")
    by (vm_compute; discriminate).
  assert (Hin : In (WalletTransfer "bscTestnet" Sample.ALICE 1000000000000000000
                      None None None, RStr Sample.HASH)
                   (snd (run (Transfer.transfer
                                {| Transfer.chain := "bscTestnet";
                                   Transfer.token := "BNB";
                                   Transfer.amount := "1";
                                   Transfer.toAddress := Sample.ALICE;
                                   Transfer.data := None |}) Sample.env))).
  { vm_compute. tauto. }
  exact (proj2 (transfer_of_bnb_is_not_confirmed Sample.env
                  {| Transfer.chain := "bscTestnet"; Transfer.token := "BNB";
                     Transfer.amount := "1"; Transfer.toAddress := Sample.ALICE;
                     Transfer.data := None |} (Some "tBNB") _ _
                  (surjective_pairing _) eq_refl eq_refl Hl)
           _ _ _ _ _ _ _ Hin).
Defined.

(* ================================================================== *)
(** * Further properties of the swap *)
(* ================================================================== *)

(** What the validation of a swap has checked when it passes. *)
Lemma swap_validate_ok env p h p' h' :
  Swap.validateAndNormalizeParams p env h = (Ok p', h') ->
  (Swap.chain p = "" \/ Swap.chain p = "bsc")
  /\ Js.truthy (Swap.fromToken p) = true
  /\ Js.truthy (Swap.toToken p) = true
  /\ Swap.fromToken p <> Swap.toToken p
  /\ (exists amt, parseUnits env (Swap.amount p) 18 = Ok amt /\ 0 < amt)
  /\ exists s,
       Swap.slippage p' = Some s
       /\ Qle_bool s 0 = false /\ Qle_bool s 1 = true
       /\ s = match Swap.slippage p with
              | Some s0 => s0
              | None => Swap.DEFAULT_SLIPPAGE
              end.
Proof.
  intros H. unfold Swap.validateAndNormalizeParams in H.
  fx_paths H.
  all: try discriminate.
  all: tests.
  all: cbn [Swap.slippage].
  all: repeat match goal with
         | |- _ /\ _ => split
         end.
  all: try assumption.
  all: try (apply String.eqb_neq; assumption).
  all: try (first [ left; apply truthy_false; assumption
                  | right; apply String.eqb_eq; assumption ]).
  all: try (eexists; split; [reflexivity|apply Z.leb_gt; assumption]).
  all: try (eexists; repeat split; first [eassumption | reflexivity]).
Qed.

(** All the paths of a swap, with what the validation has checked. *)
Ltac swap_paths_ok H :=
  unfold Swap.swap, Swap.resolveToken in H;
  fx_paths H;
  try discriminate;
  try match goal with
      | Hv : Swap.validateAndNormalizeParams _ _ _ = (Ok _, _) |- _ =>
          let Hok := fresh "Hok" in
          pose proof (swap_validate_ok _ _ _ _ _ Hv) as Hok
      end;
  repeat match goal with
         | Hv : Swap.validateAndNormalizeParams _ _ _ = (_, _) |- _ =>
             apply swap_validate_inv in Hv;
             let Hh := fresh "Hh" in
             let Hp := fresh "Hp" in
             destruct Hv as (Hh & Hp); subst
         end;
  try match goal with
      | Hp : forall p', Ok ?a = Ok p' -> _ |- _ =>
          let Hc := fresh "Hc" in
          let Hf := fresh "Hf" in
          let Ht := fresh "Ht" in
          let Ham := fresh "Ham" in
          destruct (Hp a eq_refl) as (Hc & Hf & Ht & Ham); clear Hp;
          rewrite ?Hc, ?Hf, ?Ht, ?Ham in *
      end.

(** A swap makes its first call, the configuration of the LI.FI SDK for
    BSC, only for a request that is valid: the chain is BSC or not given,
    both tokens are given and differ, the amount is a positive number, and
    the slippage, when given, is above 0 and at most 1. *)
Theorem swap_validates_first env p r tr :
  run (Swap.swap p) env = (r, tr) ->
  tr <> [] ->
  (Swap.chain p = "" \/ Swap.chain p = "bsc")
  /\ Js.truthy (Swap.fromToken p) = true
  /\ Js.truthy (Swap.toToken p) = true
  /\ Swap.fromToken p <> Swap.toToken p
  /\ (exists amt, parseUnits env (Swap.amount p) 18 = Ok amt /\ 0 < amt)
  /\ (forall s, Swap.slippage p = Some s ->
                Qle_bool s 0 = false /\ Qle_bool s 1 = true)
  /\ exists rsp post, tr = (ConfigureLiFiSdk "bsc", rsp) :: post.
Proof.
  intros H Hne.
  apply run_inv in H. destruct H as (h & H & ->).
  swap_paths_ok H.
  all: try (exfalso; apply Hne; reflexivity).
  all: destruct Hok as (Hchain & Hfrom & Hto & Hdiff & Hamt & s & Hs & Hs0 & Hs1 & Es).
  all: repeat match goal with
         | |- _ /\ _ => split
         end; try assumption.
  all: try (intros s0 E0; rewrite E0 in Es; subst s0; split; assumption).
  all: cbn [rev app]; do 2 eexists; reflexivity.
Qed.

Lemma swap_validates_first_witness :
  exists rsp post,
    snd (run (Swap.swap {| Swap.chain := "bsc"; Swap.fromToken := "BNB";
                           Swap.toToken := "USDC"; Swap.amount := "0.5";
                           Swap.slippage := None |}) Sample.env)
    = (ConfigureLiFiSdk "bsc", rsp) :: post.
Proof.
  destruct (run (Swap.swap {| Swap.chain := "bsc"; Swap.fromToken := "BNB";
                              Swap.toToken := "USDC"; Swap.amount := "0.5";
                              Swap.slippage := None |}) Sample.env)
    as [r tr] eqn:E.
  destruct (swap_validates_first _ _ _ _ E) as (_ & _ & _ & _ & _ & _ & H).
  - vm_compute in E. injection E as _ <-. discriminate.
  - exact H.
Defined.

Lemma positive_slippage s :
  Qle_bool s 0 = false -> Swap.effectiveSlippage (Some s) = s.
Proof.
  intros H. unfold Swap.effectiveSlippage.
  destruct (Qeq_bool s 0) eqn:E; [|reflexivity].
  apply Qeq_bool_iff in E.
  assert (Hle : Qle_bool s 0 = true).
  { apply Qle_bool_iff. rewrite E. apply Qle_refl. }
  rewrite Hle in H. discriminate H.
Qed.

(** The routes of a swap are requested on BSC for the amount of the
    request in wei, from the address of the wallet, with the slippage of
    the request (5% when it has none), and for the tokens of the request
    where they are addresses.  A route is executed at most once, as the
    last call of the swap, right after a request that answered at least one
    route. *)
Theorem swap_routes env p r tr :
  run (Swap.swap p) env = (r, tr) ->
  (count isExecuteRoute tr <= 1)%nat
  /\ (forall rsp, In (ExecuteRoute, rsp) tr ->
        exists pre c f t amt a s n,
          tr = pre ++ [(GetRoutes c f t amt a s, RLen (S n)); (ExecuteRoute, rsp)])
  /\ (forall c f t amt a s rsp,
        In (GetRoutes c f t amt a s, rsp) tr ->
        c = "bsc"
        /\ parseUnits env (Swap.amount p) 18 = Ok amt
        /\ a = address env
        /\ s = match Swap.slippage p with
               | Some s0 => s0
               | None => Swap.DEFAULT_SLIPPAGE
               end
        /\ (Js.startsWith (Swap.fromToken p) "0x" = true -> f = Swap.fromToken p)
        /\ (Js.startsWith (Swap.toToken p) "0x" = true -> t = Swap.toToken p)).
Proof.
  intros H.
  apply run_inv in H. destruct H as (h & H & ->).
  swap_paths_ok H.
  all: cbn [rev app]; unfold count, calls;
    cbn [map filter fst isExecuteRoute length].
  all: split; [lia|].
  all: try destruct Hok as (_ & _ & _ & _ & _ & s & Hs & Hs0 & _ & Es).
  all: try (rewrite Hs, (positive_slippage _ Hs0) in * ).
  all: try match goal with
           | Hn : (?n =? 0)%nat = false |- _ =>
               destruct n; [discriminate Hn|]
           end.
  all: split;
    [ intros ? Hin; in_cases Hin;
      match goal with
      | |- exists pre c f t amt a s n, ?l = _ =>
          match l with
          | context [(GetRoutes ?c ?f ?t ?amt ?a ?s, RLen (S ?n))] =>
              exists (removelast (removelast l)), c, f, t, amt, a, s, n;
              reflexivity
          end
      end
    | intros ? ? ? ? ? ? ? Hin; in_cases Hin;
      tests;
      (repeat match goal with
              | |- _ /\ _ => split
              end);
      first [ reflexivity | assumption
            | intros Hx; congruence ] ].
Qed.

Lemma swap_routes_witness :
  (count isExecuteRoute
     (snd (run (Swap.swap {| Swap.chain := "bsc"; Swap.fromToken := "BNB";
                             Swap.toToken := "USDC"; Swap.amount := "0.5";
                             Swap.slippage := None |}) Sample.env)) <= 1)%nat.
Proof.
  exact (proj1 (swap_routes Sample.env _ _ _ (surjective_pairing _))).
Defined.

(** A swap returns only after the execution of a route whose process has a
    status other than FAILED; it returns the hash of that process, and the
    chain, the tokens and the amount of the request as they were given. *)
Theorem swap_success env p r tr resp :
  run (Swap.swap p) env = (r, tr) ->
  r = Ok resp ->
  (exists pr,
      In (ExecuteRoute, RProcess (Some pr)) tr
      /\ Js.truthy (status pr) = true
      /\ status pr <> "FAILED"
      /\ Swap.txHash resp = processTxHash pr)
  /\ Swap.resp_chain resp = "bsc"
  /\ Swap.resp_fromToken resp = Swap.fromToken p
  /\ Swap.resp_toToken resp = Swap.toToken p
  /\ Swap.resp_amount resp = Swap.amount p.
Proof.
  intros H E.
  apply run_inv in H. destruct H as (h & H & ->).
  swap_paths_ok H.
  all: try discriminate E.
  all: injection E as <-.
  all: tests.
  all: cbn [Swap.txHash Swap.resp_chain Swap.resp_fromToken Swap.resp_toToken
            Swap.resp_amount].
  all: split; [|repeat split; reflexivity].
  all: eexists; split; [rewrite <- in_rev; cbn [In]; left; reflexivity|].
  all: split; [assumption|].
  all: split; [apply String.eqb_neq; assumption|reflexivity].
Qed.

Lemma swap_success_witness :
  exists resp,
    fst (run (Swap.swap {| Swap.chain := "bsc"; Swap.fromToken := "BNB";
                           Swap.toToken := "USDC"; Swap.amount := "0.5";
                           Swap.slippage := None |}) Sample.env) = Ok resp
    /\ Swap.txHash resp = Sample.HASH
    /\ Swap.resp_fromToken resp = "BNB".
Proof.
  destruct (run (Swap.swap {| Swap.chain := "bsc"; Swap.fromToken := "BNB";
                              Swap.toToken := "USDC"; Swap.amount := "0.5";
                              Swap.slippage := None |}) Sample.env)
    as [r tr] eqn:E.
  assert (Er : exists resp, r = Ok resp /\ Swap.txHash resp = Sample.HASH).
  { vm_compute in E. injection E as <- _. eexists. split; reflexivity. }
  destruct Er as (resp & Er & Eh).
  destruct (swap_success _ _ _ _ resp E Er) as (_ & _ & Hf & _).
  exists resp. repeat split; assumption.
Defined.

(** When neither the text nor the model names the output token of a swap,
    the handler chooses a stablecoin the text mentions whose spelling is
    not that of the input token, else USDC for the input token [BNB] and BNB
    for any other: one of USDC, USDT, BUSD and BNB, spelled otherwise than
    the input token.  The comparison is by spelling: the token chosen is
    another token, whatever the case, when the input token is in upper
    case, as a token captured from the text is; an input token of the model
    output in another case can be chosen again, and for the input token
    [bnb] with no stablecoin mentioned the handler chooses [BNB]. *)
Theorem swap_fallback_differs outputToken fromToken mentions :
  truthyString outputToken = None ->
  In (Swap.resolveToToken "" outputToken fromToken mentions)
     ["USDC"; "USDT"; "BUSD"; "BNB"]
  /\ Swap.resolveToToken "" outputToken fromToken mentions <> fromToken
  /\ (Js.toUpperCase fromToken = fromToken ->
      Js.toUpperCase (Swap.resolveToToken "" outputToken fromToken mentions)
      <> Js.toUpperCase fromToken)
  /\ Swap.resolveToToken "" outputToken "bnb" (fun _ => false) = "BNB".
Proof.
  intros Hn.
  assert (Hin : In (Swap.resolveToToken "" outputToken fromToken mentions)
                   ["USDC"; "USDT"; "BUSD"; "BNB"]
                /\ Swap.resolveToToken "" outputToken fromToken mentions
                   <> fromToken).
  { unfold Swap.resolveToToken. cbn [Js.truthy String.eqb negb].
    rewrite Hn.
    destruct (find _ _) as [t|] eqn:Hfind.
    - apply find_some in Hfind. destruct Hfind as (Hin & Ht).
      apply andb_true_iff in Ht. destruct Ht as (Ht & _).
      apply negb_true_iff, String.eqb_neq in Ht.
      split; [|exact Ht]. cbn [In] in *. tauto.
    - destruct (fromToken =? "BNB")%string eqn:E.
      + apply String.eqb_eq in E. subst. split; [cbn [In]; tauto|discriminate].
      + apply String.eqb_neq in E. split; [cbn [In]; tauto|congruence]. }
  destruct Hin as (Hin & Hne).
  split; [exact Hin|]. split; [exact Hne|]. split.
  - intros Hup. rewrite Hup.
    assert (Hto : Js.toUpperCase
                    (Swap.resolveToToken "" outputToken fromToken mentions)
                  = Swap.resolveToToken "" outputToken fromToken mentions).
    { cbn [In] in Hin.
      destruct Hin as [<-|[<-|[<-|[<-|[]]]]]; reflexivity. }
    rewrite Hto. exact Hne.
  - unfold Swap.resolveToToken. cbn [Js.truthy String.eqb negb].
    rewrite Hn. reflexivity.
Qed.

Lemma swap_fallback_differs_witness :
  Swap.resolveToToken "" Js.Null "USDC" (fun t => (t =? "USDC")%string) = "BNB"
  /\ Js.toUpperCase
       (Swap.resolveToToken "" Js.Null "USDC" (fun t => (t =? "USDC")%string))
     <> Js.toUpperCase "USDC".
Proof.
  destruct (swap_fallback_differs Js.Null "USDC" (fun t => (t =? "USDC")%string)
              eq_refl) as (_ & _ & Hcase & _).
  split; [reflexivity|exact (Hcase eq_refl)].
Defined.



(** An amount of a swap that does not parse, or that is not positive, is
    reported as an invalid swap amount, before any call: the error the
    validation raises for an amount that is not positive is caught and
    replaced within the validation itself. *)
Theorem swap_invalid_amount env p r tr :
  run (Swap.swap p) env = (r, tr) ->
  (Swap.chain p = "" \/ Swap.chain p = "bsc") ->
  Js.truthy (Swap.fromToken p) = true ->
  Js.truthy (Swap.toToken p) = true ->
  Swap.fromToken p <> Swap.toToken p ->
  Js.truthy (Swap.amount p) = true ->
  (forall amt, parseUnits env (Swap.amount p) 18 = Ok amt -> amt <= 0) ->
  r = Throw ("Invalid swap amount: " ^^ Swap.amount p
             ^^ ". Please provide a valid number.")
  /\ tr = [].
Proof.
  intros H Hc Hf Ht Hd Ha Hamt.
  apply run_inv in H. destruct H as (h & H & ->).
  unfold Swap.swap in H. fx_norm H.
  destruct (Swap.validateAndNormalizeParams p env []) as [[p'|e] h'] eqn:Hv.
  - exfalso.
    destruct (swap_validate_ok _ _ _ _ _ Hv) as (_ & _ & _ & _ & (amt & Hp & Hpos) & _).
    specialize (Hamt amt Hp). lia.
  - fx_norm H. injection H as <- <-.
    unfold Swap.validateAndNormalizeParams in Hv.
    apply String.eqb_neq in Hd.
    assert (Hchain : (if negb (Js.truthy (Swap.chain p)) then true
                      else (Swap.chain p =? "bsc")%string) = true).
    { destruct Hc as [E|E]; rewrite E; reflexivity. }
    fx_paths Hv.
    all: tests; try congruence.
    all: try (rewrite Hf in *; discriminate).
    all: try (rewrite Ht in *; discriminate).
    all: try (rewrite Ha in *; discriminate).
    all: try (split; reflexivity).
    all: match goal with
         | Hn : (Swap.chain _ =? "bsc")%string = false,
           Hy : Js.truthy (Swap.chain _) = true |- _ =>
             rewrite Hy, Hn in Hchain; discriminate Hchain
         | Hpos : (?a <=? 0) = false |- _ =>
             specialize (Hamt a ltac:(first [assumption | reflexivity]));
             apply Z.leb_gt in Hpos; lia
         end.
Qed.

Lemma swap_invalid_amount_witness :
  run (Swap.swap {| Swap.chain := "bsc"; Swap.fromToken := "BNB";
                    Swap.toToken := "USDC"; Swap.amount := "0";
                    Swap.slippage := None |}) Sample.env
  = (Throw "Invalid swap amount: 0. Please provide a valid number.", []).
Proof.
  destruct (run (Swap.swap {| Swap.chain := "bsc"; Swap.fromToken := "BNB";
                              Swap.toToken := "USDC"; Swap.amount := "0";
                              Swap.slippage := None |}) Sample.env)
    as [r tr] eqn:E.
  destruct (swap_invalid_amount _ _ _ _ E) as (-> & ->);
    try reflexivity; try discriminate.
  - right. reflexivity.
  - intros amt Hp. vm_compute in Hp. injection Hp as <-. lia.
Defined.

(* ================================================================== *)
(** * Further properties of the bridge *)
(* ================================================================== *)

(** What the validation of a bridge has checked when it passes. *)
Lemma bridge_validate_ok env p h p' h' :
  Bridge.validateAndNormalizeParams p env h = (Ok p', h') ->
  Js.truthy (Bridge.toChain p) = true
  /\ Bridge.isSupported (Bridge.defaultChain (Bridge.fromChain p))
       (Bridge.toChain p) = true
  /\ Js.truthy (Bridge.amount p) = true
  /\ parsesPositive env (Bridge.amount p) = true
  /\ (forall a, Bridge.toAddress p = Some a -> Js.truthy a = true ->
                Js.startsWith a "0x" = true /\ String.length a = 42%nat)
  /\ (forall t, Bridge.fromToken p = Some t -> Js.truthy t = true ->
                Bridge.isBnb (Some t) = false ->
                Bridge.defaultChain (Bridge.fromChain p) = "bsc" ->
                exists t2, Bridge.toToken p = Some t2
                           /\ Js.startsWith t2 "0x" = true).
Proof.
  intros H. unfold Bridge.validateAndNormalizeParams in H.
  fx_paths H.
  all: try discriminate.
  all: tests.
  all: try discriminate.
  all: repeat match goal with
         | |- _ /\ _ => split
         end; try assumption.
  all: try (intros a E; first [discriminate E | injection E as <-]; intros Ha;
            match goal with
            | Hx : Js.truthy ?x && _ = false |- _ =>
                rewrite Ha in Hx; cbn [andb] in Hx; tests;
                split; [assumption|apply Nat.eqb_eq; assumption]
            end).
  all: intros t Et Htt Hb Hdc.
  all: first
         [ eexists; split; [reflexivity|assumption]
         | exfalso;
           match goal with
           | Hs : Bridge.isSupported _ _ = true |- _ =>
               unfold Bridge.isSupported in Hs;
               rewrite Hdc in Hs; cbn in Hs;
               rewrite orb_false_r in Hs
           end;
           rewrite Et in *; cbn [Js.truthy_opt] in *;
           rewrite ?Htt, ?Hb, ?Hdc in *;
           repeat match goal with
                  | Hs : (Bridge.toChain _ =? "opBNB")%string = true |- _ =>
                      rewrite Hs in *; clear Hs
                  end;
           cbn in *; congruence ].
Qed.

(** All the paths of a bridge, with what the validation has checked. *)
Ltac bridge_paths_ok H :=
  unfold Bridge.bridge, Bridge.ensureAllowance, Bridge.simulateAndWrite in H;
  fx_paths H;
  try discriminate;
  try match goal with
      | Hv : Bridge.validateAndNormalizeParams _ _ _ = (Ok _, _) |- _ =>
          let Hok := fresh "Hok" in
          pose proof (bridge_validate_ok _ _ _ _ _ Hv) as Hok
      end;
  repeat match goal with
         | Hv : Bridge.validateAndNormalizeParams _ _ _ = (_, _) |- _ =>
             apply bridge_validate_inv in Hv;
             let Hh := fresh "Hh" in
             let Hp := fresh "Hp" in
             destruct Hv as (Hh & Hp); subst
         end;
  try match goal with
      | Hp : forall p', Ok ?a = Ok p' -> _ |- _ =>
          let Hval := fresh "Hval" in
          let Hsup := fresh "Hsup" in
          destruct (Hp a eq_refl) as (Hval & Hsup); clear Hp
      end.

(** A bridge makes its first call, the switch to the source chain (BSC
    when the request names none), only for a request that is valid: the
    destination chain is given, the direction is one of the two supported,
    the amount is a positive number, a recipient that is given is a string
    of 42 characters that starts with 0x, and an ERC20 token that leaves BSC
    comes with a destination token that starts with 0x. *)
Theorem bridge_validates_first env p r tr :
  run (Bridge.bridge p) env = (r, tr) ->
  tr <> [] ->
  Js.truthy (Bridge.toChain p) = true
  /\ Bridge.isSupported (Bridge.defaultChain (Bridge.fromChain p))
       (Bridge.toChain p) = true
  /\ Js.truthy (Bridge.amount p) = true
  /\ parsesPositive env (Bridge.amount p) = true
  /\ (forall a, Bridge.toAddress p = Some a -> Js.truthy a = true ->
                Js.startsWith a "0x" = true /\ String.length a = 42%nat)
  /\ (forall t, Bridge.fromToken p = Some t -> Js.truthy t = true ->
                Bridge.isBnb (Some t) = false ->
                Bridge.defaultChain (Bridge.fromChain p) = "bsc" ->
                exists t2, Bridge.toToken p = Some t2
                           /\ Js.startsWith t2 "0x" = true)
  /\ exists rsp post,
       tr = (SwitchChain (Bridge.defaultChain (Bridge.fromChain p)), rsp) :: post.
Proof.
  intros H Hne.
  apply run_inv in H. destruct H as (h & H & ->).
  bridge_paths_ok H.
  all: try (exfalso; apply Hne; reflexivity).
  all: destruct Hok as (H1 & H2 & H3 & H4 & H5 & H6).
  all: repeat match goal with
         | |- _ /\ _ => split
         end; try assumption.
  all: subst a; proj_bridge; cbn [rev app]; do 2 eexists; reflexivity.
Qed.

(** Every contract call a bridge submits comes right after its simulation,
    which succeeded, with the same function, arguments and value; a bridge
    submits at most one, and a bridge that returns has submitted exactly
    one, whose hash it returns, with the chains and the amount of the
    request and, as the recipient, the recipient of the request or else the
    address of the wallet. *)
Theorem bridge_simulates_what_it_submits env p r tr :
  run (Bridge.bridge p) env = (r, tr) ->
  simulatedWrites None tr
  /\ (count isWrite tr <= 1)%nat
  /\ (forall resp, r = Ok resp ->
        count isWrite tr = 1%nat
        /\ (exists c a f args v,
               In (WriteContract c a f args v, RStr (Bridge.txHash resp)) tr)
        /\ Bridge.resp_fromChain resp = Bridge.defaultChain (Bridge.fromChain p)
        /\ Bridge.resp_toChain resp = Bridge.toChain p
        /\ Bridge.resp_amount resp = Bridge.amount p
        /\ Bridge.recipient resp
           = Bridge.opt_or (Bridge.toAddress p) (address env)).
Proof.
  intros H.
  apply run_inv in H. destruct H as (h & H & ->).
  bridge_paths_ok H.
  all: try (exfalso; unfold Bridge.isSupported in Hsup;
            match goal with
            | Ha : _ && _ = false, Hb : _ && _ = false |- _ =>
                rewrite Ha, Hb in Hsup; discriminate Hsup
            end).
  all: try subst a; proj_bridge.
  all: cbn [rev app]; unfold count, calls;
    cbn [map filter fst isWrite length simulatedWrites].
  all: split; [repeat split|].
  all: split; [lia|].
  all: intros resp E; first [discriminate E | injection E as <-].
  all: cbn [Bridge.resp_fromChain Bridge.resp_toChain Bridge.resp_amount
            Bridge.recipient Bridge.txHash].
  all: split; [reflexivity|].
  all: split; [do 5 eexists; cbn [In]; repeat (first [left; reflexivity | right])|].
  all: repeat split; try reflexivity.
  all: match goal with
       | Hx : Bridge.toAddress _ = _ |- _ => rewrite Hx; reflexivity
       end.
Qed.

Lemma bridge_validates_first_witness :
  exists rsp post,
    snd (run (Bridge.bridge
                {| Bridge.fromChain := ""; Bridge.toChain := "opBNB";
                   Bridge.fromToken := None; Bridge.toToken := None;
                   Bridge.amount := "1"; Bridge.toAddress := None |}) Sample.env)
    = (SwitchChain "bsc", rsp) :: post.
Proof.
  destruct (run (Bridge.bridge
                   {| Bridge.fromChain := ""; Bridge.toChain := "opBNB";
                      Bridge.fromToken := None; Bridge.toToken := None;
                      Bridge.amount := "1"; Bridge.toAddress := None |}) Sample.env)
    as [r tr] eqn:E.
  destruct (bridge_validates_first _ _ _ _ E) as (_ & _ & _ & _ & _ & _ & H).
  - vm_compute in E. injection E as _ <-. discriminate.
  - exact H.
Defined.

Lemma bridge_simulates_what_it_submits_witness :
  count isWrite
    (snd (run (Bridge.bridge
                 {| Bridge.fromChain := "opBNB"; Bridge.toChain := "bsc";
                    Bridge.fromToken := Some Sample.USDT_OPBNB;
                    Bridge.toToken := None;
                    Bridge.amount := "1"; Bridge.toAddress := None |})
            Sample.env)) = 1%nat.
Proof.
  destruct (run (Bridge.bridge
                   {| Bridge.fromChain := "opBNB"; Bridge.toChain := "bsc";
                      Bridge.fromToken := Some Sample.USDT_OPBNB;
                      Bridge.toToken := None;
                      Bridge.amount := "1"; Bridge.toAddress := None |})
              Sample.env) as [r tr] eqn:E.
  destruct (bridge_simulates_what_it_submits _ _ _ _ E) as (_ & _ & H).
  assert (Er : exists resp, r = Ok resp).
  { vm_compute in E. injection E as <- _. eexists. reflexivity. }
  destruct Er as (resp & ->).
  exact (proj1 (H resp eq_refl)).
Defined.

(** The bridge of an ERC20 token submits the deposit of the token for the
    destination token to the L1 bridge, to the recipient when the request
    has one, or the withdrawal of the token from the L2 bridge with the
    delegation fee read from it as value; the amount is the amount of the
    request in the decimals read from the token. *)
Theorem bridge_erc20_submission env p r tr t :
  run (Bridge.bridge p) env = (r, tr) ->
  Bridge.fromToken p = Some t ->
  Bridge.isBnb (Some t) = false ->
  forall c a f args v rsp,
    In (WriteContract c a f args v, rsp) tr ->
    exists d amt,
      In (ReadContract c t "decimals" [], RInt d) tr
      /\ parseUnits env (Bridge.amount p) d = Ok amt
      /\ ((a = Bridge.L1_BRIDGE_ADDRESS /\ f = "depositERC20"
           /\ Bridge.toAddress p = None
           /\ args = [AStr t; AStr (Bridge.opt_str (Bridge.toToken p));
                      AInt amt; AInt 1; AStr "0x"]
           /\ v = None)
          \/ (a = Bridge.L1_BRIDGE_ADDRESS /\ f = "depositERC20To"
              /\ (exists to,
                     Bridge.toAddress p = Some to
                     /\ args = [AStr t; AStr (Bridge.opt_str (Bridge.toToken p));
                                AStr to; AInt amt; AInt 1; AStr "0x"])
              /\ v = None)
          \/ (a = Bridge.L2_BRIDGE_ADDRESS /\ f = "withdraw"
              /\ args = [AStr t; AInt amt; AInt 1; AStr "0x"]
              /\ exists fee,
                   In (ReadContract c Bridge.L2_BRIDGE_ADDRESS "delegationFee" [],
                       RInt fee) tr
                   /\ v = Some fee)).
Proof.
  intros H Ht Hb c a f args v rsp Hin.
  apply run_inv in H. destruct H as (h & H & ->).
  apply in_rev in Hin.
  bridge_paths_ok H.
  all: in_cases Hin.
  all: rewrite Ht in *; rewrite ?Hb in *; cbn [Bridge.isBnb] in *.
  all: try subst a0; proj_bridge.
  all: try discriminate.
  all: repeat match goal with
         | Hs : Some _ = Some _ |- _ => injection Hs as <-
         | Hs : None = Some _ |- _ => discriminate Hs
         end.
  all: try congruence.
  all: cbn [rev app].
  all: do 2 eexists.
  all: split; [cbn [In]; repeat (first [left; reflexivity | right])|].
  all: split; [eassumption|].
  all: first
         [ left; repeat split; first [reflexivity | assumption]
         | right; left; repeat split;
           first [reflexivity | eexists; split; [eassumption|reflexivity]]
         | right; right; repeat split; try reflexivity;
           eexists; split;
           [cbn [In]; repeat (first [left; reflexivity | right])|reflexivity] ].
Qed.

Lemma bridge_erc20_submission_witness :
  exists d amt,
    In (ReadContract "opBNB" Sample.USDT_OPBNB "decimals" [], RInt d)
       (snd (run (Bridge.bridge
                    {| Bridge.fromChain := "opBNB"; Bridge.toChain := "bsc";
                       Bridge.fromToken := Some Sample.USDT_OPBNB;
                       Bridge.toToken := None;
                       Bridge.amount := "1"; Bridge.toAddress := None |})
               Sample.env))
    /\ parseUnits Sample.env "1" d = Ok amt.
Proof.
  assert (Hin : In (WriteContract "opBNB" Bridge.L2_BRIDGE_ADDRESS "withdraw"
                      [AStr Sample.USDT_OPBNB; AInt 1000000000000000000;
                       AInt 1; AStr "0x"] (Some 2000000000000000),
                    RStr Sample.HASH)
                   (snd (run (Bridge.bridge
                                {| Bridge.fromChain := "opBNB";
                                   Bridge.toChain := "bsc";
                                   Bridge.fromToken := Some Sample.USDT_OPBNB;
                                   Bridge.toToken := None;
                                   Bridge.amount := "1";
                                   Bridge.toAddress := None |})
                           Sample.env))).
  { vm_compute. tauto. }
  destruct (bridge_erc20_submission Sample.env
              {| Bridge.fromChain := "opBNB"; Bridge.toChain := "bsc";
                 Bridge.fromToken := Some Sample.USDT_OPBNB;
                 Bridge.toToken := None;
                 Bridge.amount := "1"; Bridge.toAddress := None |}
              _ _ Sample.USDT_OPBNB
              (surjective_pairing _) eq_refl eq_refl _ _ _ _ _ _ Hin)
    as (d & amt & Hd & Hamt & _).
  exists d, amt. split; [exact Hd|exact Hamt].
Defined.

(** A withdrawal from opBNB names no recipient: whatever the recipient of
    the request, every contract call submitted is [withdraw] on the L2
    bridge, with a token, an amount, 1 and 0x as its arguments, while the
    response of a bridge that returns names the recipient of the
    request. *)
Theorem bridge_withdrawal_names_no_recipient env p r tr :
  run (Bridge.bridge p) env = (r, tr) ->
  Bridge.defaultChain (Bridge.fromChain p) = "opBNB" ->
  (forall c a f args v rsp,
      In (WriteContract c a f args v, rsp) tr ->
      c = "opBNB" /\ a = Bridge.L2_BRIDGE_ADDRESS /\ f = "withdraw"
      /\ exists token amt, args = [AStr token; AInt amt; AInt 1; AStr "0x"])
  /\ (forall resp to,
        r = Ok resp -> Bridge.toAddress p = Some to -> Js.truthy to = true ->
        Bridge.recipient resp = to).
Proof.
  intros H Hc.
  apply run_inv in H. destruct H as (h & H & ->).
  bridge_paths_ok H.
  all: try subst a; proj_bridge.
  all: rewrite Hc in *.
  all: try match goal with
           | Hx : ("opBNB" =? "bsc")%string && _ = true |- _ =>
               cbn in Hx; discriminate Hx
           end.
  all: split;
    [ intros ? ? ? ? ? ? Hin; apply in_rev in Hin; in_cases Hin;
      (repeat split; try reflexivity); do 2 eexists; reflexivity
    | intros resp to E Hto Htr; first [discriminate E | injection E as <-];
      cbn [Bridge.recipient]; rewrite Hto; unfold Bridge.opt_or, Js.or_else;
      rewrite Htr; reflexivity ].
Qed.

Lemma bridge_withdrawal_names_no_recipient_witness :
  exists resp,
    fst (run (Bridge.bridge
                {| Bridge.fromChain := "opBNB"; Bridge.toChain := "bsc";
                   Bridge.fromToken := None; Bridge.toToken := None;
                   Bridge.amount := "1"; Bridge.toAddress := Some Sample.ALICE |})
           Sample.env) = Ok resp
    /\ Bridge.recipient resp = Sample.ALICE.
Proof.
  destruct (run (Bridge.bridge
                   {| Bridge.fromChain := "opBNB"; Bridge.toChain := "bsc";
                      Bridge.fromToken := None; Bridge.toToken := None;
                      Bridge.amount := "1"; Bridge.toAddress := Some Sample.ALICE |})
              Sample.env) as [r tr] eqn:E.
  destruct (bridge_withdrawal_names_no_recipient _ _ _ _ E eq_refl) as (_ & H).
  assert (Er : exists resp, r = Ok resp).
  { vm_compute in E. injection E as <- _. eexists. reflexivity. }
  destruct Er as (resp & ->).
  exists resp. split; [reflexivity|].
  exact (H resp Sample.ALICE eq_refl eq_refl eq_refl).
Defined.



(* ================================================================== *)
(** * Further properties of the stake operations *)
(* ================================================================== *)

Lemma claimLoop_events env n :
  forall idx st h r h',
    Stake.claimLoop n idx st env h = (r, h') ->
    exists evs, h' = evs ++ h /\ claimEvents env (rev evs).
Proof.
  induction n as [|n IH]; intros idx st h r h' H.
  - cbn in H. injection H as <- <-. exists []. split; [reflexivity|].
    split; [reflexivity|]. split; [intros prev; exact I|].
    intros c a f args v rsp [].
  - cbn [Stake.claimLoop] in H.
    fx_paths H.
    2-6: new_events; cbn [rev app];
      (split; [reflexivity|]);
      (split; [intros prev; cbn [simulatedWrites fst]; repeat split|]);
      intros ? ? ? ? ? ? Hin; in_cases Hin;
      (repeat split; try reflexivity);
      do 2 eexists; (split; [reflexivity|]); cbn [In]; left; reflexivity.
    destruct (IH _ _ _ _ _ H) as (evs & -> & Hfree & Hsim & Hw).
    match goal with
    | |- exists e, evs ++ ?l = e ++ h /\ _ =>
        let pre := prefix_of l h in
        exists (evs ++ pre); split; [rewrite <- app_assoc; reflexivity|]
    end.
    rewrite rev_app_distr. cbn [rev app].
    split; [reflexivity|].
    split.
    + intros prev. cbn [simulatedWrites fst].
      repeat split. apply Hsim.
    + intros c a' f args v rsp Hin. cbn [In] in Hin.
      destruct Hin as [Hin|[Hin|[Hin|[Hin|Hin]]]];
        try discriminate Hin.
      * injection Hin as <- <- <- <- <- <-.
        repeat split. do 2 eexists. split; [reflexivity|].
        cbn [In]. left. reflexivity.
      * destruct (Hw _ _ _ _ _ _ Hin) as (-> & -> & -> & -> & i & amt & -> & Hr).
        repeat split. exists i, amt. split; [reflexivity|].
        cbn [In]. tauto.
Qed.

(** The normalisation of a run of a stake operation. *)
Ltac sx_norm H :=
  fx_norm H;
  cbn [StakeAction.chain StakeAction.action StakeAction.amount
       StakeAction.response StakeAction.txHash StakeAction.resp_action
       StakeAction.resp_amount] in H.

Ltac solve_operation :=
  unfold StakeAction.operationEvents;
  new_events; cbn [rev app];
  (split; [reflexivity|]);
  (split; [intros prev; cbn [simulatedWrites fst]; repeat split|]);
  intros ? ? Hin; in_cases Hin; cbn [StakeAction.submission]; try exact I.

Lemma doDeposit_events env amount h r h' :
  StakeAction.doDeposit amount env h = (r, h') ->
  StakeAction.operationEvents env "deposit" amount h h'.
Proof.
  intros H. unfold StakeAction.doDeposit in H. fx_paths H.
  all: solve_operation.
  all: split; [reflexivity|]; split; [reflexivity|].
  all: left; repeat split; eexists; split; [eassumption|reflexivity].
Qed.

Lemma doWithdraw_events env amount h r h' :
  Stake.doWithdraw amount env h = (r, h') ->
  StakeAction.operationEvents env "withdraw" amount h h'.
Proof.
  intros H. withdraw_paths H.
  all: solve_operation.
  all: split; [reflexivity|]; split; [reflexivity|].
  all: right; left; repeat split; eexists; split; [reflexivity|].
  all: split; [apply Z.leb_gt; assumption|].
  all: tests;
    match goal with
    | Ht : Js.truthy _ = _ |- _ => rewrite Ht
    end;
    first [assumption | cbn [In]; repeat (first [left; reflexivity | right])].
Qed.

Lemma doClaim_events env h r h' :
  Stake.doClaim env h = (r, h') ->
  StakeAction.operationEvents env "claim" "" h h'.
Proof.
  intros H. unfold Stake.doClaim in H. fx_paths H.
  all: try match goal with
           | Hl : Stake.claimLoop _ _ _ _ _ = (_, _) |- _ =>
               apply claimLoop_events in Hl;
               destruct Hl as (evs & -> & Hfree & Hsim & Hw)
           end.
  all: unfold StakeAction.operationEvents.
  all: try (new_events; cbn [rev app];
            (split; [reflexivity|]);
            (split; [intros prev; cbn [simulatedWrites fst]; repeat split|]);
            intros ? ? Hin; in_cases Hin; exact I).
  all: match goal with
       | |- exists e, ?evs ++ ?l = e ++ ?h /\ _ =>
           let pre := prefix_of l h in
           exists (evs ++ pre); split; [rewrite <- app_assoc; reflexivity|]
       end.
  all: rewrite rev_app_distr; cbn [rev app].
  all: split; [reflexivity|].
  all: split; [intros prev; cbn [simulatedWrites fst]; split; [exact I|apply Hsim]|].
  all: intros c rsp Hin; cbn [In] in Hin; destruct Hin as [Hin|Hin];
    [injection Hin as <- <-; exact I|].
  all: destruct c; try exact I.
  all: destruct (Hw _ _ _ _ _ _ Hin) as (-> & -> & -> & -> & i & amt & -> & Hr).
  all: cbn [StakeAction.submission]; split; [reflexivity|]; split; [reflexivity|].
  all: right; right; repeat split; exists i, amt; split; [reflexivity|].
  all: cbn [In]; right; exact Hr.
Qed.

(** What the validation of the stake parameters has checked when it
    passes, and what it returns. *)
Lemma stake_validate_inv env p h r h' :
  StakeAction.validateStakeParams p env h = (r, h') ->
  h' = h
  /\ forall p', r = Ok p' ->
       p' = {| StakeAction.chain := "bsc";
               StakeAction.action := StakeAction.action p;
               StakeAction.amount := StakeAction.amount p |}
       /\ (StakeAction.chain p = "" \/ StakeAction.chain p = "bsc")
       /\ In (StakeAction.action p) StakeAction.validActions
       /\ (StakeAction.action p = "deposit" ->
           Js.truthy (StakeAction.amount p) = true)
       /\ (Js.truthy (StakeAction.amount p) = true ->
           parsesPositive env (StakeAction.amount p) = true).
Proof.
  intros H. unfold StakeAction.validateStakeParams in H.
  paths_with sx_norm H.
  all: split; [reflexivity|]; intros p' E;
    first [discriminate E | injection E as <-].
  all: tests.
  all: split;
    [ match goal with
      | Hc : (StakeAction.chain _ =? "bsc")%string = true |- _ =>
          apply String.eqb_eq in Hc; rewrite Hc; reflexivity
      | _ => reflexivity
      end |].
  all: split;
    [ first [ left; apply truthy_false; assumption
            | right; apply String.eqb_eq; assumption ] |].
  all: split;
    [ match goal with
      | He : existsb _ _ = true |- _ =>
          apply existsb_exists in He; destruct He as (x & Hin & Hx);
          apply String.eqb_eq in Hx; rewrite Hx; exact Hin
      end |].
  all: split; [|intros Hx; first [assumption | discriminate Hx]].
  all: intros Hd; first [reflexivity | idtac].
  all: match goal with
       | Hx : (StakeAction.action _ =? "deposit")%string && _ = false |- _ =>
           rewrite Hd in Hx; cbn in Hx; discriminate Hx
       end.
Qed.

Lemma submission_mono env action amount l l' c :
  incl l l' ->
  StakeAction.submission env action amount l c ->
  StakeAction.submission env action amount l' c.
Proof.
  intros Hi. destruct c; try exact (fun H => H).
  cbn [StakeAction.submission].
  intros (Hc & Ha & [H|[H|H]]); (split; [exact Hc|]); (split; [exact Ha|]).
  - left. exact H.
  - right. left. destruct H as (H1 & H2 & H3 & amt & H4 & H5 & H6).
    repeat split; try assumption. exists amt. repeat split; try assumption.
    destruct (Js.truthy amount); [exact H6|apply Hi; exact H6].
  - right. right. destruct H as (H1 & H2 & H3 & idx & amt & H4 & H5).
    repeat split; try assumption. exists idx, amt. split; [exact H4|].
    apply Hi. exact H5.
Qed.

Lemma claim_submission env amount amount' l c :
  StakeAction.submission env "claim" amount l c ->
  StakeAction.submission env "claim" amount' l c.
Proof.
  destruct c; try exact (fun H => H).
  cbn [StakeAction.submission].
  intros (Hc & Ha & [H|[H|H]]); (split; [exact Hc|]); (split; [exact Ha|]).
  - destruct H as (H & _). discriminate H.
  - destruct H as (H & _). discriminate H.
  - right. right. exact H.
Qed.

(** All the paths of a stake, the operations folded. *)
Ltac stake_paths H :=
  unfold StakeAction.stake in H;
  paths_with sx_norm H;
  repeat match goal with
         | Hv : StakeAction.validateStakeParams _ _ _ = (_, _) |- _ =>
             apply stake_validate_inv in Hv;
             let Hh := fresh "Hh" in
             let Hp := fresh "Hp" in
             destruct Hv as (Hh & Hp); subst
         end;
  try match goal with
      | Hp : forall p', Ok ?a = Ok p' -> _ |- _ =>
          let Hval := fresh "Hval" in
          let Hchain := fresh "Hchain" in
          let Hact := fresh "Hact" in
          let Hdep := fresh "Hdep" in
          let Hpos := fresh "Hpos" in
          destruct (Hp a eq_refl) as (Hval & Hchain & Hact & Hdep & Hpos);
          clear Hp; subst a;
          cbn [StakeAction.chain StakeAction.action StakeAction.amount] in *
      end.

(** A stake operation makes its first call, the switch to BSC, only for a
    request that is valid: the chain is BSC or not given, the action is a
    deposit, a withdrawal or a claim, a deposit has an amount, and an
    amount that is given is a positive number. *)
Theorem stake_validates_first env p r tr :
  run (StakeAction.stake p) env = (r, tr) ->
  tr <> [] ->
  (StakeAction.chain p = "" \/ StakeAction.chain p = "bsc")
  /\ In (StakeAction.action p) ["deposit"; "withdraw"; "claim"]
  /\ (StakeAction.action p = "deposit" -> Js.truthy (StakeAction.amount p) = true)
  /\ (Js.truthy (StakeAction.amount p) = true ->
      parsesPositive env (StakeAction.amount p) = true)
  /\ exists rsp post, tr = (SwitchChain "bsc", rsp) :: post.
Proof.
  intros H Hne.
  apply run_inv in H. destruct H as (h & H & ->).
  stake_paths H.
  all: try (exfalso; apply Hne; reflexivity).
  all: repeat match goal with
         | |- _ /\ _ => split
         end; try assumption.
  all: try match goal with
           | Hd : StakeAction.doDeposit _ _ _ = (_, _) |- _ =>
               apply doDeposit_events in Hd; destruct Hd as (evs & -> & _)
           | Hd : Stake.doWithdraw _ _ _ = (_, _) |- _ =>
               apply doWithdraw_events in Hd; destruct Hd as (evs & -> & _)
           | Hd : Stake.doClaim _ _ = (_, _) |- _ =>
               apply doClaim_events in Hd; destruct Hd as (evs & -> & _)
           end.
  all: rewrite ?rev_app_distr; cbn [rev app]; do 2 eexists; reflexivity.
Qed.

(** A stake operation submits only what the request asks for: every
    contract call it submits comes right after its simulation, which
    succeeded, and is made on the Lista DAO contract on BSC; it is the
    deposit of the amount, the request of a withdrawal of the amount (of
    the slisBNB balance read, when the request has no amount), or the
    claim of a request whose status was read as claimable, according to the
    action of the request. *)
Theorem stake_submits_what_is_asked env p r tr :
  run (StakeAction.stake p) env = (r, tr) ->
  simulatedWrites None tr
  /\ forall c rsp,
       In (c, rsp) tr ->
       StakeAction.submission env (StakeAction.action p) (StakeAction.amount p)
         tr c.
Proof.
  intros H.
  apply run_inv in H. destruct H as (h & H & ->).
  stake_paths H.
  all: cbn [rev app].
  all: try (split; [cbn; tauto|intros c rsp Hin; in_cases Hin; exact I]).
  all: match goal with
       | Hd : StakeAction.doDeposit _ _ _ = (_, _) |- _ =>
           apply doDeposit_events in Hd;
           destruct Hd as (evs & -> & Hfree & Hsim & Hw)
       | Hd : Stake.doWithdraw _ _ _ = (_, _) |- _ =>
           apply doWithdraw_events in Hd;
           destruct Hd as (evs & -> & Hfree & Hsim & Hw)
       | Hd : Stake.doClaim _ _ = (_, _) |- _ =>
           apply doClaim_events in Hd;
           destruct Hd as (evs & -> & Hfree & Hsim & Hw)
       end.
  all: tests;
    repeat match goal with
           | He : (_ =? _)%string = true |- _ => apply String.eqb_eq in He
           end.
  all: rewrite rev_app_distr; cbn [rev app].
  all: split; [cbn [simulatedWrites fst]; split; [exact I|apply Hsim]|].
  all: intros c rsp Hin; cbn [In] in Hin; destruct Hin as [Hin|Hin];
    [injection Hin as <- <-; exact I|].
  all: eapply submission_mono; [apply incl_tl, incl_refl|].
  all: match goal with
       | He : StakeAction.action _ = _ |- _ => rewrite He
       end.
  all: try (eapply Hw; exact Hin).
  all: eapply claim_submission, Hw; exact Hin.
Qed.

Lemma stake_validates_first_witness :
  exists rsp post,
    snd (run (StakeAction.stake
                {| StakeAction.chain := "bsc"; StakeAction.action := "deposit";
                   StakeAction.amount := "1" |}) Sample.env)
    = (SwitchChain "bsc", rsp) :: post.
Proof.
  destruct (run (StakeAction.stake
                   {| StakeAction.chain := "bsc"; StakeAction.action := "deposit";
                      StakeAction.amount := "1" |}) Sample.env)
    as [r tr] eqn:E.
  destruct (stake_validates_first _ _ _ _ E) as (_ & _ & _ & _ & H).
  - vm_compute in E. injection E as _ <-. discriminate.
  - exact H.
Defined.

Lemma stake_submits_what_is_asked_witness :
  StakeAction.submission Sample.env "deposit" "1"
    (snd (run (StakeAction.stake
                 {| StakeAction.chain := "bsc"; StakeAction.action := "deposit";
                    StakeAction.amount := "1" |}) Sample.env))
    (WriteContract "bsc" Stake.LISTA_DAO "deposit" []
       (Some 1000000000000000000)).
Proof.
  assert (Hin : In (WriteContract "bsc" Stake.LISTA_DAO "deposit" []
                      (Some 1000000000000000000), RStr Sample.HASH)
                   (snd (run (StakeAction.stake
                                {| StakeAction.chain := "bsc";
                                   StakeAction.action := "deposit";
                                   StakeAction.amount := "1" |}) Sample.env))).
  { vm_compute. tauto. }
  exact (proj2 (stake_submits_what_is_asked Sample.env _ _ _
                  (surjective_pairing _)) _ _ Hin).
Defined.

Lemma hexDigits_prefix n :
  forall s d, StakeAction.hexDigits n s = Some d ->
              String.length d = n /\ String.prefix d s = true.
Proof.
  induction n as [|n IH]; intros s d H; cbn [StakeAction.hexDigits] in H.
  - injection H as <-. split; [reflexivity|]. destruct s; reflexivity.
  - destruct s as [|c s]; [discriminate|].
    destruct (StakeAction.isHexDigit c); [|discriminate].
    destruct (StakeAction.hexDigits n s) as [d'|] eqn:E; [|discriminate].
    injection H as <-. destruct (IH _ _ E) as (Hl & Hp).
    split; [cbn; rewrite Hl; reflexivity|].
    cbn [String.prefix]. destruct (ascii_dec c c); [exact Hp|contradiction].
Qed.

Lemma matchTxHash_shape s :
  forall h, StakeAction.matchTxHash s = Some h ->
            String.length h = 66%nat
            /\ Js.startsWith h "0x" = true
            /\ Js.includes s ("Transaction Hash: " ^^ h) = true.
Proof.
  induction s as [|c s IH]; intros h H.
  - cbn in H. discriminate H.
  - cbn [StakeAction.matchTxHash] in H.
    destruct (String.prefix StakeAction.HASH_LABEL (String c s)) eqn:Hp.
    + destruct (StakeAction.hexDigits 64 _) as [d|] eqn:Hd.
      * injection H as <-.
        destruct (hexDigits_prefix _ _ _ Hd) as (Hl & Hpre).
        split; [cbn; rewrite Hl; reflexivity|].
        split; [unfold Js.startsWith; clear; destruct d; reflexivity|].
        apply includes_prefix.
        rewrite (prefix_app _ _ Hp).
        exact (prefix_of_app StakeAction.HASH_LABEL d _ Hpre).
      * destruct (IH _ H) as (H1 & H2 & H3).
        repeat split; try assumption. apply includes_tail. exact H3.
    + destruct (IH _ H) as (H1 & H2 & H3).
      repeat split; try assumption. apply includes_tail. exact H3.
Qed.

(** The response of a stake operation names the action and the amount of
    the request; its transaction hash, when it has one, is a string of 66
    characters that starts with 0x and that the text of the response gives
    after the words Transaction Hash. *)
Theorem stake_response_hash env p r tr resp :
  run (StakeAction.stake p) env = (r, tr) ->
  r = Ok resp ->
  StakeAction.resp_action resp = StakeAction.action p
  /\ StakeAction.resp_amount resp = StakeAction.amount p
  /\ forall h, StakeAction.txHash resp = Some h ->
               String.length h = 66%nat
               /\ Js.startsWith h "0x" = true
               /\ Js.includes (StakeAction.response resp)
                    ("Transaction Hash: " ^^ h) = true.
Proof.
  intros H E.
  apply run_inv in H. destruct H as (h0 & H & ->).
  stake_paths H.
  all: try discriminate E.
  all: injection E as <-.
  all: cbn [StakeAction.resp_action StakeAction.resp_amount StakeAction.txHash
            StakeAction.response].
  all: split; [reflexivity|]; split; [reflexivity|].
  all: intros h Hh; first [discriminate Hh | exact (matchTxHash_shape _ _ Hh)].
Qed.

Lemma stake_response_hash_witness :
  exists resp,
    fst (run (StakeAction.stake
                {| StakeAction.chain := "bsc"; StakeAction.action := "deposit";
                   StakeAction.amount := "1" |}) Sample.env) = Ok resp
    /\ StakeAction.txHash resp = Some Sample.HASH
    /\ String.length Sample.HASH = 66%nat.
Proof.
  destruct (run (StakeAction.stake
                   {| StakeAction.chain := "bsc"; StakeAction.action := "deposit";
                      StakeAction.amount := "1" |}) Sample.env)
    as [r tr] eqn:E.
  assert (Er : exists resp, r = Ok resp /\ StakeAction.txHash resp = Some Sample.HASH).
  { vm_compute in E. injection E as <- _. eexists. split; reflexivity. }
  destruct Er as (resp & Er & Eh).
  destruct (stake_response_hash _ _ _ _ resp E Er) as (_ & _ & H).
  exists resp. split; [exact Er|]. split; [exact Eh|].
  exact (proj1 (H _ Eh)).
Defined.

(** A withdrawal of nothing fails before anything is approved or
    submitted: when the request has no amount and the slisBNB balance read
    is zero, or when its amount is zero, the operation throws that no
    tokens are available; it has made no call but the read of the
    balance. *)
Theorem withdraw_of_nothing env amount r tr :
  run (Stake.doWithdraw amount) env = (r, tr) ->
  hasAccount env = true ->
  (amount = "" ->
   forall bal,
     ask_int env [] (ReadContract "bsc" Stake.SLIS_BNB "balanceOf"
                       [AStr (address env)]) = Ok bal ->
     bal <= 0 ->
     r = Throw "No slisBNB tokens available to withdraw"
     /\ tr = [(ReadContract "bsc" Stake.SLIS_BNB "balanceOf" [AStr (address env)],
               RInt bal)])
  /\ (Js.truthy amount = true ->
      forall amt,
        parseUnits env amount 18 = Ok amt -> amt <= 0 ->
        r = Throw "No slisBNB tokens available to withdraw" /\ tr = []).
Proof.
  intros H Hacc.
  unfold run, Stake.doWithdraw in H. fx_norm H. rewrite Hacc in H. fx_norm H.
  split.
  - intros -> bal Hb Hle. cbn [Js.truthy String.eqb negb] in H.
    rewrite Hb in H. fx_norm H.
    apply Z.leb_le in Hle. rewrite Hle in H. fx_norm H.
    injection H as <- <-. split; reflexivity.
  - intros Ht amt Hp Hle. rewrite Ht in H. fx_norm H.
    rewrite Hp in H. fx_norm H.
    apply Z.leb_le in Hle. rewrite Hle in H. fx_norm H.
    injection H as <- <-. split; reflexivity.
Qed.

Lemma withdraw_of_nothing_witness :
  run (Stake.doWithdraw "")
    (Sample.chainEnv 0 0 [] (Js.Obj []) Sample.noMatch)
  = (Throw "No slisBNB tokens available to withdraw",
     [(ReadContract "bsc" Stake.SLIS_BNB "balanceOf" [AStr Sample.WALLET],
       RInt 0)]).
Proof.
  destruct (run (Stake.doWithdraw "")
              (Sample.chainEnv 0 0 [] (Js.Obj []) Sample.noMatch))
    as [r tr] eqn:E.
  destruct (withdraw_of_nothing _ _ _ _ E eq_refl) as (H & _).
  destruct (H eq_refl 0 eq_refl ltac:(lia)) as (-> & ->).
  reflexivity.
Defined.

(** A text that holds the word unstake holds the word stake. *)
Lemma unstake_includes_stake s :
  Js.includes s "unstake" = true -> Js.includes s "stake" = true.
Proof.
  intros H. destruct (includes_split _ _ H) as (a & b & ->).
  change ("unstake" ^^ b) with ("un" ^^ "stake" ^^ b).
  rewrite <- append_assoc. apply includes_append.
Qed.

(** The keywords of the stake handler are tried in the order stake,
    deposit, withdraw, unstake, undelegate, claim, on the text in lower
    case; so when no pattern matches, a text that holds the word unstake is
    taken for a deposit, as any text that holds stake or deposit, whatever
    action the model names; the amount of that deposit is the first number
    of the text when it has one. *)
Theorem unstake_is_read_as_a_deposit env ms promptLower contentAction contentAmount :
  StakeAction.matched2 (StakeAction.stakeMatch ms) = false ->
  StakeAction.matched2 (StakeAction.withdrawMatch ms) = false ->
  StakeAction.claimMatch ms = None ->
  Js.includes promptLower "unstake" = true ->
  StakeAction.directAction ms promptLower = "deposit"
  /\ StakeAction.resolveAction (StakeAction.directAction ms promptLower)
       contentAction = "deposit"
  /\ (forall l, StakeAction.amountMatch ms = Some l -> (2 <= length l)%nat ->
                Js.truthy (Js.group l 1) = true ->
                StakeAction.resolveAmount env "deposit"
                  (StakeAction.directAmount ms promptLower) contentAmount
                = Js.group l 1).
Proof.
  intros Hs Hw Hc Hu.
  assert (Hd : StakeAction.directAction ms promptLower = "deposit").
  { unfold StakeAction.directAction, StakeAction.patternAction,
      StakeAction.keywordAction.
    rewrite Hs, Hw, Hc. cbn [fst Js.truthy String.eqb negb].
    rewrite (unstake_includes_stake _ Hu). reflexivity. }
  split; [exact Hd|]. split.
  - rewrite Hd. reflexivity.
  - intros l Hl Hlen Ht.
    unfold StakeAction.directAmount. rewrite Hd.
    unfold StakeAction.patternAction. rewrite Hs, Hw, Hc. cbn [snd].
    change (Js.truthy "") with false.
    change (("deposit" =? "claim")%string) with false. cbn [negb andb].
    unfold StakeAction.matched2. rewrite Hl.
    apply Nat.leb_le in Hlen. rewrite Hlen.
    unfold StakeAction.resolveAmount.
    change (("deposit" =? "claim")%string) with false.
    cbn [negb Js.group_opt]. rewrite Ht. reflexivity.
Qed.

Lemma unstake_is_read_as_a_deposit_witness :
  StakeAction.directAction
    {| StakeAction.stakeMatch := None; StakeAction.withdrawMatch := None;
       StakeAction.claimMatch := None;
       StakeAction.amountMatch := Some ["5"; "5"] |} "unstake 5 bnb" = "deposit"
  /\ In (WriteContract "bsc" Stake.LISTA_DAO "deposit" []
           (Some 5000000000000000000), RStr Sample.HASH)
        (snd (run (StakeAction.handler (Sample.chat "unstake 5 bnb")
                     {| StakeAction.stakeMatch := None;
                        StakeAction.withdrawMatch := None;
                        StakeAction.claimMatch := None;
                        StakeAction.amountMatch := Some ["5"; "5"] |} true true)
                (Sample.chainEnv 9000000000000000000 0 []
                   (Js.Obj [("action", Js.Str "withdraw")]) Sample.noMatch))).
Proof.
  split.
  - exact (proj1 (unstake_is_read_as_a_deposit Sample.env
                    {| StakeAction.stakeMatch := None;
                       StakeAction.withdrawMatch := None;
                       StakeAction.claimMatch := None;
                       StakeAction.amountMatch := Some ["5"; "5"] |}
                    "unstake 5 bnb"
                    Js.Undefined Js.Undefined eq_refl eq_refl eq_refl eq_refl)).
  - vm_compute. tauto.
Defined.

(** The transfer and the stake handlers refuse a message whose source is
    neither the direct one nor the user of the chat client: they return
    false and make no call on the runtime, the model or the wallet; the
    callback, when there is one, is told so. *)
Theorem handlers_refuse_other_sources env msg ms st cb :
  source msg <> "direct" ->
  source msg <> "client_chat:user" ->
  run (Transfer.handler msg st cb) env
  = (Ok false,
     if cb then [(Callback "I can't do that for you."
                    (Js.Obj [("error", Js.Str "Transfer not allowed")]), RUnit)]
     else [])
  /\ run (StakeAction.handler msg ms st cb) env
     = (Ok false,
        if cb then [(Callback "I can't do that for you."
                       (Js.Obj [("error", Js.Str "Stake not allowed")]), RUnit)]
        else []).
Proof.
  intros H1 H2.
  apply String.eqb_neq in H1, H2.
  unfold run, Transfer.handler, StakeAction.handler.
  cbv beta iota zeta delta [bind ret ask emit].
  rewrite H1, H2. cbn [orb negb].
  destruct cb; split; reflexivity.
Qed.

Lemma handlers_refuse_other_sources_witness :
  run (Transfer.handler {| promptText := Sample.TRANSFER_TEXT; source := "discord" |}
         true false) Sample.env
  = (Ok false, []).
Proof.
  exact (proj1 (handlers_refuse_other_sources Sample.env
                  {| promptText := Sample.TRANSFER_TEXT; source := "discord" |}
                  {| StakeAction.stakeMatch := None;
                     StakeAction.withdrawMatch := None;
                     StakeAction.claimMatch := None;
                     StakeAction.amountMatch := None |}
                  true false ltac:(discriminate) ltac:(discriminate))).
Defined.

Lemma stake_failureMessage_truthy m :
  Js.truthy m = true -> Js.truthy (StakeAction.failureMessage m) = true.
Proof.
  intros H. unfold StakeAction.failureMessage. branches;
    first [exact H | reflexivity].
Qed.

(** The operations of a stake throw [Error]s only, but for what viem's
    [parseEther] throws on the amount of a deposit: each runs its calls in
    a [try] whose [catch] block reads the message of what it caught, and
    the deposit parses its amount once before. *)
Lemma doDeposit_throws_error amount env h r e h' :
  StakeAction.doDeposit amount env h = (r, h') -> r = Throw e ->
  (exists m, e = JsError m) \/ parseUnits env amount 18 = Throw e.
Proof.
  intros H E. unfold StakeAction.doDeposit in H. fx_paths H.
  all: first [discriminate E | injection E as <-].
  all: first [left; eexists; reflexivity | right; congruence].
Qed.

Lemma doWithdraw_throws_error amount env h r e h' :
  Stake.doWithdraw amount env h = (r, h') -> r = Throw e -> exists m, e = JsError m.
Proof.
  intros H E. unfold Stake.doWithdraw in H. fx_paths H.
  all: first [discriminate E | injection E as <-].
  all: eexists; reflexivity.
Qed.

Lemma doClaim_throws_error env h r e h' :
  Stake.doClaim env h = (r, h') -> r = Throw e -> exists m, e = JsError m.
Proof.
  intros H E. unfold Stake.doClaim in H. fx_paths H.
  all: first [discriminate E | injection E as <-].
  all: eexists; reflexivity.
Qed.

Lemma validateStakeParams_throws_error p env h r e h' :
  StakeAction.validateStakeParams p env h = (r, h') -> r = Throw e ->
  exists m, e = JsError m.
Proof.
  intros H E. unfold StakeAction.validateStakeParams in H. fx_paths H.
  all: first [discriminate E | injection E as <-].
  all: eexists; reflexivity.
Qed.

(** How the guarded part of the stake handler ends, by how the stake
    operation ends.  When the operation returns, it returns true after the
    success response.  When the operation throws an [Error], it returns
    false after exactly one more event when there is a callback: the
    callback is told [Stake failed: <message>], with a content whose error
    is that message and which repeats the action and the amount, the message
    being the one the handler makes of the message of the error (of [Error]
    when the error has none) and never empty.  When the operation throws
    [null] or [undefined], which it does only when the switch to BSC was
    rejected with it or viem's [parseEther] threw it on the amount of a
    deposit, the [catch] block throws a [TypeError] and nothing is told. *)
Theorem stake_handler_catches p cb env h ra ha :
  StakeAction.stake p env h = (ra, ha) ->
  match ra with
  | Ok _ =>
      fst (StakeAction.execute p cb env h) = Ok true
      /\ if cb
         then exists text content,
                snd (StakeAction.execute p cb env h)
                = (Callback text content, RUnit) :: ha
         else snd (StakeAction.execute p cb env h) = ha
  | Throw (JsError message) =>
      let explained := StakeAction.failureMessage (Js.or_else message "Error") in
      Js.truthy explained = true
      /\ StakeAction.execute p cb env h
         = (Ok false,
            if cb
            then (Callback ("Stake failed: " ^^ explained)
                    (Js.Obj [("error", Js.Str explained);
                             ("action", Js.Str (StakeAction.action p));
                             ("amount",
                              StakeAction.amountValue (StakeAction.amount p))]),
                  RUnit) :: ha
            else ha)
  | Throw nullish =>
      StakeAction.execute p cb env h = (Throw (JsError TYPE_ERROR_NULL), ha)
      /\ ((exists rest, ha = (SwitchChain "bsc", RThrow nullish) :: rest)
          \/ (StakeAction.action p = "deposit"
              /\ parseUnits env (StakeAction.amount p) 18 = Throw nullish))
  end.
Proof.
  intros H.
  assert (Hraw : forall e, ra = Throw e -> e = JsNull \/ e = JsUndefined ->
                 (exists rest, ha = (SwitchChain "bsc", RThrow e) :: rest)
                 \/ (StakeAction.action p = "deposit"
                     /\ parseUnits env (StakeAction.amount p) 18 = Throw e)).
  { intros e E Hn. unfold StakeAction.stake in H. paths_with sx_norm H.
    all: first [discriminate E | injection E as <-].
    all: try (exfalso;
              match goal with
              | Hd : StakeAction.validateStakeParams _ _ _ = (Throw _, _) |- _ =>
                  destruct (validateStakeParams_throws_error _ _ _ _ _ _ Hd
                              eq_refl) as (m & ->)
              end;
              destruct Hn as [Hn|Hn]; discriminate Hn).
    all: repeat match goal with
                | Hv : StakeAction.validateStakeParams _ _ _ = (_, _) |- _ =>
                    apply stake_validate_inv in Hv;
                    destruct Hv as (_ & Hv);
                    destruct (Hv _ eq_refl) as (-> & _); clear Hv;
                    cbn [StakeAction.chain StakeAction.action
                         StakeAction.amount] in *
                end.
    all: try (destruct Hn as [Hn|Hn]; discriminate Hn).
    all: try match goal with
             | Hd : StakeAction.doDeposit _ _ _ = (Throw _, _),
               Hq : (StakeAction.action _ =? "deposit")%string = true |- _ =>
                 destruct (doDeposit_throws_error _ _ _ _ _ _ Hd eq_refl)
                   as [(m & ->)|Hparse];
                 [ exfalso; destruct Hn as [Hn|Hn]; discriminate Hn
                 | right; split;
                   [apply String.eqb_eq; exact Hq | exact Hparse] ]
             end.
    all: try (exfalso;
              match goal with
              | Hd : Stake.doWithdraw _ _ _ = (Throw _, _) |- _ =>
                  destruct (doWithdraw_throws_error _ _ _ _ _ _ Hd eq_refl) as (m & ->)
              | Hd : Stake.doClaim _ _ = (Throw _, _) |- _ =>
                  destruct (doClaim_throws_error _ _ _ _ _ Hd eq_refl) as (m & ->)
              end;
              destruct Hn as [Hn|Hn]; discriminate Hn).
    all: left; eexists; reflexivity. }
  unfold StakeAction.execute.
  cbv beta iota zeta delta [bind try_catch ret throw emit error_text ask].
  rewrite H.
  destruct ra as [resp|[message| |]]; cbn [fst snd].
  - split; [reflexivity|].
    destruct cb; [do 2 eexists; reflexivity|reflexivity].
  - split.
    + apply stake_failureMessage_truthy, or_else_truthy.
    + destruct cb; reflexivity.
  - split; [reflexivity|]. apply (Hraw JsNull eq_refl). left; reflexivity.
  - split; [reflexivity|]. apply (Hraw JsUndefined eq_refl). right; reflexivity.
Qed.

Lemma stake_handler_catches_witness :
  StakeAction.stake
    {| StakeAction.chain := "bsc"; StakeAction.action := "fly";
       StakeAction.amount := "" |} Sample.env []
  = (Throw (JsError "Invalid staking action: fly. Valid actions are: deposit, withdraw, claim"),
     [])
  /\ StakeAction.execute
       {| StakeAction.chain := "bsc"; StakeAction.action := "fly";
          StakeAction.amount := "" |} true Sample.env []
     = (Ok false,
        [(Callback
            "Stake failed: Invalid staking action: fly. Valid actions are: deposit, withdraw, claim"
            (Js.Obj [("error",
                      Js.Str "Invalid staking action: fly. Valid actions are: deposit, withdraw, claim");
                     ("action", Js.Str "fly");
                     ("amount", Js.Undefined)]),
          RUnit)]).
Proof.
  split; [reflexivity|].
  exact (proj2 (stake_handler_catches
                  {| StakeAction.chain := "bsc"; StakeAction.action := "fly";
                     StakeAction.amount := "" |} true Sample.env [] _ []
                  eq_refl)).
Defined.

(* ================================================================== *)
(** * Further properties of the faucet *)
(* ================================================================== *)

Lemma awaitHash_resolved events :
  forall h n,
    Faucet.awaitHash events = (Faucet.Resolved h, n) ->
    n = 0%nat
    /\ Js.startsWith h "0x" = true
    /\ exists response h0,
         In (Faucet.Message response) events
         /\ Faucet.success response = false
         /\ Faucet.hash response = Some h0
         /\ Js.truthy h0 = true
         /\ h = if Js.startsWith h0 "0x" then h0 else "0x" ^^ h0.
Proof.
  induction events as [|ev events IH]; intros h n H; cbn [Faucet.awaitHash] in H.
  - discriminate H.
  - assert (Hrest : forall h n,
               Faucet.awaitHash events = (Faucet.Resolved h, n) ->
               n = 0%nat
               /\ Js.startsWith h "0x" = true
               /\ exists response h0,
                    In (Faucet.Message response) (ev :: events)
                    /\ Faucet.success response = false
                    /\ Faucet.hash response = Some h0
                    /\ Js.truthy h0 = true
                    /\ h = if Js.startsWith h0 "0x" then h0 else "0x" ^^ h0).
    { intros h' n' H'. destruct (IH _ _ H') as (Hn & Hp & r & h0 & Hin & Hr).
      split; [exact Hn|]. split; [exact Hp|].
      exists r, h0. split; [right; exact Hin|exact Hr]. }
    destruct ev as [|m|response|]; try discriminate H; try exact (Hrest _ _ H).
    destruct (Faucet.success response) eqn:Hs; [exact (Hrest _ _ H)|].
    destruct (Faucet.hash response) as [h0|] eqn:Hh.
    + destruct (Js.truthy h0) eqn:Ht.
      * injection H as <- <-. split; [reflexivity|].
        split.
        -- destruct (Js.startsWith h0 "0x") eqn:Hx; [exact Hx|].
           unfold Js.startsWith. clear. destruct h0; reflexivity.
        -- exists response, h0. repeat split; try assumption. left. reflexivity.
      * destruct (Js.truthy (Faucet.error response));
          [discriminate H|exact (Hrest _ _ H)].
    + destruct (Js.truthy (Faucet.error response));
        [discriminate H|exact (Hrest _ _ H)].
Qed.

(** The hash the faucet request returns always starts with 0x: it is the
    hash of a message received after the request was sent, which was not an
    acknowledgement, with 0x put before it when it had none.  The request
    was sent once and the socket closed once. *)
Theorem faucet_hash_is_prefixed events h ws :
  Faucet.session events = (Faucet.Resolved h, ws) ->
  Js.startsWith h "0x" = true
  /\ ws = {| Faucet.sends := 1; Faucet.closes := 1 |}
  /\ exists response h0,
       In (Faucet.Message response) events
       /\ Faucet.success response = false
       /\ Faucet.hash response = Some h0
       /\ Js.truthy h0 = true
       /\ h = if Js.startsWith h0 "0x" then h0 else "0x" ^^ h0.
Proof.
  unfold Faucet.session.
  induction events as [|ev events IH]; cbn [Faucet.awaitOpen].
  - discriminate.
  - assert (Hrest :
      (let (outcome, ws0) := Faucet.awaitOpen events in
       match outcome with
       | Faucet.Pending => (Faucet.Pending, ws0)
       | _ => (outcome, {| Faucet.sends := Faucet.sends ws0;
                           Faucet.closes := S (Faucet.closes ws0) |})
       end) = (Faucet.Resolved h, ws) ->
      Js.startsWith h "0x" = true
      /\ ws = {| Faucet.sends := 1; Faucet.closes := 1 |}
      /\ exists response h0,
           In (Faucet.Message response) (ev :: events)
           /\ Faucet.success response = false
           /\ Faucet.hash response = Some h0
           /\ Js.truthy h0 = true
           /\ h = if Js.startsWith h0 "0x" then h0 else "0x" ^^ h0).
    { intros H. destruct (IH H) as (Hp & Hw & r & h0 & Hin & Hr).
      split; [exact Hp|]. split; [exact Hw|].
      exists r, h0. split; [right; exact Hin|exact Hr]. }
    destruct ev as [|m|response|]; try exact Hrest.
    + destruct (Faucet.awaitHash events) as [o n] eqn:E.
      destruct o as [h'|m|]; try discriminate.
      intros [= <- <-].
      destruct (awaitHash_resolved _ _ _ E) as (-> & Hp & r & h0 & Hin & Hr).
      split; [exact Hp|]. split; [reflexivity|].
      exists r, h0. split; [right; exact Hin|exact Hr].
    + discriminate.
Qed.

Lemma faucet_hash_is_prefixed_witness :
  Faucet.session
    [Faucet.Open;
     Faucet.Message {| Faucet.success := true; Faucet.hash := None;
                       Faucet.error := "" |};
     Faucet.Message {| Faucet.success := false; Faucet.hash := Some "ab12";
                       Faucet.error := "" |}]
  = (Faucet.Resolved "0xab12", {| Faucet.sends := 1; Faucet.closes := 1 |})
  /\ Js.startsWith "0xab12" "0x" = true.
Proof.
  split; [reflexivity|].
  exact (proj1 (faucet_hash_is_prefixed
                  [Faucet.Open;
                   Faucet.Message {| Faucet.success := true; Faucet.hash := None;
                                     Faucet.error := "" |};
                   Faucet.Message {| Faucet.success := false;
                                     Faucet.hash := Some "ab12";
                                     Faucet.error := "" |}]
                  "0xab12" _ eq_refl)).
Defined.

Lemma awaitHash_closes events o n :
  Faucet.awaitHash events = (o, n) ->
  (n <= 1)%nat
  /\ (n = 1%nat -> o = Faucet.Rejected "Faucet request timeout")
  /\ (o = Faucet.Pending -> n = 0%nat).
Proof.
  revert o n. induction events as [|ev events IH]; intros o n H;
    cbn [Faucet.awaitHash] in H.
  - injection H as <- <-. repeat split; try lia; discriminate.
  - destruct ev as [|m|response|]; try exact (IH _ _ H).
    + injection H as <- <-. repeat split; try lia; discriminate.
    + destruct (Faucet.success response); [exact (IH _ _ H)|].
      destruct (Faucet.hash response) as [h0|].
      * destruct (Js.truthy h0).
        -- injection H as <- <-. repeat split; try lia; discriminate.
        -- destruct (Js.truthy (Faucet.error response)); [|exact (IH _ _ H)].
           injection H as <- <-. repeat split; try lia; discriminate.
      * destruct (Js.truthy (Faucet.error response)); [|exact (IH _ _ H)].
        injection H as <- <-. repeat split; try lia; discriminate.
    + injection H as <- <-. repeat split; try lia; discriminate.
Qed.

(** The use of the socket.  The request is sent at most once, and nothing
    is returned unless it was sent.  The socket is closed once when the
    request settles, whatever the outcome, and once more, before that, only
    when the timer fired: it is closed twice on a timeout and only then,
    and not at all while the request is pending. *)
Theorem faucet_socket_use events o ws :
  Faucet.session events = (o, ws) ->
  (Faucet.sends ws <= 1)%nat
  /\ (Faucet.sends ws = 0%nat -> forall h, o <> Faucet.Resolved h)
  /\ (o = Faucet.Pending -> Faucet.closes ws = 0%nat)
  /\ (o <> Faucet.Pending -> (1 <= Faucet.closes ws <= 2)%nat)
  /\ (Faucet.closes ws = 2%nat ->
      o = Faucet.Rejected "Faucet request timeout" /\ Faucet.sends ws = 1%nat).
Proof.
  unfold Faucet.session. revert o ws.
  induction events as [|ev events IH]; intros o ws; cbn [Faucet.awaitOpen].
  - intros [= <- <-]. cbn. repeat split; try lia; try discriminate; congruence.
  - destruct ev as [|m|response|]; try exact (IH o ws).
    + destruct (Faucet.awaitHash events) as [o' n] eqn:E.
      destruct (awaitHash_closes _ _ _ E) as (Hle & H1 & Hp).
      destruct o' as [h|m|]; intros [= <- <-]; cbn [Faucet.sends Faucet.closes].
      * assert (Hn : n = 0%nat).
        { destruct n as [|[|n]]; [reflexivity| |lia].
          specialize (H1 eq_refl). discriminate H1. }
        subst n. repeat split; try lia; try discriminate.
      * split; [lia|]. split; [discriminate|]. split; [discriminate|].
        split; [lia|]. intros Hn. split; [|reflexivity].
        apply H1. lia.
      * rewrite (Hp eq_refl). repeat split; try lia; try discriminate; congruence.
    + intros [= <- <-]. cbn. repeat split; try lia; try discriminate.
Qed.

Lemma faucet_socket_use_witness :
  Faucet.closes
    (snd (Faucet.session
            [Faucet.Open;
             Faucet.Message {| Faucet.success := false; Faucet.hash := None;
                               Faucet.error := "rate limited" |}])) = 1%nat.
Proof.
  destruct (Faucet.session
              [Faucet.Open;
               Faucet.Message {| Faucet.success := false; Faucet.hash := None;
                                 Faucet.error := "rate limited" |}])
    as [o ws] eqn:E.
  destruct (faucet_socket_use _ _ _ E) as (_ & _ & _ & H & _).
  vm_compute in E. injection E as <- <-. reflexivity.
Defined.

Lemma awaitHash_error acks m rest :
  forallb Faucet.settlesNothing acks = true ->
  Faucet.awaitHash (acks ++ Faucet.Error m :: rest)
  = (Faucet.Rejected ("WebSocket error occurred: " ^^ m), 0%nat).
Proof.
  induction acks as [|ev acks IH]; intros H; [reflexivity|].
  cbn [forallb] in H. apply andb_prop in H. destruct H as [Hev Hacks].
  destruct ev as [|m'|response|]; cbn [Faucet.settlesNothing] in Hev;
    try discriminate Hev; cbn [app Faucet.awaitHash].
  - exact (IH Hacks).
  - destruct (Faucet.success response); [exact (IH Hacks)|].
    cbn [orb] in Hev. apply andb_prop in Hev. destruct Hev as [Hh He].
    apply negb_true_iff in Hh. apply negb_true_iff in He.
    destruct (Faucet.hash response) as [h|]; cbn [Js.truthy_opt] in Hh.
    + rewrite Hh, He. exact (IH Hacks).
    + rewrite He. exact (IH Hacks).
Qed.

(** An error of the socket rejects the request and closes the socket once.
    Before the socket is open the request is rejected with the error as it
    is, and nothing has been sent; once the request is sent and nothing has
    settled it, the error is rejected as a WebSocket error, with its
    message. *)
Theorem faucet_socket_error pre acks m rest :
  forallb Faucet.unheardBeforeOpen pre = true ->
  forallb Faucet.settlesNothing acks = true ->
  Faucet.session (pre ++ Faucet.Error m :: rest)
  = (Faucet.Rejected m, {| Faucet.sends := 0; Faucet.closes := 1 |})
  /\ Faucet.session (pre ++ Faucet.Open :: acks ++ Faucet.Error m :: rest)
     = (Faucet.Rejected ("WebSocket error occurred: " ^^ m),
        {| Faucet.sends := 1; Faucet.closes := 1 |}).
Proof.
  intros Hpre Hacks. unfold Faucet.session.
  rewrite !(awaitOpen_skip _ _ Hpre). cbn [Faucet.awaitOpen].
  rewrite (awaitHash_error _ _ _ Hacks). split; reflexivity.
Qed.

Lemma faucet_socket_error_witness :
  Faucet.session [Faucet.Error "connect ECONNREFUSED"]
  = (Faucet.Rejected "connect ECONNREFUSED",
     {| Faucet.sends := 0; Faucet.closes := 1 |}).
Proof.
  exact (proj1 (faucet_socket_error [] [] "connect ECONNREFUSED" []
                  eq_refl eq_refl)).
Defined.

Lemma faucet_validate_inv env p h r h' :
  Faucet.validateAndNormalizeParams p env h = (r, h') ->
  (forall e, r = Throw e ->
     h' = h
     /\ ~ In (Js.or_else (Faucet.token p) "BNB") Faucet.SUPPORTED_TOKENS
     /\ e = "Unsupported token: " ^^ Js.or_else (Faucet.token p) "BNB"
            ^^ ". Supported tokens are: BNB, BTC, BUSD, DAI, ETH, USDC")
  /\ (forall p', r = Ok p' ->
        Faucet.token p' = Js.or_else (Faucet.token p) "BNB"
        /\ In (Faucet.token p') Faucet.SUPPORTED_TOKENS
        /\ ((Faucet.toAddress p = "" /\ Faucet.toAddress p' = address env
             /\ h' = h)
            \/ (Js.startsWith (Faucet.toAddress p) "0x" = true
                /\ String.length (Faucet.toAddress p) = 42%nat
                /\ Faucet.toAddress p' = Faucet.toAddress p /\ h' = h)
            \/ (h' = (FormatAddress (Faucet.toAddress p),
                      RStr (Faucet.toAddress p')) :: h)
            \/ (exists e,
                   h' = (FormatAddress (Faucet.toAddress p), RThrow e) :: h
                   /\ Faucet.toAddress p' = address env))).
Proof.
  intros H. unfold Faucet.validateAndNormalizeParams in H.
  assert (Etok : (if negb (Js.truthy (Faucet.token p)) then "BNB"
                  else Faucet.token p) = Js.or_else (Faucet.token p) "BNB").
  { unfold Js.or_else. destruct (Js.truthy (Faucet.token p)); reflexivity. }
  rewrite Etok in H. clear Etok.
  set (tok := Js.or_else (Faucet.token p) "BNB") in *.
  paths_with ltac:(fun H => fx_norm H; cbn [Faucet.token Faucet.toAddress] in H) H.
  all: tests.
  all: split;
    [ intros e E;
      first
        [ discriminate E
        | injection E as <-;
          (split; [reflexivity|]); (split; [|reflexivity]);
          intros Hin;
          match goal with
          | Hx : existsb _ _ = false |- _ =>
              assert (Hy : existsb (String.eqb tok) Faucet.SUPPORTED_TOKENS = true)
                by (apply existsb_exists; exists tok; split;
                    [exact Hin|apply String.eqb_refl]);
              rewrite Hy in Hx; discriminate Hx
          end ]
    | intros p' E;
      first
        [ discriminate E
        | injection E as <-;
          cbn [Faucet.token Faucet.toAddress];
          (split; [reflexivity|]);
          (split;
           [ match goal with
             | Hx : existsb _ _ = true |- _ =>
                 apply existsb_exists in Hx; destruct Hx as (x & Hin & Hx);
                 apply String.eqb_eq in Hx; rewrite Hx; exact Hin
             end |]) ] ].
  - left. split; [apply truthy_false; assumption|]. split; reflexivity.
  - right. left. split; [assumption|]. split; [apply Nat.eqb_eq; assumption|].
    split; reflexivity.
  - right. right. left. reflexivity.
  - right. right. right. eexists. split; reflexivity.
Qed.

(** The validation of a faucet request fails only for a token that is not
    one of the six supported, written as they are, and then before any
    call.  A request that passes asks for a supported token, BNB when it
    names none; its recipient is the address of the wallet when it names
    none, the recipient as given when it is a string of 42 characters that
    starts with 0x, and otherwise what the formatting of the recipient
    answered, or the address of the wallet when the formatting failed. *)
Theorem faucet_recipient env p h r h' :
  Faucet.validateAndNormalizeParams p env h = (r, h') ->
  (forall e, r = Throw e ->
     h' = h
     /\ ~ In (Js.or_else (Faucet.token p) "BNB") Faucet.SUPPORTED_TOKENS
     /\ e = "Unsupported token: " ^^ Js.or_else (Faucet.token p) "BNB"
            ^^ ". Supported tokens are: BNB, BTC, BUSD, DAI, ETH, USDC")
  /\ (forall p', r = Ok p' ->
        Faucet.token p' = Js.or_else (Faucet.token p) "BNB"
        /\ In (Faucet.token p') Faucet.SUPPORTED_TOKENS
        /\ ((Faucet.toAddress p = "" /\ Faucet.toAddress p' = address env
             /\ h' = h)
            \/ (Js.startsWith (Faucet.toAddress p) "0x" = true
                /\ String.length (Faucet.toAddress p) = 42%nat
                /\ Faucet.toAddress p' = Faucet.toAddress p /\ h' = h)
            \/ (h' = (FormatAddress (Faucet.toAddress p),
                      RStr (Faucet.toAddress p')) :: h)
            \/ (exists e,
                   h' = (FormatAddress (Faucet.toAddress p), RThrow e) :: h
                   /\ Faucet.toAddress p' = address env))).
Proof.
  exact (faucet_validate_inv env p h r h').
Qed.

Lemma faucet_recipient_witness :
  In "BNB" Faucet.SUPPORTED_TOKENS.
Proof.
  exact (proj1 (proj2 (proj2
           (faucet_recipient Sample.env
              {| Faucet.token := ""; Faucet.toAddress := "" |} []
              (Ok {| Faucet.token := "BNB"; Faucet.toAddress := Sample.WALLET |})
              [] eq_refl)
           _ eq_refl))).
Defined.

Lemma session_timeout pre acks rest :
  forallb Faucet.unheardBeforeOpen pre = true ->
  forallb Faucet.settlesNothing acks = true ->
  Faucet.session (pre ++ Faucet.Open :: acks ++ Faucet.TimerFired :: rest)
  = (Faucet.Rejected "Faucet request timeout",
     {| Faucet.sends := 1; Faucet.closes := 2 |}).
Proof.
  intros Hpre Hacks.
  unfold Faucet.session. rewrite (awaitOpen_skip _ _ Hpre).
  cbn [Faucet.awaitOpen]. rewrite (awaitHash_timeout _ _ Hacks). reflexivity.
Qed.

(** The failure response of the faucet handler names the token and the
    recipient as the validation has rewritten them in the parameters
    object, not as they were asked.  When the faucet stays silent until the
    timer fires, the handler tells the callback that the request timed
    out, with the normalised token and recipient, and returns false; when
    the token is not supported it tells so in the words of the validation,
    with the token and the recipient of the request, before any call and
    whatever the socket would deliver. *)
Theorem faucet_handler_failures env p cb h pre acks rest :
  forallb Faucet.unheardBeforeOpen pre = true ->
  forallb Faucet.settlesNothing acks = true ->
  let told (message token recipient : string) :=
    (Callback ("Failed to get test tokens: " ^^ message)
       (Js.Obj [("success", Js.Bool false);
                ("error", Js.Str message);
                ("requestedToken", Js.Str token);
                ("requestedAddress", Js.Str recipient)]), RUnit) in
  (forall p' h',
      Faucet.validateAndNormalizeParams p env h = (Ok p', h') ->
      FaucetHandler.execute p
        (pre ++ Faucet.Open :: acks ++ Faucet.TimerFired :: rest) cb env h
      = (Ok (Some false),
         if cb
         then told "The faucet request timed out. Please try again later."
                (Faucet.token p')
                (Js.or_else (Faucet.toAddress p') (address env)) :: h'
         else h'))
  /\ (forall events,
        let e := "Unsupported token: " ^^ Faucet.token p
                 ^^ ". Supported tokens are: BNB, BTC, BUSD, DAI, ETH, USDC" in
        ~ In (Js.or_else (Faucet.token p) "BNB") Faucet.SUPPORTED_TOKENS ->
        Js.includes e "Invalid address" = false ->
        FaucetHandler.execute p events cb env h
        = (Ok (Some false),
           if cb then told e (Faucet.token p) (Faucet.toAddress p) :: h else h)).
Proof.
  intros Hpre Hacks told.
  split.
  - intros p' h' Hv.
    destruct (faucet_validate_inv _ _ _ _ _ Hv) as (_ & Hok).
    destruct (Hok p' eq_refl) as (_ & Hin & _).
    assert (Et : Js.or_else (Faucet.token p') "BNB" = Faucet.token p').
    { unfold Js.or_else.
      destruct (Js.truthy (Faucet.token p')) eqn:E; [reflexivity|].
      apply truthy_false in E. rewrite E in Hin. vm_compute in Hin.
      repeat (destruct Hin as [Hin|Hin]; [discriminate Hin|]). destruct Hin. }
    unfold FaucetHandler.execute, Faucet.faucet.
    cbv beta iota zeta delta [bind try_catch ret throw emit].
    rewrite Hv. rewrite (session_timeout _ _ _ Hpre Hacks).
    cbn [fst FaucetHandler.written Faucet.token Faucet.toAddress].
    rewrite Et. destruct cb; reflexivity.
  - intros events e Hn Hi.
    assert (Et : Js.or_else (Faucet.token p) "BNB" = Faucet.token p).
    { unfold Js.or_else.
      destruct (Js.truthy (Faucet.token p)) eqn:E; [reflexivity|].
      exfalso. apply Hn. unfold Js.or_else. rewrite E.
      cbn [Faucet.SUPPORTED_TOKENS In]. tauto. }
    destruct (Faucet.validateAndNormalizeParams p env h) as [r h'] eqn:Hv.
    destruct (faucet_validate_inv _ _ _ _ _ Hv) as (Hthrow & Hok).
    destruct r as [p'|e'].
    + exfalso. destruct (Hok p' eq_refl) as (Et' & Hin & _).
      rewrite Et' in Hin. exact (Hn Hin).
    + destruct (Hthrow e' eq_refl) as (-> & _ & ->).
      unfold FaucetHandler.execute, Faucet.faucet.
      cbv beta iota zeta delta [bind try_catch ret throw emit].
      rewrite Hv.
      cbn [fst FaucetHandler.written Faucet.token Faucet.toAddress].
      rewrite Et.
      assert (Hm : FaucetHandler.failureMessage e = e).
      { unfold FaucetHandler.failureMessage. rewrite Hi.
        assert (Hu : Js.includes e "Unsupported token" = true).
        { apply includes_prefix. subst e.
          change ("Unsupported token: " ^^ ?x)
            with ("Unsupported token" ^^ ": " ^^ x).
          apply prefix_append. }
        rewrite Hu. reflexivity. }
      cbn [message_of]. fold e. rewrite Hm. destruct cb; reflexivity.
Qed.

Lemma faucet_handler_failures_witness :
  FaucetHandler.execute {| Faucet.token := ""; Faucet.toAddress := Sample.ALICE |}
    [Faucet.Open; Faucet.TimerFired] true Sample.env []
  = (Ok (Some false),
     [(Callback
         "Failed to get test tokens: The faucet request timed out. Please try again later."
         (Js.Obj [("success", Js.Bool false);
                  ("error",
                   Js.Str "The faucet request timed out. Please try again later.");
                  ("requestedToken", Js.Str "BNB");
                  ("requestedAddress", Js.Str Sample.ALICE)]), RUnit)]).
Proof.
  exact (proj1 (faucet_handler_failures Sample.env
                  {| Faucet.token := ""; Faucet.toAddress := Sample.ALICE |}
                  true [] [] [] [] eq_refl eq_refl)
           _ _ eq_refl).
Defined.

Lemma faucet_execute_events p events cb env h r h' :
  FaucetHandler.execute p events cb env h = (r, h') ->
  exists evs,
    h' = evs ++ h
    /\ forall c rsp, In (c, rsp) evs ->
                     forall t, c <> UseModel t.
Proof.
  intros H.
  unfold FaucetHandler.execute, Faucet.faucet, Faucet.validateAndNormalizeParams in H.
  paths_with ltac:(fun H => fx_norm H; cbn [Faucet.token Faucet.toAddress] in H) H.
  all: try (destruct cb).
  all: new_events; intros c rsp Hin t; in_cases Hin; discriminate.
Qed.

(** When the output of the model cannot be parsed, the faucet handler tells
    the callback that the format of the model output is invalid and
    returns false; it has not initialised the wallet provider, and no
    request is made to the faucet. *)
Theorem faucet_handler_parse_failure env events st cb r tr ml e :
  run (FaucetHandler.handler events st cb) env = (r, tr) ->
  In (UseModel "faucetTemplate", RVal ml) tr ->
  FaucetHandler.parseContent env ml = Throw e ->
  r = Ok (Some false)
  /\ ~ In InitWalletProvider (calls tr)
  /\ exists pre,
       tr = pre ++
            (if cb
             then [(Callback
                      "Failed to process faucet request parameters. Please try again with a clearer request."
                      (Js.Obj [("error", Js.Str "Invalid model output format")]),
                    RUnit)]
             else [])
       /\ forallb isRuntimeCall (calls pre) = true.
Proof.
  intros H Hin Hp.
  apply run_inv in H. destruct H as (h & H & ->).
  apply in_rev in Hin.
  unfold FaucetHandler.handler, currentState, prop in H.
  fx_paths H.
  all: try match goal with
           | Hx : FaucetHandler.execute _ _ _ _ _ = (_, _) |- _ =>
               exfalso; apply faucet_execute_events in Hx;
               destruct Hx as (evs & -> & Hevs);
               apply in_app_or in Hin; destruct Hin as [Hin|Hin];
               [exact (Hevs _ _ Hin _ eq_refl)|]
           end.
  all: in_cases Hin.
  all: try congruence.
  all: split; [reflexivity|].
  all: split;
    [ intros Hi; unfold calls in Hi; rewrite map_rev in Hi;
      apply in_rev in Hi; cbn [map fst In] in Hi;
      repeat match type of Hi with
             | _ \/ _ => destruct Hi as [Hi|Hi]
             | False => destruct Hi
             | _ = _ => discriminate Hi
             end |].
  all: cbn [rev app];
    match goal with
    | |- exists pre, ?l = pre ++ [?x] /\ _ =>
        exists (removelast l); split; [reflexivity|reflexivity]
    | |- exists pre, ?l = pre ++ [] /\ _ =>
        exists l; split; [rewrite app_nil_r; reflexivity|reflexivity]
    end.
Qed.

Lemma faucet_handler_parse_failure_witness :
  fst (run (FaucetHandler.handler [] true true)
         (Sample.chainEnv 0 0 [] (Js.Str "not json") Sample.noMatch))
  = Ok (Some false).
Proof.
  destruct (run (FaucetHandler.handler [] true true)
              (Sample.chainEnv 0 0 [] (Js.Str "not json") Sample.noMatch))
    as [r tr] eqn:E.
  assert (Hin : In (UseModel "faucetTemplate", RVal (Js.Str "not json")) tr).
  { vm_compute in E. injection E as _ <-. cbn [In]. tauto. }
  exact (proj1 (faucet_handler_parse_failure _ _ _ _ _ _ _ "SyntaxError"
                  E Hin eq_refl)).
Defined.
